(** * Device sample transfer orchestrator

    A shallow embedding of [src/lib/states/samples.svelte.ts]: the shared
    store (inventory snapshot and the three transfer channels), the probe,
    download and upload workflows, the default-inventory builder and the
    equality verifier.

    Conventions of the embedding.
    - JavaScript strings are [string]; a character stands for one code unit.
    - [null]/[undefined] of a nullable field is [None]; where the source
      tells [undefined] from [null] in a return value, [nullable] is used.
    - Numbers are only stored and passed on by this module, never computed
      with; they are embedded as [Z].
    - An [async] function is a state transformer over the store, run to
      completion; awaiting a collaborator is a call into an abstract world
      that answers with a value or a rejection. *)

From Stdlib Require Import String Ascii List ZArith Bool Arith Lia DecimalString.
Import ListNotations.

Local Open Scope string_scope.
Local Open Scope list_scope.

(** ** Values *)

#[local] Set Warnings "-register-all".

(** A JSON value, the shape of the loosely typed entries of [loops]. *)
Inductive json : Type :=
| JNull
| JBool (b : bool)
| JNumber (n : Z)
| JString (s : string)
| JArray (l : list json)
| JObject (fields : list (string * json)).

(** [type SamplePack = { name: string; loops: any[] }]; [loops] may be
    absent at run time, which [samplePackEqual] caters for with [??]. *)
Record SamplePack : Type := {
  name : string;
  loops : option (list json)
}.

(** [DeviceSamples], as far as this module looks into it: a [pages] field.
    [pages = None] is a field that is missing or [null], hence not an
    array. *)
Record DeviceSamples : Type := {
  pages : option (list (option SamplePack))
}.

(** Outcome of awaiting a promise, or of a block that may throw. *)
Inductive completion (A : Type) : Type :=
| Normal (a : A)
| Thrown.
Arguments Normal {A} a.
Arguments Thrown {A}.

(** A return value that may be [undefined], [null] or an object. *)
Inductive nullable (A : Type) : Type :=
| undefined
| null
| value (a : A).
Arguments undefined {A}.
Arguments null {A}.
Arguments value {A} a.

Definition falsy {A} (v : nullable A) : bool :=
  match v with value _ => false | _ => true end.

(** ** The store *)

Record DeviceSamplesState : Type := {
  ids : option (list (option string));
  deviceSamples : option DeviceSamples;
  isSupported : option bool;
  isSet : option bool;
  storageTotal : option Z;
  storageUsed : option Z;
  packsStorageUsed : option (list Z)
}.

(** [DEFAULT_STATE].  [$state(DEFAULT_STATE)] wraps the object in a proxy
    that keeps its own per-property sources and does not write through to
    the wrapped object, so the constant keeps these values for the life of
    the module; all of them are primitives ([null]), nothing is shared. *)
Definition DEFAULT_STATE : DeviceSamplesState := {|
  ids := None;
  deviceSamples := None;
  isSupported := None;
  isSet := None;
  storageTotal := None;
  storageUsed := None;
  packsStorageUsed := None
|}.

Inductive SampleTransferState : Type :=
| idle
| transferring (progress : option Z)
| error (message : string).

Record TransferState : Type := {
  supportCheck : SampleTransferState;
  download : SampleTransferState;
  upload : SampleTransferState
}.

Definition is_transferring (c : SampleTransferState) : bool :=
  match c with transferring _ => true | _ => false end.

Definition is_error (c : SampleTransferState) : bool :=
  match c with error _ => true | _ => false end.

(** Calls into the collaborators (device transport and remote store). *)
Inductive Call : Type :=
| call_isSet
| call_getSpaceUsed
| call_getIDs
| call_downloadSamples
| call_uploadSamples (newSamples : DeviceSamples)
| call_fetch (url : string).

(** ** String and array helpers *)

(** [String.prototype.trim] on code units below 256: the white space and
    line terminator characters in that range. *)
Definition is_white_space (c : ascii) : bool :=
  match nat_of_ascii c with
  | 9 | 10 | 11 | 12 | 13 | 32 | 160 => true
  | _ => false
  end.

Fixpoint trimStart_list (l : list ascii) : list ascii :=
  match l with
  | [] => []
  | c :: r => if is_white_space c then trimStart_list r else l
  end.

Definition trim (s : string) : string :=
  string_of_list_ascii
    (rev (trimStart_list (rev (trimStart_list (list_ascii_of_string s))))).

(** Truthiness of an array entry typed [string | null]. *)
Definition truthy_id (id : option string) : bool :=
  match id with
  | Some (String _ _) => true
  | _ => false
  end.

(** [id ? id[0] + "-" + id.slice(1) : null] *)
Definition dash_id (id : option string) : option string :=
  match id with
  | Some (String c rest) => Some (String c ("-" ++ rest)%string)
  | _ => None
  end.

(** [ids.shift()]: the removed first element ([None] is [undefined], on an
    empty array) and the array that is left. *)
Definition shift {A} (l : list A) : option A * list A :=
  match l with
  | [] => (None, [])
  | x :: r => (Some x, r)
  end.

(** [x || null] for [x] the result of [shift] on an array of
    [string | null]. *)
Definition or_null (x : option (option string)) : option string :=
  match x with
  | Some (Some (String c r)) => Some (String c r)
  | _ => None
  end.

(** Lines 63-64: [ids = ids.map(...); ids.push(ids.shift() || null)]. *)
Definition transform_ids (ids0 : list (option string)) : list (option string) :=
  let mapped := map dash_id ids0 in
  let '(first, rest) := shift mapped in
  rest ++ [or_null first].

(** The transform in the words of the specification: a separator after the
    first character of each non-null id, then a rotation to the left by
    one position. *)
Definition insert_separator (id : option string) : option string :=
  match id with
  | None => None
  | Some x =>
      Some (substring 0 1 x ++ "-" ++ substring 1 (String.length x - 1) x)%string
  end.

Definition rotate_left_by_one {A} (l : list A) : list A :=
  match l with
  | [] => []
  | x :: r => r ++ [x]
  end.

(** ** Equality verifier *)

Section Verifier.

(** [canonicalize] lives in [~/lib/utils/canonicalize], outside this
    module; [JSON.stringify] is the host's. *)
Variable canonicalize : json -> json.
Variable JSON_stringify : list json -> string.

(** [a.loops ?? []] *)
Definition loops_or_empty (p : SamplePack) : list json :=
  match loops p with
  | Some l => l
  | None => []
  end.

(** Lines 187-194. *)
Definition samplePackEqual (a b : option SamplePack) : bool :=
  match a, b with
  | None, None => true
  | None, Some _ | Some _, None => false
  | Some a, Some b =>
      if negb (String.eqb (name a) (name b)) then false
      else
        let loopsA := map canonicalize (loops_or_empty a) in
        let loopsB := map canonicalize (loops_or_empty b) in
        String.eqb (JSON_stringify loopsA) (JSON_stringify loopsB)
  end.

(** [a.pages[i]], [undefined] out of range. *)
Definition page_at (ps : list (option SamplePack)) (i : nat) : option SamplePack :=
  nth i ps None.

(** The [for] loop of [deviceSamplesEqual], from [i] for [n] rounds. *)
Fixpoint pages_equal_from (pa pb : list (option SamplePack)) (i n : nat) : bool :=
  match n with
  | O => true
  | S n' =>
      if negb (samplePackEqual (page_at pa i) (page_at pb i)) then false
      else pages_equal_from pa pb (S i) n'
  end.

(** Lines 196-203. *)
Definition deviceSamplesEqual (a b : option DeviceSamples) : bool :=
  match a, b with
  | Some a, Some b =>
      match pages a, pages b with
      | Some pa, Some pb =>
          if negb (length pa =? 10)%nat || negb (length pb =? 10)%nat then false
          else pages_equal_from pa pb 0 10
      | _, _ => false
      end
  | _, _ => false
  end.

End Verifier.

(** ** Collaborators *)

(** The device transport ([SampleManager]) at its boundary.  Every
    operation answers in a world [W] with a fulfilled value or a rejection
    and a next world.  [downloadSamples] and [uploadSamples] also report
    the values they pass to the progress callback before they settle. *)
Module SampleManager.
Record SpaceUsed : Type := {
  tot : Z;
  usd : Z;
  packs : list Z
}.

Record t (W : Type) : Type := {
  isSet : W -> completion bool * W;
  getSpaceUsed : W -> completion SpaceUsed * W;
  getIDs : W -> completion (list (option string)) * W;
  downloadSamples : W -> list Z * completion (option DeviceSamples) * W;
  uploadSamples : DeviceSamples -> W -> list Z * completion bool * W
}.
Arguments isSet {W} _ _.
Arguments getSpaceUsed {W} _ _.
Arguments getIDs {W} _ _.
Arguments downloadSamples {W} _ _.
Arguments uploadSamples {W} _ _ _.
End SampleManager.

(** What [fetch] resolves to: the [ok] flag and the outcome of
    [res.json()].  A body that is not an object ([null] or a primitive) is
    [None]; an object is read through the declared type [SamplePack], its
    name and its loops (missing, or an array).  The embedding follows the
    declared types of the module here as everywhere else: an object whose
    [loops] is present and is not an array has no value in it. *)
Record Response : Type := {
  ok : bool;
  json_body : completion (option SamplePack)
}.

Record Collaborators : Type := {
  World : Type;
  sampleManager : SampleManager.t World;
  fetch : string -> World -> completion Response * World;
  encodeURIComponent : string -> completion string;
  canonicalize : json -> json;
  JSON_stringify : list json -> string
}.

Record Store (W : Type) : Type := {
  deviceSamplesState : DeviceSamplesState;
  deviceSampleTransferState : TransferState;
  world : W;
  calls : list Call
}.
Arguments deviceSamplesState {W} _.
Arguments deviceSampleTransferState {W} _.
Arguments world {W} _.
Arguments calls {W} _.

(** Field assignments on the snapshot and on the channels. *)
Definition set_ids v (d : DeviceSamplesState) : DeviceSamplesState :=
  {| ids := v; deviceSamples := deviceSamples d; isSupported := isSupported d;
     isSet := isSet d; storageTotal := storageTotal d;
     storageUsed := storageUsed d; packsStorageUsed := packsStorageUsed d |}.
Definition set_deviceSamples v (d : DeviceSamplesState) : DeviceSamplesState :=
  {| ids := ids d; deviceSamples := v; isSupported := isSupported d;
     isSet := isSet d; storageTotal := storageTotal d;
     storageUsed := storageUsed d; packsStorageUsed := packsStorageUsed d |}.
Definition set_isSupported v (d : DeviceSamplesState) : DeviceSamplesState :=
  {| ids := ids d; deviceSamples := deviceSamples d; isSupported := v;
     isSet := isSet d; storageTotal := storageTotal d;
     storageUsed := storageUsed d; packsStorageUsed := packsStorageUsed d |}.
Definition set_isSet v (d : DeviceSamplesState) : DeviceSamplesState :=
  {| ids := ids d; deviceSamples := deviceSamples d; isSupported := isSupported d;
     isSet := v; storageTotal := storageTotal d;
     storageUsed := storageUsed d; packsStorageUsed := packsStorageUsed d |}.
Definition set_storageTotal v (d : DeviceSamplesState) : DeviceSamplesState :=
  {| ids := ids d; deviceSamples := deviceSamples d; isSupported := isSupported d;
     isSet := isSet d; storageTotal := v;
     storageUsed := storageUsed d; packsStorageUsed := packsStorageUsed d |}.
Definition set_storageUsed v (d : DeviceSamplesState) : DeviceSamplesState :=
  {| ids := ids d; deviceSamples := deviceSamples d; isSupported := isSupported d;
     isSet := isSet d; storageTotal := storageTotal d;
     storageUsed := v; packsStorageUsed := packsStorageUsed d |}.
Definition set_packsStorageUsed v (d : DeviceSamplesState) : DeviceSamplesState :=
  {| ids := ids d; deviceSamples := deviceSamples d; isSupported := isSupported d;
     isSet := isSet d; storageTotal := storageTotal d;
     storageUsed := storageUsed d; packsStorageUsed := v |}.

Definition set_supportCheck v (t : TransferState) : TransferState :=
  {| supportCheck := v; download := download t; upload := upload t |}.
Definition set_download v (t : TransferState) : TransferState :=
  {| supportCheck := supportCheck t; download := v; upload := upload t |}.
Definition set_upload v (t : TransferState) : TransferState :=
  {| supportCheck := supportCheck t; download := download t; upload := v |}.

(** ** The monad of the async functions: store passing with rejection *)

Section Monad.
Variable W : Type.

Definition M (A : Type) : Type := Store W -> completion A * Store W.

Definition ret {A} (a : A) : M A := fun s => (Normal a, s).

Definition bind {A B} (m : M A) (k : A -> M B) : M B :=
  fun s =>
    match m s with
    | (Normal a, s') => k a s'
    | (Thrown, s') => (Thrown, s')
    end.

Definition throw {A} : M A := fun s => (Thrown, s).

(** [try { body } catch { handler }] *)
Definition try_catch {A} (body handler : M A) : M A :=
  fun s =>
    match body s with
    | (Normal a, s') => (Normal a, s')
    | (Thrown, s') => handler s'
    end.

Definition read {A} (f : Store W -> A) : M A := fun s => (Normal (f s), s).

Definition on_state (f : DeviceSamplesState -> DeviceSamplesState) (s : Store W)
  : Store W :=
  {| deviceSamplesState := f (deviceSamplesState s);
     deviceSampleTransferState := deviceSampleTransferState s;
     world := world s;
     calls := calls s |}.

Definition on_transfer (f : TransferState -> TransferState) (s : Store W)
  : Store W :=
  {| deviceSamplesState := deviceSamplesState s;
     deviceSampleTransferState := f (deviceSampleTransferState s);
     world := world s;
     calls := calls s |}.

Definition assign_state (f : DeviceSamplesState -> DeviceSamplesState) : M unit :=
  fun s => (Normal tt, on_state f s).

Definition assign_transfer (f : TransferState -> TransferState) : M unit :=
  fun s => (Normal tt, on_transfer f s).

(** Entering a collaborator: the call is recorded and the world moves. *)
Definition entered (c : Call) (w : W) (s : Store W) : Store W :=
  {| deviceSamplesState := deviceSamplesState s;
     deviceSampleTransferState := deviceSampleTransferState s;
     world := w;
     calls := calls s ++ [c] |}.

Definition await {A} (c : Call) (op : W -> completion A * W) : M A :=
  fun s => let '(r, w) := op (world s) in (r, entered c w s).

(** Awaiting an operation that takes a progress callback: the callback
    runs on every reported value before the promise settles. *)
Definition await_with_progress {A} (c : Call)
    (op : W -> list Z * completion A * W)
    (onProgress : Z -> Store W -> Store W) : M A :=
  fun s =>
    let '(vals, r, w) := op (world s) in
    (r, fold_left (fun st v => onProgress v st) vals (entered c w s)).

End Monad.

Arguments ret {W A} a.
Arguments bind {W A B} m k.
Arguments throw {W A}.
Arguments try_catch {W A} body handler.
Arguments read {W A} f.
Arguments on_state {W} f s.
Arguments on_transfer {W} f s.
Arguments assign_state {W} f.
Arguments assign_transfer {W} f.
Arguments entered {W} c w s.
Arguments await {W A} c op.
Arguments await_with_progress {W A} c op onProgress.

Declare Scope js_scope.
Delimit Scope js_scope with js.
Notation "x <- m ;; k" := (bind m (fun x => k))
  (at level 61, m at next level, right associativity) : js_scope.
Notation "m ;; k" := (bind m (fun _ => k))
  (at level 61, right associativity) : js_scope.

(** ** The orchestrator *)

(** [interface SupportCheckResult { supported: boolean; isSet: boolean | null }];
    [supported] is read from the tri-state [isSupported]. *)
Module SupportCheckResult.
Record t : Type := {
  supported : option bool;
  isSet : option bool
}.
End SupportCheckResult.

(** Truthiness of a tri-state flag, and [x !== true]. *)
Definition truthy_flag (b : option bool) : bool :=
  match b with Some true => true | _ => false end.

Definition is_not_true (b : option bool) : bool := negb (truthy_flag b).

(** [x === false] *)
Definition is_false (b : option bool) : bool :=
  match b with Some false => true | _ => false end.

Definition DEFAULT_SAMPLE_PACK_IDS : list (option string) :=
  [Some "W-MIXED"; Some "W-UNDRGND"; Some "W-OLLI"; Some "W-OG"].

(** [!newSamples || !Array.isArray(newSamples.pages)
     || newSamples.pages.length !== 10] *)
Definition invalid_payload (newSamples : option DeviceSamples) : bool :=
  match newSamples with
  | None => true
  | Some d =>
      match pages d with
      | None => true
      | Some ps => negb (length ps =? 10)%nat
      end
  end.

(** [while (pages.length < 10) pages.push(null)], for [n] rounds. *)
Fixpoint pad_pages (n : nat) (ps : list (option SamplePack))
  : list (option SamplePack) :=
  match n with
  | O => ps
  | S n' => pad_pages n' (ps ++ [None])
  end.

Section Orchestrator.

Variable E : Collaborators.

Local Open Scope js_scope.

(** [$derived]: recomputed from the three channels on every read. *)
Definition _isTransfering (s : Store (World E)) : bool :=
  is_transferring (supportCheck (deviceSampleTransferState s))
  || is_transferring (download (deviceSampleTransferState s))
  || is_transferring (upload (deviceSampleTransferState s)).

(** Line 24: [Object.assign] copies the seven own properties of
    [DEFAULT_STATE], one by one, onto the snapshot. *)
Definition invalidateDeviceSamplesState (s : Store (World E)) : Store (World E) :=
  on_state
    (fun d =>
       set_packsStorageUsed (packsStorageUsed DEFAULT_STATE)
         (set_storageUsed (storageUsed DEFAULT_STATE)
            (set_storageTotal (storageTotal DEFAULT_STATE)
               (set_isSet (isSet DEFAULT_STATE)
                  (set_isSupported (isSupported DEFAULT_STATE)
                     (set_deviceSamples (deviceSamples DEFAULT_STATE)
                        (set_ids (ids DEFAULT_STATE) d)))))))
    s.

(** Lines 40-74.  The busy path returns nothing ([undefined]). *)
Definition checkDeviceSampleSupport : M (World E) (option SupportCheckResult.t) :=
  busy <- read _isTransfering ;;
  if (busy : bool) then
    (assign_transfer (set_supportCheck (error "Transfer already in progress")) ;;
     ret None)
  else
    (assign_transfer (set_supportCheck (transferring None)) ;;
     try_catch
       (isSet' <- await call_isSet (SampleManager.isSet (sampleManager E)) ;;
        assign_state (set_isSupported (Some true)) ;;
        assign_state (set_isSet (Some isSet')) ;;
        if (isSet' : bool) then
          (spaceUsed <- await call_getSpaceUsed (SampleManager.getSpaceUsed (sampleManager E)) ;;
           assign_state (set_storageTotal (Some (SampleManager.tot spaceUsed))) ;;
           assign_state (set_storageUsed (Some (SampleManager.usd spaceUsed))) ;;
           assign_state (set_packsStorageUsed (Some (SampleManager.packs spaceUsed))) ;;
           ids0 <- await call_getIDs (SampleManager.getIDs (sampleManager E)) ;;
           assign_state (set_ids (Some (transform_ids ids0))))
        else ret tt)
       (assign_state (set_isSupported (Some false))) ;;
     assign_transfer (set_supportCheck idle) ;;
     st <- read deviceSamplesState ;;
     ret (Some {| SupportCheckResult.supported := isSupported st;
                  SupportCheckResult.isSet := isSet st |})).

(** Lines 76-86.  No handler surrounds the awaited [downloadSamples]. *)
Definition downloadDeviceSamples : M (World E) (nullable DeviceSamples) :=
  busy <- read _isTransfering ;;
  if (busy : bool) then
    (assign_transfer (set_download (error "Transfer already in progress")) ;;
     ret undefined)
  else
    (st <- read deviceSamplesState ;;
     if is_not_true (isSet st) then
       (assign_transfer (set_download (error "Device samples not set")) ;;
        ret null)
     else
       (assign_transfer (set_download (transferring None)) ;;
        samples <- await_with_progress call_downloadSamples
                     (SampleManager.downloadSamples (sampleManager E))
                     (fun val => on_transfer (set_download (transferring (Some val)))) ;;
        assign_transfer (set_download idle) ;;
        match samples with
        | None =>
            assign_transfer
              (set_download (error "Failed to download samples from device")) ;;
            ret null
        | Some d =>
            assign_state (set_deviceSamples (Some d)) ;;
            ret (value d)
        end)).

(** The recurring [{ ...upload = { type: 'error', message }; return false; }]. *)
Definition fail_upload (message : string) : M (World E) bool :=
  assign_transfer (set_upload (error message)) ;;
  ret false.

(** Lines 88-112.  [newSamples = None] is a [null] or [undefined] payload;
    past the validation of line 92 the payload is an object. *)
Definition uplaodDeviceSamples (newSamples : option DeviceSamples) : M (World E) bool :=
  busy <- read _isTransfering ;;
  if (busy : bool) then fail_upload "Transfer already in progress"
  else
    (st <- read deviceSamplesState ;;
     if is_not_true (isSupported st) then
       fail_upload "Device does not support samples"
     else if invalid_payload newSamples then fail_upload "Invalid samples payload"
     else
       match newSamples with
       | None => fail_upload "Invalid samples payload"
       | Some payload =>
           assign_transfer (set_upload (transferring None)) ;;
           success <- await_with_progress (call_uploadSamples payload)
                        (SampleManager.uploadSamples (sampleManager E) payload)
                        (fun val => on_transfer (set_upload (transferring (Some val)))) ;;
           if negb success then fail_upload "Failed to upload samples to device"
           else
             (assign_transfer (set_upload idle) ;;
              assign_transfer (set_supportCheck (transferring None)) ;;
              isSet' <- await call_isSet (SampleManager.isSet (sampleManager E)) ;;
              assign_state (set_isSet (Some isSet')) ;;
              assign_transfer (set_supportCheck idle) ;;
              st' <- read deviceSamplesState ;;
              if is_false (isSet st') then fail_upload "Device samples are not set"
              else
                (downloadSamples <- downloadDeviceSamples ;;
                 match downloadSamples with
                 | value d =>
                     let identical :=
                       deviceSamplesEqual (canonicalize E) (JSON_stringify E)
                         (Some payload) (Some d) in
                     if negb identical then
                       fail_upload "Uploaded and downloaded samples are not identical"
                     else ret true
                 | _ => fail_upload "Failed to re-download samples after upload"
                 end))
       end).

(** Lines 161-171; everything inside is under [try]/[catch].
    [encodeURIComponent] is evaluated first and throws on an id that is
    not well formed, before any request is made.  The module is strict
    code, so [pack.name = id] throws on a body that is not an object. *)
Definition fetchServerPack (id : string) : M (World E) (option SamplePack) :=
  try_catch
    (encoded <- (fun s => (encodeURIComponent E id, s)) ;;
     let url := ("/samples/MONKEY/DRM/" ++ encoded ++ ".json")%string in
     res <- await (call_fetch url) (fetch E url) ;;
     if negb (ok res) then ret None
     else
       (pack <- (fun s => (json_body res, s)) ;;
        match pack with
        | None => throw
        | Some p => ret (Some {| name := id; loops := loops p |})
        end))
    (ret None).

(** The [for] loop of [buildDeviceSamplesFromIds] over the ids that are
    left, [ps] being the pages pushed so far. *)
Fixpoint build_pages (rest : list (option string)) (ps : list (option SamplePack))
  : M (World E) (option (list (option SamplePack))) :=
  match rest with
  | [] => ret (Some ps)
  | id :: rest' =>
      match id with
      | Some (String c r) =>
          pack <- fetchServerPack (trim (String c r)) ;;
          match pack with
          | None => ret None
          | Some p => build_pages rest' (ps ++ [Some p])
          end
      | _ => build_pages rest' (ps ++ [None])
      end
  end.

(** Lines 173-185.  [ids0 = None] is a [null] or [undefined] argument. *)
Definition buildDeviceSamplesFromIds (ids0 : option (list (option string)))
  : M (World E) (option DeviceSamples) :=
  match ids0 with
  | None => ret None
  | Some l =>
      if (length l <? 1)%nat || (10 <? length l)%nat then ret None
      else
        (r <- build_pages l [] ;;
         match r with
         | None => ret None
         | Some ps => ret (Some {| pages := Some (pad_pages (10 - length ps) ps) |})
         end)
  end.

(** Lines 115-121. *)
Definition uplaodDeviceDefaultSamples : M (World E) bool :=
  busy <- read _isTransfering ;;
  if (busy : bool) then fail_upload "Transfer already in progress"
  else
    (deviceSamples' <- buildDeviceSamplesFromIds (Some DEFAULT_SAMPLE_PACK_IDS) ;;
     match deviceSamples' with
     | None => fail_upload "Failed to construct default sample packs"
     | Some d => uplaodDeviceSamples (Some d)
     end).

(** Lines 123-150.  Reading [supportAfter.supported] throws when the second
    probe returned nothing. *)
Definition initialiseDeviceSamples : M (World E) unit :=
  support <- checkDeviceSampleSupport ;;
  match support with
  | None => ret tt
  | Some support =>
      if negb (truthy_flag (SupportCheckResult.supported support)) then ret tt
      else if negb (truthy_flag (SupportCheckResult.supported support)) then ret tt
      else
        let finish := (downloadDeviceSamples ;; ret tt) in
        if is_not_true (SupportCheckResult.isSet support) then
          (didUpload <- uplaodDeviceDefaultSamples ;;
           if negb didUpload then
             (assign_transfer
                (set_upload
                   (error "Failed to upload default samples during initialisation")) ;;
              ret tt)
           else
             (supportAfter <- checkDeviceSampleSupport ;;
              match supportAfter with
              | None => throw
              | Some after =>
                  if negb (truthy_flag (SupportCheckResult.supported after))
                     || negb (truthy_flag (SupportCheckResult.isSet after))
                  then
                    (assign_transfer
                       (set_supportCheck
                          (error "Device samples still not set after uploading defaults")) ;;
                     ret tt)
                  else finish
              end))
        else finish
  end.

End Orchestrator.

Arguments trim : simpl never.
Arguments deviceSamplesEqual : simpl never.
Arguments _isTransfering : simpl never.
Arguments checkDeviceSampleSupport : simpl never.
Arguments downloadDeviceSamples : simpl never.
Arguments uplaodDeviceSamples : simpl never.
Arguments fetchServerPack : simpl never.
Arguments buildDeviceSamplesFromIds : simpl never.
Arguments uplaodDeviceDefaultSamples : simpl never.
Arguments initialiseDeviceSamples : simpl never.

(** ** Notions used to state the properties *)

Definition idle_channels : TransferState :=
  {| supportCheck := idle; download := idle; upload := idle |}.

(** The store when the module has just been loaded. *)
Definition initial_store {W} (w : W) : Store W :=
  {| deviceSamplesState := DEFAULT_STATE;
     deviceSampleTransferState := idle_channels;
     world := w;
     calls := [] |}.

Definition BUSY : string := "Transfer already in progress".

Section Statements.

Variable E : Collaborators.

(** [fetched_all l s ps s']: going through [l] from store [s], every entry
    that is truthy was fetched with success, one after the other, leaving
    store [s']; [ps] holds the fetched pack at a truthy entry and [null] at
    a falsy one. *)
Inductive fetched_all
  : list (option string) -> Store (World E) -> list (option SamplePack)
    -> Store (World E) -> Prop :=
| fetched_nil s :
    fetched_all [] s [] s
| fetched_gap id l s ps s' :
    truthy_id id = false ->
    fetched_all l s ps s' ->
    fetched_all (id :: l) s (None :: ps) s'
| fetched_pack id l s p s1 ps s' :
    truthy_id (Some id) = true ->
    fetchServerPack E (trim id) s = (Normal (Some p), s1) ->
    fetched_all l s1 ps s' ->
    fetched_all (Some id :: l) s (Some p :: ps) s'.

(** Some truthy entry of [l] is reached with all fetches before it
    successful, and its own fetch yields [null]. *)
Definition some_fetch_fails (l : list (option string)) (s : Store (World E)) : Prop :=
  exists pre id post ps s1,
    l = pre ++ Some id :: post
    /\ truthy_id (Some id) = true
    /\ fetched_all pre s ps s1
    /\ fst (fetchServerPack E (trim id) s1) = Normal None.

(** The message an upload of a malformed payload fails with: the gates are
    passed in the order of the source. *)
Definition rejection_message (s : Store (World E)) : string :=
  if _isTransfering E s then BUSY
  else if is_not_true (isSupported (deviceSamplesState s))
       then "Device does not support samples"
       else "Invalid samples payload".

End Statements.

(** ** Concrete collaborators *)

(** A plain serializer and the identity canonicalizer, to run the verifier
    on concrete packs. *)
Definition double_quote : ascii := ascii_of_nat 34.

Definition quote (s : string) : string :=
  (String double_quote s ++ String double_quote EmptyString)%string.

Fixpoint print_json (j : json) : string :=
  match j with
  | JNull => "null"
  | JBool true => "true"
  | JBool false => "false"
  | JNumber n => NilZero.string_of_int (Z.to_int n)
  | JString s => quote s
  | JArray l => ("[" ++ String.concat "," (map print_json l) ++ "]")%string
  | JObject fields =>
      ("{" ++ String.concat ","
                (map (fun kv => (quote (fst kv) ++ ":" ++ print_json (snd kv))%string) fields)
           ++ "}")%string
  end.

Definition print_array (l : list json) : string := print_json (JArray l).

(** A transport and a store that replay a script: every operation answers
    with the next entry of its list, and rejects once the list is used up;
    the remote store serves the urls it lists and rejects the others. *)
Module Scripted.

Record world : Type := {
  isSet_answers : list (completion bool);
  getSpaceUsed_answers : list (completion SampleManager.SpaceUsed);
  getIDs_answers : list (completion (list (option string)));
  downloadSamples_answers : list (list Z * completion (option DeviceSamples));
  uploadSamples_answers : list (list Z * completion bool);
  served : list (string * Response)
}.

Definition isSet (w : world) : completion bool * world :=
  match isSet_answers w with
  | [] => (Thrown, w)
  | a :: rest =>
      (a, {| isSet_answers := rest;
             getSpaceUsed_answers := getSpaceUsed_answers w;
             getIDs_answers := getIDs_answers w;
             downloadSamples_answers := downloadSamples_answers w;
             uploadSamples_answers := uploadSamples_answers w;
             served := served w |})
  end.

Definition getSpaceUsed (w : world) : completion SampleManager.SpaceUsed * world :=
  match getSpaceUsed_answers w with
  | [] => (Thrown, w)
  | a :: rest =>
      (a, {| isSet_answers := isSet_answers w;
             getSpaceUsed_answers := rest;
             getIDs_answers := getIDs_answers w;
             downloadSamples_answers := downloadSamples_answers w;
             uploadSamples_answers := uploadSamples_answers w;
             served := served w |})
  end.

Definition getIDs (w : world) : completion (list (option string)) * world :=
  match getIDs_answers w with
  | [] => (Thrown, w)
  | a :: rest =>
      (a, {| isSet_answers := isSet_answers w;
             getSpaceUsed_answers := getSpaceUsed_answers w;
             getIDs_answers := rest;
             downloadSamples_answers := downloadSamples_answers w;
             uploadSamples_answers := uploadSamples_answers w;
             served := served w |})
  end.

Definition downloadSamples (w : world)
  : list Z * completion (option DeviceSamples) * world :=
  match downloadSamples_answers w with
  | [] => ([], Thrown, w)
  | a :: rest =>
      (a, {| isSet_answers := isSet_answers w;
             getSpaceUsed_answers := getSpaceUsed_answers w;
             getIDs_answers := getIDs_answers w;
             downloadSamples_answers := rest;
             uploadSamples_answers := uploadSamples_answers w;
             served := served w |})
  end.

Definition uploadSamples (_ : DeviceSamples) (w : world)
  : list Z * completion bool * world :=
  match uploadSamples_answers w with
  | [] => ([], Thrown, w)
  | a :: rest =>
      (a, {| isSet_answers := isSet_answers w;
             getSpaceUsed_answers := getSpaceUsed_answers w;
             getIDs_answers := getIDs_answers w;
             downloadSamples_answers := downloadSamples_answers w;
             uploadSamples_answers := rest;
             served := served w |})
  end.

Fixpoint lookup (url : string) (l : list (string * Response)) : completion Response :=
  match l with
  | [] => Thrown
  | (u, r) :: rest => if String.eqb u url then Normal r else lookup url rest
  end.

Definition fetch (url : string) (w : world) : completion Response * world :=
  (lookup url (served w), w).

Definition collaborators : Collaborators :=
  Build_Collaborators world
    (SampleManager.Build_t world isSet getSpaceUsed getIDs downloadSamples uploadSamples)
    fetch (fun s => Normal s) (fun j => j) print_array.

(** A world in which nothing answers. *)
Definition silent : world :=
  {| isSet_answers := [];
     getSpaceUsed_answers := [];
     getIDs_answers := [];
     downloadSamples_answers := [];
     uploadSamples_answers := [];
     served := [] |}.

End Scripted.

(** A device that keeps what it is sent: [uploadSamples] stores the
    collection, [downloadSamples] reads it back, and no operation rejects. *)
Module Keeper.

Definition world : Type := option DeviceSamples.

Definition isSet (w : world) : completion bool * world :=
  (Normal (match w with Some _ => true | None => false end), w).

Definition getSpaceUsed (w : world) : completion SampleManager.SpaceUsed * world :=
  (Normal {| SampleManager.tot := 100; SampleManager.usd := 0;
             SampleManager.packs := [] |}, w).

Definition getIDs (w : world) : completion (list (option string)) * world :=
  (Normal [], w).

Definition downloadSamples (w : world)
  : list Z * completion (option DeviceSamples) * world :=
  ([50%Z; 100%Z], Normal w, w).

Definition uploadSamples (p : DeviceSamples) (_ : world)
  : list Z * completion bool * world :=
  ([100%Z], Normal true, Some p).

Definition collaborators : Collaborators :=
  Build_Collaborators world
    (SampleManager.Build_t world isSet getSpaceUsed getIDs downloadSamples uploadSamples)
    (fun _ w => (Thrown, w)) (fun s => Normal s) (fun j => j) print_array.

End Keeper.

(** Scripts used below. *)
Definition set_answers : Scripted.world :=
  {| Scripted.isSet_answers := [Normal true];
     Scripted.getSpaceUsed_answers := [];
     Scripted.getIDs_answers := [];
     Scripted.downloadSamples_answers := [];
     Scripted.uploadSamples_answers := [];
     Scripted.served := [] |}.

Definition ids_answers (l : list (option string)) : Scripted.world :=
  {| Scripted.isSet_answers := [Normal true];
     Scripted.getSpaceUsed_answers :=
       [Normal {| SampleManager.tot := 4096; SampleManager.usd := 1024;
                  SampleManager.packs := [512; 512]%Z |}];
     Scripted.getIDs_answers := [Normal l];
     Scripted.downloadSamples_answers := [];
     Scripted.uploadSamples_answers := [];
     Scripted.served := [] |}.

Definition serves_A_only : Scripted.world :=
  {| Scripted.isSet_answers := [];
     Scripted.getSpaceUsed_answers := [];
     Scripted.getIDs_answers := [];
     Scripted.downloadSamples_answers := [];
     Scripted.uploadSamples_answers := [];
     Scripted.served :=
       [("/samples/MONKEY/DRM/A.json",
         {| ok := true;
            json_body := Normal (Some {| name := "unnamed"; loops := Some [JNumber 1] |}) |})] |}.

(** Sample data. *)
Definition kick : SamplePack :=
  {| name := "W-OG"; loops := Some [JObject [("bpm", JNumber 120)]] |}.

Definition ten_slots : DeviceSamples :=
  {| pages := Some [Some kick; None; None; None; None; None; None; None; None; None] |}.

Definition supported_store {W} (w : W) : Store W :=
  on_state (set_isSet (Some true)) (on_state (set_isSupported (Some true)) (initial_store w)).

(** ** Further notions *)

(** The inventory snapshot without its [deviceSamples]. *)
Definition inventory_but_samples (d : DeviceSamplesState) :=
  (ids d, isSupported d, isSet d, storageTotal d, storageUsed d, packsStorageUsed d).

(** The inventory snapshot without its [isSet] and [deviceSamples]. *)
Definition inventory_of_probe (d : DeviceSamplesState) :=
  (ids d, isSupported d, storageTotal d, storageUsed d, packsStorageUsed d).

(** A collection with a [pages] array of exactly ten entries. *)
Definition has_ten_slots (d : DeviceSamples) : bool :=
  match pages d with
  | Some ps => (length ps =? 10)%nat
  | None => false
  end.

(** The store after the rest of the program has run its [steps]. *)
Definition after {W} (steps : list (Store W -> Store W)) (s : Store W) : Store W :=
  fold_left (fun st step => step st) steps s.

(** Lines 152-156.  Every round of the loop sleeps on a timer while the rest
    of the program runs; [meanwhile] lists what the rest of the program does
    to the store during the successive sleeps.  The result is [None] when
    the loop is still waiting once the listed sleeps are over. *)
Fixpoint waitForUploadToFinish {W} (meanwhile : list (Store W -> Store W))
    (s : Store W) : option (Store W) :=
  if is_transferring (supportCheck (deviceSampleTransferState s))
     || is_transferring (download (deviceSampleTransferState s))
     || is_transferring (upload (deviceSampleTransferState s))
  then
    match meanwhile with
    | [] => None
    | during_sleep :: later => waitForUploadToFinish later (during_sleep s)
    end
  else Some s.

(** The store of an upload once the transport has accepted the payload and
    [isSet()] has answered [b]: lines 93-101, seen from the entry store. *)
Definition reprobed_store {W} (s : Store W) (b : bool) (w : W) (payload : DeviceSamples)
  : Store W :=
  {| deviceSamplesState := set_isSet (Some b) (deviceSamplesState s);
     deviceSampleTransferState :=
       {| supportCheck := idle;
          download := download (deviceSampleTransferState s);
          upload := idle |};
     world := w;
     calls := calls s ++ [call_uploadSamples payload; call_isSet] |}.

(** The url that [fetchServerPack] asks for (line 164), for an id that
    [encodeURIComponent] accepts; for an id it throws on there is no url
    and no request, and the empty string stands in. *)
Definition pack_url (E : Collaborators) (id : string) : string :=
  match encodeURIComponent E id with
  | Normal encoded => ("/samples/MONKEY/DRM/" ++ encoded ++ ".json")%string
  | Thrown => EmptyString
  end.

(** The request that [fetchServerPack] makes for an id: one, or none when
    [encodeURIComponent] throws. *)
Definition request_of (E : Collaborators) (id : string) : list Call :=
  match encodeURIComponent E id with
  | Normal encoded => [call_fetch ("/samples/MONKEY/DRM/" ++ encoded ++ ".json")%string]
  | Thrown => []
  end.

Definition requests (E : Collaborators) (ids0 : list string) : list Call :=
  flat_map (request_of E) ids0.

(** The ids that the builder asks the remote store for: the truthy entries,
    trimmed, in the order of the input. *)
Fixpoint requested_ids (l : list (option string)) : list string :=
  match l with
  | [] => []
  | Some (String c r) :: rest => trim (String c r) :: requested_ids rest
  | _ :: rest => requested_ids rest
  end.

(** Further scripts and sample data. *)
Definition unset_answers : Scripted.world :=
  {| Scripted.isSet_answers := [Normal false];
     Scripted.getSpaceUsed_answers := [];
     Scripted.getIDs_answers := [];
     Scripted.downloadSamples_answers := [];
     Scripted.uploadSamples_answers := [];
     Scripted.served := [] |}.

(** A device that answers one download, reporting progress twice. *)
Definition download_answers (r : completion (option DeviceSamples)) : Scripted.world :=
  {| Scripted.isSet_answers := [];
     Scripted.getSpaceUsed_answers := [];
     Scripted.getIDs_answers := [];
     Scripted.downloadSamples_answers := [([10; 90]%Z, r)];
     Scripted.uploadSamples_answers := [];
     Scripted.served := [] |}.

(** A device that answers one upload and then the given [isSet] calls. *)
Definition upload_answers (accepted : bool) (set : list (completion bool))
  : Scripted.world :=
  {| Scripted.isSet_answers := set;
     Scripted.getSpaceUsed_answers := [];
     Scripted.getIDs_answers := [];
     Scripted.downloadSamples_answers := [];
     Scripted.uploadSamples_answers := [([50]%Z, Normal accepted)];
     Scripted.served := [] |}.

(** A device that is set, answers a whole probe and one download. *)
Definition set_device_answers (d : DeviceSamples) : Scripted.world :=
  {| Scripted.isSet_answers := [Normal true];
     Scripted.getSpaceUsed_answers :=
       [Normal {| SampleManager.tot := 4096; SampleManager.usd := 1024;
                  SampleManager.packs := [512; 512]%Z |}];
     Scripted.getIDs_answers := [Normal [Some "WOG"; None]];
     Scripted.downloadSamples_answers := [([]%Z, Normal (Some d))];
     Scripted.uploadSamples_answers := [];
     Scripted.served := [] |}.

Definition bare : SamplePack := {| name := "W-OG"; loops := None |}.

Definition hollow : SamplePack := {| name := "W-OG"; loops := Some [] |}.

(** A store in which a download is in flight. *)
Definition downloading_store {W} (w : W) : Store W :=
  on_transfer (set_download (transferring (Some 40%Z))) (supported_store w).

(** The scripted collaborators with an [encodeURIComponent] that throws on
    every id. *)
Definition refusing_collaborators : Collaborators :=
  Build_Collaborators Scripted.world
    (sampleManager Scripted.collaborators) (fetch Scripted.collaborators)
    (fun _ => Thrown) (fun j => j) print_array.

(** * Properties *)

Ltac unfold_run :=
  unfold initialiseDeviceSamples, uplaodDeviceDefaultSamples, uplaodDeviceSamples,
    downloadDeviceSamples, checkDeviceSampleSupport, fail_upload,
    bind, ret, read, throw, try_catch, assign_state, assign_transfer,
    await, await_with_progress in *.

(** Case analysis on the answer of the next collaborator call. *)
Ltac call_cases :=
  match goal with
  | |- context [SampleManager.isSet ?d ?w] =>
      destruct (SampleManager.isSet d w) as [[[|]|] ?] eqn:?
  | |- context [SampleManager.getSpaceUsed ?d ?w] =>
      destruct (SampleManager.getSpaceUsed d w) as [[?|] ?] eqn:?
  | |- context [SampleManager.getIDs ?d ?w] =>
      destruct (SampleManager.getIDs d w) as [[?|] ?] eqn:?
  | |- context [SampleManager.downloadSamples ?d ?w] =>
      destruct (SampleManager.downloadSamples d w) as [[? [[?|]|]] ?] eqn:?
  | |- context [SampleManager.uploadSamples ?d ?p ?w] =>
      destruct (SampleManager.uploadSamples d p w) as [[? [[|]|]] ?] eqn:?
  end; cbn.

Section Properties.

Variable E : Collaborators.

(** ** The store *)

(** C9.  Reset puts every field of the inventory snapshot back to the
    all-unknown default and leaves the three channels, the world and the
    record of calls as they were. *)
Theorem invalidate_resets_snapshot_only (s : Store (World E)) :
  let s' := invalidateDeviceSamplesState E s in
  deviceSamplesState s' = DEFAULT_STATE
  /\ ids (deviceSamplesState s') = None
  /\ deviceSamples (deviceSamplesState s') = None
  /\ isSupported (deviceSamplesState s') = None
  /\ isSet (deviceSamplesState s') = None
  /\ storageTotal (deviceSamplesState s') = None
  /\ storageUsed (deviceSamplesState s') = None
  /\ packsStorageUsed (deviceSamplesState s') = None
  /\ supportCheck (deviceSampleTransferState s') = supportCheck (deviceSampleTransferState s)
  /\ download (deviceSampleTransferState s') = download (deviceSampleTransferState s)
  /\ upload (deviceSampleTransferState s') = upload (deviceSampleTransferState s)
  /\ world s' = world s
  /\ calls s' = calls s.
Proof.
  cbn. repeat split.
Qed.

(** ** Equality verifier *)

(** C10.  A pack whose [loops] is missing compares equal to the pack of the
    same name with an empty [loops], in both argument orders. *)
Theorem missing_loops_equal_empty_loops (n : string) :
  let absent := {| name := n; loops := None |} in
  let empty := {| name := n; loops := Some [] |} in
  samplePackEqual (canonicalize E) (JSON_stringify E) (Some absent) (Some empty) = true
  /\ samplePackEqual (canonicalize E) (JSON_stringify E) (Some empty) (Some absent) = true
  /\ loops_or_empty absent = loops_or_empty empty.
Proof.
  cbn. rewrite !String.eqb_refl. cbn. repeat split.
Qed.

(** ** Busy gate *)

Lemma busy_cases (s : Store (World E)) :
  _isTransfering E s = true <->
  is_transferring (supportCheck (deviceSampleTransferState s)) = true
  \/ is_transferring (download (deviceSampleTransferState s)) = true
  \/ is_transferring (upload (deviceSampleTransferState s)) = true.
Proof.
  unfold _isTransfering. rewrite !orb_true_iff. tauto.
Qed.

(** C2.  While any channel is in progress, probe, download and upload fail
    at once: the called operation's channel becomes [error] with the busy
    message, nothing else in the store changes, and no collaborator is
    called. *)
Theorem busy_calls_fail_fast (s : Store (World E)) (newSamples : option DeviceSamples) :
  is_transferring (supportCheck (deviceSampleTransferState s)) = true
  \/ is_transferring (download (deviceSampleTransferState s)) = true
  \/ is_transferring (upload (deviceSampleTransferState s)) = true ->
  (checkDeviceSampleSupport E s
   = (Normal None, on_transfer (set_supportCheck (error BUSY)) s)
   /\ calls (snd (checkDeviceSampleSupport E s)) = calls s)
  /\ (downloadDeviceSamples E s
      = (Normal undefined, on_transfer (set_download (error BUSY)) s)
      /\ calls (snd (downloadDeviceSamples E s)) = calls s)
  /\ (uplaodDeviceSamples E newSamples s
      = (Normal false, on_transfer (set_upload (error BUSY)) s)
      /\ calls (snd (uplaodDeviceSamples E newSamples s)) = calls s).
Proof.
  intros Hbusy. apply busy_cases in Hbusy.
  unfold_run. rewrite Hbusy. cbn. repeat split.
Qed.

(** ** Payload validation *)

(** C8 (amended).  An upload of a payload that does not have exactly ten
    slots returns [false], leaves the upload channel in [error] and calls
    no collaborator; the message is the payload-validation one when no
    channel is in progress and the device is known to be supported, and
    the busy or the unsupported one otherwise. *)
Theorem malformed_payload_never_reaches_transport
    (s : Store (World E)) (newSamples : option DeviceSamples) :
  invalid_payload newSamples = true ->
  uplaodDeviceSamples E newSamples s
  = (Normal false, on_transfer (set_upload (error (rejection_message E s))) s)
  /\ calls (snd (uplaodDeviceSamples E newSamples s)) = calls s
  /\ world (snd (uplaodDeviceSamples E newSamples s)) = world s
  /\ (_isTransfering E s = false ->
      isSupported (deviceSamplesState s) = Some true ->
      upload (deviceSampleTransferState (snd (uplaodDeviceSamples E newSamples s)))
      = error "Invalid samples payload").
Proof.
  intros Hbad. unfold rejection_message. unfold_run. rewrite Hbad.
  destruct (_isTransfering E s); cbn.
  - repeat split. discriminate.
  - destruct (is_not_true (isSupported (deviceSamplesState s))) eqn:Hsup; cbn.
    + repeat split. intros _ Hs. rewrite Hs in Hsup. discriminate.
    + repeat split.
Qed.

(** ** Progress reports *)

Section Progress.

Variable f : Z -> TransferState -> TransferState.

Lemma progress_keeps_state (vals : list Z) (st : Store (World E)) :
  deviceSamplesState (fold_left (fun st v => on_transfer (f v) st) vals st)
  = deviceSamplesState st.
Proof.
  revert st. induction vals as [|v vals IH]; intros st; cbn; [reflexivity|].
  rewrite IH. reflexivity.
Qed.

Lemma progress_keeps_world (vals : list Z) (st : Store (World E)) :
  world (fold_left (fun st v => on_transfer (f v) st) vals st) = world st.
Proof.
  revert st. induction vals as [|v vals IH]; intros st; cbn; [reflexivity|].
  rewrite IH. reflexivity.
Qed.

Lemma progress_keeps_calls (vals : list Z) (st : Store (World E)) :
  calls (fold_left (fun st v => on_transfer (f v) st) vals st) = calls st.
Proof.
  revert st. induction vals as [|v vals IH]; intros st; cbn; [reflexivity|].
  rewrite IH. reflexivity.
Qed.

Lemma progress_keeps_channel (proj : TransferState -> SampleTransferState)
    (vals : list Z) (st : Store (World E)) :
  (forall v t, proj (f v t) = proj t) ->
  proj (deviceSampleTransferState (fold_left (fun st v => on_transfer (f v) st) vals st))
  = proj (deviceSampleTransferState st).
Proof.
  intros Hf. revert st. induction vals as [|v vals IH]; intros st; cbn; [reflexivity|].
  rewrite IH. cbn. apply Hf.
Qed.

End Progress.

Ltac progress_simpl :=
  repeat first
    [ rewrite progress_keeps_state
    | rewrite progress_keeps_world
    | rewrite progress_keeps_calls
    | rewrite (progress_keeps_channel _ supportCheck) by reflexivity
    | rewrite (progress_keeps_channel _ download) by reflexivity
    | rewrite (progress_keeps_channel _ upload) by reflexivity ].

(** ** Probe *)

Lemma not_busy_cases (s : Store (World E)) :
  _isTransfering E s = false ->
  is_transferring (supportCheck (deviceSampleTransferState s)) = false
  /\ is_transferring (download (deviceSampleTransferState s)) = false
  /\ is_transferring (upload (deviceSampleTransferState s)) = false.
Proof.
  unfold _isTransfering. rewrite !orb_false_iff. tauto.
Qed.

(** The probe never rejects.  On the busy path it answers [undefined]; on
    the other path it answers a record, with its channel idle, the other
    two channels untouched, and [supported] a definite boolean. *)
Lemma probe_always_returns (s : Store (World E)) :
  exists r s',
    checkDeviceSampleSupport E s = (Normal r, s')
    /\ download (deviceSampleTransferState s') = download (deviceSampleTransferState s)
    /\ upload (deviceSampleTransferState s') = upload (deviceSampleTransferState s)
    /\ (_isTransfering E s = true ->
        r = None /\ supportCheck (deviceSampleTransferState s') = error BUSY)
    /\ (_isTransfering E s = false ->
        supportCheck (deviceSampleTransferState s') = idle
        /\ r = Some {| SupportCheckResult.supported := isSupported (deviceSamplesState s');
                       SupportCheckResult.isSet := isSet (deviceSamplesState s') |}
        /\ (isSupported (deviceSamplesState s') = Some true
            \/ isSupported (deviceSamplesState s') = Some false)).
Proof.
  unfold_run. destruct (_isTransfering E s) eqn:Hb; cbn.
  - do 2 eexists. repeat split; try discriminate.
  - repeat call_cases;
      do 2 eexists; (repeat split; try discriminate; auto).
Qed.

(** C4 (amended).  From a store with no channel in progress, a probe in
    which a transport call rejects ends with [isSupported = false], the
    probe channel idle, and the answer [{supported: false, isSet}] with the
    snapshot's [isSet]; that [isSet] is the value from before the call when
    it is [isSet()] that rejects, and [true], the answer of [isSet()], when
    it is [getSpaceUsed()] or [getIDs()] that rejects. *)
Theorem probe_transport_failure (s : Store (World E)) :
  _isTransfering E s = false ->
  let r := fst (checkDeviceSampleSupport E s) in
  let s' := snd (checkDeviceSampleSupport E s) in
  (forall w1,
      SampleManager.isSet (sampleManager E) (world s) = (Thrown, w1) ->
      r = Normal (Some {| SupportCheckResult.supported := Some false;
                          SupportCheckResult.isSet := isSet (deviceSamplesState s) |})
      /\ isSupported (deviceSamplesState s') = Some false
      /\ supportCheck (deviceSampleTransferState s') = idle
      /\ isSet (deviceSamplesState s') = isSet (deviceSamplesState s))
  /\ (forall w1 w2,
         SampleManager.isSet (sampleManager E) (world s) = (Normal true, w1) ->
         SampleManager.getSpaceUsed (sampleManager E) w1 = (Thrown, w2) ->
         r = Normal (Some {| SupportCheckResult.supported := Some false;
                             SupportCheckResult.isSet := Some true |})
         /\ isSupported (deviceSamplesState s') = Some false
         /\ supportCheck (deviceSampleTransferState s') = idle
         /\ isSet (deviceSamplesState s') = Some true)
  /\ (forall w1 spaceUsed w2 w3,
         SampleManager.isSet (sampleManager E) (world s) = (Normal true, w1) ->
         SampleManager.getSpaceUsed (sampleManager E) w1 = (Normal spaceUsed, w2) ->
         SampleManager.getIDs (sampleManager E) w2 = (Thrown, w3) ->
         r = Normal (Some {| SupportCheckResult.supported := Some false;
                             SupportCheckResult.isSet := Some true |})
         /\ isSupported (deviceSamplesState s') = Some false
         /\ supportCheck (deviceSampleTransferState s') = idle
         /\ isSet (deviceSamplesState s') = Some true).
Proof.
  intros Hidle. unfold_run. rewrite Hidle. cbn.
  split; [|split].
  - intros w1 H1. rewrite H1. cbn. repeat split.
  - intros w1 w2 H1 H2. rewrite H1. cbn. rewrite H2. cbn. repeat split.
  - intros w1 sp w2 w3 H1 H2 H3. rewrite H1. cbn. rewrite H2. cbn. rewrite H3. cbn.
    repeat split.
Qed.

(** ** Identifier transform *)

Lemma dash_is_insert_separator (id : option string) :
  id <> Some EmptyString -> dash_id id = insert_separator id.
Proof.
  intros Hne. destruct id as [[|c rest]|]; cbn; try congruence.
  destruct rest as [|c' rest']; cbn; [reflexivity|].
  assert (Hsub : forall x : string, substring 0 (String.length x) x = x).
  { induction x as [|a x IH]; cbn; [reflexivity | now rewrite IH]. }
  rewrite Hsub. reflexivity.
Qed.

Lemma transform_ids_is_rotation (ids0 : list (option string)) :
  ids0 <> [] ->
  (forall id, In id ids0 -> id <> Some EmptyString) ->
  transform_ids ids0 = rotate_left_by_one (map insert_separator ids0).
Proof.
  intros Hne Hin. unfold transform_ids.
  assert (Hmap : map dash_id ids0 = map insert_separator ids0).
  { apply map_ext_in. intros id Hid. apply dash_is_insert_separator, Hin, Hid. }
  rewrite Hmap. destruct ids0 as [|id rest]; [congruence|]. cbn.
  f_equal. f_equal.
  rewrite <- (dash_is_insert_separator id) by (apply Hin; now left).
  destruct id as [[|c r]|]; reflexivity.
Qed.

(** C6 (amended).  In a probe that succeeds with [isSet] true, for a
    sequence of ids from [getIDs] that is not empty and holds no empty
    string, the stored ids are the sequence with a separator after the
    first character of every non-null id, rotated to the left by one
    position. *)
Theorem probe_stores_rotated_ids
    (s : Store (World E)) w1 spaceUsed w2 (ids0 : list (option string)) w3 :
  _isTransfering E s = false ->
  SampleManager.isSet (sampleManager E) (world s) = (Normal true, w1) ->
  SampleManager.getSpaceUsed (sampleManager E) w1 = (Normal spaceUsed, w2) ->
  SampleManager.getIDs (sampleManager E) w2 = (Normal ids0, w3) ->
  ids0 <> [] ->
  (forall id, In id ids0 -> id <> Some EmptyString) ->
  ids (deviceSamplesState (snd (checkDeviceSampleSupport E s)))
  = Some (rotate_left_by_one (map insert_separator ids0)).
Proof.
  intros Hidle H1 H2 H3 Hne Hin. unfold_run. rewrite Hidle. cbn.
  rewrite H1. cbn. rewrite H2. cbn. rewrite H3. cbn.
  now rewrite transform_ids_is_rotation.
Qed.

(** ** Download *)

Lemma progress_stays_in_progress (vals : list Z) (st : Store (World E)) :
  is_transferring (download (deviceSampleTransferState st)) = true ->
  is_transferring
    (download
       (deviceSampleTransferState
          (fold_left (fun st v => on_transfer (set_download (transferring (Some v))) st)
             vals st))) = true.
Proof.
  revert st. induction vals as [|v vals IH]; intros st Hst; cbn; [exact Hst|].
  apply IH. reflexivity.
Qed.

(** What a download that yields a collection has done. *)
Lemma download_value (s s' : Store (World E)) (d : DeviceSamples) :
  downloadDeviceSamples E s = (Normal (value d), s') ->
  exists vals,
    SampleManager.downloadSamples (sampleManager E) (world s)
    = (vals, Normal (Some d), world s')
    /\ _isTransfering E s = false
    /\ isSet (deviceSamplesState s) = Some true
    /\ deviceSamplesState s' = set_deviceSamples (Some d) (deviceSamplesState s)
    /\ calls s' = calls s ++ [call_downloadSamples]
    /\ download (deviceSampleTransferState s') = idle
    /\ supportCheck (deviceSampleTransferState s')
       = supportCheck (deviceSampleTransferState s)
    /\ upload (deviceSampleTransferState s') = upload (deviceSampleTransferState s).
Proof.
  unfold_run. destruct (_isTransfering E s) eqn:Hb; cbn; [discriminate|].
  destruct (isSet (deviceSamplesState s)) as [[|]|] eqn:Hset; cbn; try discriminate.
  call_cases; intros H; inversion H; subst; clear H.
  eexists. cbn. progress_simpl. cbn. repeat split; reflexivity.
Qed.

(** A download that returns without a collection leaves its channel in
    [error]. *)
Lemma download_falsy (s s' : Store (World E)) (r : nullable DeviceSamples) :
  downloadDeviceSamples E s = (Normal r, s') ->
  falsy r = true ->
  is_error (download (deviceSampleTransferState s')) = true.
Proof.
  unfold_run. destruct (_isTransfering E s) eqn:Hb; cbn.
  - intros H; inversion H; subst. reflexivity.
  - destruct (is_not_true (isSet (deviceSamplesState s))); cbn.
    + intros H; inversion H; subst. reflexivity.
    + call_cases; intros H; inversion H; subst; cbn; try discriminate. reflexivity.
Qed.


(** C5.  The code at the failing input: when [downloadSamples] rejects,
    [downloadDeviceSamples] rejects as well and its own channel is still
    in progress. *)
Theorem download_rejection_leaves_channel_in_progress
    (s : Store (World E)) (vals : list Z) (w' : World E) :
  _isTransfering E s = false ->
  isSet (deviceSamplesState s) = Some true ->
  SampleManager.downloadSamples (sampleManager E) (world s) = (vals, Thrown, w') ->
  fst (downloadDeviceSamples E s) = Thrown
  /\ is_transferring
       (download (deviceSampleTransferState (snd (downloadDeviceSamples E s)))) = true
  /\ _isTransfering E (snd (downloadDeviceSamples E s)) = true.
Proof.
  intros Hidle Hset Hdl. unfold_run. rewrite Hidle. cbn. rewrite Hset. cbn.
  rewrite Hdl. cbn.
  assert (Hp : is_transferring
                 (download
                    (deviceSampleTransferState
                       (fold_left
                          (fun st v => on_transfer (set_download (transferring (Some v))) st)
                          vals
                          (entered call_downloadSamples w'
                             (on_transfer (set_download (transferring None)) s)))))
               = true)
    by (apply progress_stays_in_progress; reflexivity).
  split; [reflexivity|]. split; [exact Hp|].
  unfold _isTransfering. rewrite Hp. now rewrite orb_true_r.
Qed.

(** ** Upload *)

Ltac unfold_upload :=
  unfold uplaodDeviceSamples, fail_upload, bind, ret, read, throw,
    assign_state, assign_transfer, await, await_with_progress in *.

(** C1.  An upload that returns [true] has sent the payload, probed
    [isSet], and downloaded a collection that the equality verifier
    accepts against the payload; that collection is the one now held in
    the snapshot. *)
Theorem upload_true_is_verified
    (s s' : Store (World E)) (newSamples : option DeviceSamples) :
  uplaodDeviceSamples E newSamples s = (Normal true, s') ->
  exists payload d s1 vals,
    newSamples = Some payload
    /\ downloadDeviceSamples E s1 = (Normal (value d), s')
    /\ SampleManager.downloadSamples (sampleManager E) (world s1)
       = (vals, Normal (Some d), world s')
    /\ deviceSamplesEqual (canonicalize E) (JSON_stringify E) (Some payload) (Some d)
       = true
    /\ deviceSamples (deviceSamplesState s') = Some d
    /\ calls s' = calls s ++ [call_uploadSamples payload; call_isSet; call_downloadSamples].
Proof.
  unfold_upload. destruct (_isTransfering E s); cbn; [discriminate|].
  destruct (is_not_true (isSupported (deviceSamplesState s))); cbn; [discriminate|].
  destruct (invalid_payload newSamples); cbn; [discriminate|].
  destruct newSamples as [payload|]; cbn; [|discriminate].
  call_cases; try discriminate.
  progress_simpl. call_cases; try discriminate.
  match goal with
  | |- context [downloadDeviceSamples E ?st] =>
      destruct (downloadDeviceSamples E st) as [[[| |d]|] s2] eqn:Hd
  end; cbn; try discriminate.
  destruct (deviceSamplesEqual (canonicalize E) (JSON_stringify E) (Some payload) (Some d))
    eqn:Heq; cbn; [|discriminate].
  intros H; inversion H; subst; clear H.
  destruct (download_value _ _ _ Hd) as (vals & Hcall & _ & _ & Hst & Hcalls & _).
  exists payload, d. eexists. exists vals.
  split; [reflexivity|]. split; [exact Hd|]. split; [exact Hcall|].
  split; [exact Heq|]. split.
  - rewrite Hst. reflexivity.
  - rewrite Hcalls. cbn. progress_simpl. cbn. rewrite <- !app_assoc. reflexivity.
Qed.

(** An upload that returns [false] leaves its channel in [error]. *)
Lemma upload_false_is_error
    (s s' : Store (World E)) (newSamples : option DeviceSamples) :
  uplaodDeviceSamples E newSamples s = (Normal false, s') ->
  is_error (upload (deviceSampleTransferState s')) = true.
Proof.
  unfold_upload.
  repeat first
    [ progress cbn
    | match goal with
      | |- context [if _isTransfering E ?st then _ else _] =>
          destruct (_isTransfering E st)
      | |- context [if is_not_true ?b then _ else _] => destruct (is_not_true b)
      | |- context [if invalid_payload ?b then _ else _] => destruct (invalid_payload b)
      | |- context [match newSamples with _ => _ end] => destruct newSamples
      end ];
    try (intros H; inversion H; subst; reflexivity).
  call_cases; try discriminate;
    try (intros H; inversion H; subst; reflexivity).
  progress_simpl. call_cases; try discriminate;
    try (intros H; inversion H; subst; reflexivity).
  match goal with
  | |- context [downloadDeviceSamples E ?st] =>
      destruct (downloadDeviceSamples E st) as [[[| |got]|] s2] eqn:Hd
  end; cbn; try discriminate;
    try (intros H; inversion H; subst; reflexivity).
  match goal with
  | |- context [deviceSamplesEqual ?c ?j ?a ?b] =>
      destruct (deviceSamplesEqual c j a b)
  end; cbn; try discriminate.
  intros H; inversion H; subst; reflexivity.
Qed.

(** After an upload that returns [true] no channel is in progress, and the
    snapshot says the samples are set. *)
Lemma upload_true_leaves_idle
    (s s' : Store (World E)) (newSamples : option DeviceSamples) :
  uplaodDeviceSamples E newSamples s = (Normal true, s') ->
  supportCheck (deviceSampleTransferState s') = idle
  /\ download (deviceSampleTransferState s') = idle
  /\ upload (deviceSampleTransferState s') = idle
  /\ _isTransfering E s' = false
  /\ isSet (deviceSamplesState s') = Some true.
Proof.
  unfold_upload. destruct (_isTransfering E s); cbn; [discriminate|].
  destruct (is_not_true (isSupported (deviceSamplesState s))); cbn; [discriminate|].
  destruct (invalid_payload newSamples); cbn; [discriminate|].
  destruct newSamples as [payload|]; cbn; [|discriminate].
  call_cases; try discriminate.
  progress_simpl. call_cases; try discriminate.
  match goal with
  | |- context [downloadDeviceSamples E ?st] =>
      destruct (downloadDeviceSamples E st) as [[[| |d]|] s2] eqn:Hd
  end; cbn; try discriminate.
  match goal with
  | |- context [deviceSamplesEqual ?c ?j ?a ?b] =>
      destruct (deviceSamplesEqual c j a b)
  end; cbn; try discriminate.
  intros H; inversion H; subst; clear H.
  destruct (download_value _ _ _ Hd) as (vals & _ & _ & _ & Hst & _ & Hd' & Hs' & Hu').
  cbn in Hs', Hu'. progress_simpl.
  assert (Hall : supportCheck (deviceSampleTransferState s') = idle
                 /\ download (deviceSampleTransferState s') = idle
                 /\ upload (deviceSampleTransferState s') = idle) by auto.
  destruct Hall as (Ha & Hb & Hc). repeat split; auto.
  - unfold _isTransfering. now rewrite Ha, Hb, Hc.
  - rewrite Hst. reflexivity.
Qed.

(** ** Default-inventory builder *)

(** [fetchServerPack] never rejects, keeps the snapshot and the channels,
    and names the pack it returns after the id it was asked for. *)
Lemma fetchServerPack_returns (id : string) (s : Store (World E)) :
  exists r s',
    fetchServerPack E id s = (Normal r, s')
    /\ (forall p, r = Some p -> name p = id)
    /\ deviceSamplesState s' = deviceSamplesState s
    /\ deviceSampleTransferState s' = deviceSampleTransferState s.
Proof.
  unfold fetchServerPack, try_catch, bind, await, ret, throw.
  destruct (encodeURIComponent E id) as [encoded|]; cbn;
    [|do 2 eexists; repeat split; try reflexivity; discriminate].
  destruct (fetch E _ (world s)) as [[res|] w]; cbn.
  - destruct (ok res); cbn.
    + destruct (json_body res) as [[p|]|]; cbn; do 2 eexists;
        (repeat split; try reflexivity; intros q Hq; inversion Hq; reflexivity).
    + do 2 eexists. repeat split; try reflexivity. discriminate.
  - do 2 eexists. repeat split; try reflexivity. discriminate.
Qed.

Lemma pad_pages_repeat (n : nat) (ps : list (option SamplePack)) :
  pad_pages n ps = ps ++ repeat None n.
Proof.
  revert ps. induction n as [|n IH]; intros ps; cbn.
  - now rewrite app_nil_r.
  - rewrite IH, <- app_assoc. reflexivity.
Qed.

(** What [fetched_all] says slot by slot. *)
Lemma fetched_all_slots l (s : Store (World E)) ps s' :
  fetched_all E l s ps s' ->
  length ps = length l
  /\ forall i,
      (truthy_id (nth i l None) = false -> nth i ps None = None)
      /\ (forall id, nth i l None = Some id -> truthy_id (Some id) = true ->
          exists p, nth i ps None = Some p /\ name p = trim id).
Proof.
  induction 1 as [s | id l s ps s' Hid _ [IHlen IH]
                  | id l s p s1 ps s' Hid Hfetch _ [IHlen IH]].
  - split; [reflexivity|]. intros [|i]; cbn; split; auto; discriminate.
  - split; [cbn; now rewrite IHlen|].
    intros [|i]; cbn.
    + split; [reflexivity|]. intros x Hx Hx'. subst id. cbn in Hid. congruence.
    + apply IH.
  - split; [cbn; now rewrite IHlen|].
    intros [|i]; cbn.
    + split; [cbn in Hid; congruence|]. intros x Hx _. inversion Hx; subst.
      exists p. split; [reflexivity|].
      destruct (fetchServerPack_returns (trim x) s) as (r & s2 & Hrun & Hname & _).
      rewrite Hrun in Hfetch. inversion Hfetch; subst. now apply Hname.
    + apply IH.
Qed.

(** The loop over a prefix whose fetches all succeed. *)
Lemma build_pages_prefix pre (s : Store (World E)) ps s1 :
  fetched_all E pre s ps s1 ->
  forall rest acc,
    build_pages E (pre ++ rest) acc s = build_pages E rest (acc ++ ps) s1.
Proof.
  induction 1 as [s | id l s ps s' Hid _ IH | id l s p s1 ps s' Hid Hfetch _ IH];
    intros rest acc.
  - now rewrite app_nil_r.
  - cbn. destruct id as [[|c r]|]; cbn in Hid; try discriminate;
      rewrite IH, <- app_assoc; reflexivity.
  - destruct id as [|c r]; cbn in Hid; [discriminate|].
    cbn. unfold bind at 1. rewrite Hfetch.
    rewrite IH, <- app_assoc. reflexivity.
Qed.

Lemma build_pages_fails l (s : Store (World E)) acc :
  some_fetch_fails E l s ->
  fst (build_pages E l acc s) = Normal None.
Proof.
  intros (pre & id & post & ps & s1 & Hl & Hid & Hpre & Hfail). subst l.
  rewrite (build_pages_prefix _ _ _ _ Hpre).
  destruct id as [|c r]; cbn in Hid; [discriminate|].
  cbn. unfold bind.
  destruct (fetchServerPack E (trim (String c r)) s1) as [[[p|]|] s2];
    cbn in *; congruence.
Qed.

Lemma build_pages_outcome l (s : Store (World E)) acc :
  (exists ps s',
      fetched_all E l s ps s'
      /\ build_pages E l acc s = (Normal (Some (acc ++ ps)), s'))
  \/ (some_fetch_fails E l s /\ fst (build_pages E l acc s) = Normal None).
Proof.
  revert s acc. induction l as [|id l IH]; intros s acc.
  - left. exists [], s. split; [constructor|]. cbn. now rewrite app_nil_r.
  - assert (Hgap : truthy_id id = false ->
                   build_pages E (id :: l) acc s = build_pages E l (acc ++ [None]) s).
    { destruct id as [[|c r]|]; cbn; intros; congruence. }
    destruct (truthy_id id) eqn:Hid.
    + destruct id as [[|c r]|]; cbn in Hid; try discriminate.
      destruct (fetchServerPack_returns (trim (String c r)) s)
        as ([p|] & s1 & Hrun & _).
      * destruct (IH s1 (acc ++ [Some p])) as [(ps & s' & Hall & Hrun') | (Hsome & Hrun')].
        -- left. exists (Some p :: ps), s'. split.
           ++ now apply fetched_pack with (s1 := s1).
           ++ cbn. unfold bind at 1. rewrite Hrun, Hrun', <- app_assoc. reflexivity.
        -- right. split.
           ++ destruct Hsome as (pre & x & post & ps & s2 & Hl & Hx & Hpre & Hfail).
              exists (Some (String c r) :: pre), x, post, (Some p :: ps), s2.
              repeat split; auto.
              ** cbn. now rewrite Hl.
              ** now apply fetched_pack with (s1 := s1).
           ++ cbn. unfold bind at 1. rewrite Hrun. exact Hrun'.
      * right. split.
        -- exists [], (String c r), l, [], s. repeat split; auto.
           ++ constructor.
           ++ now rewrite Hrun.
        -- cbn. unfold bind at 1. now rewrite Hrun.
    + rewrite (Hgap eq_refl).
      destruct (IH s (acc ++ [None])) as [(ps & s' & Hall & Hrun') | (Hsome & Hrun')].
      * left. exists (None :: ps), s'. split.
        -- now apply fetched_gap.
        -- rewrite Hrun', <- app_assoc. reflexivity.
      * right. split; [|exact Hrun'].
        destruct Hsome as (pre & x & post & ps & s2 & Hl & Hx & Hpre & Hfail).
        exists (id :: pre), x, post, (None :: ps), s2.
        repeat split; auto.
        -- cbn. now rewrite Hl.
        -- now apply fetched_gap.
Qed.

#[local] Arguments Nat.sub : simpl never.

Lemma build_returns (ids0 : option (list (option string))) (s : Store (World E)) :
  fst (buildDeviceSamplesFromIds E ids0 s) <> Thrown.
Proof.
  unfold buildDeviceSamplesFromIds, bind, ret.
  destruct ids0 as [l|]; [|cbn; discriminate].
  destruct ((length l <? 1)%nat || (10 <? length l)%nat); [cbn; discriminate|].
  destruct (build_pages_outcome l s []) as [(ps & s' & _ & Hrun) | (_ & Hrun)].
  - rewrite Hrun. cbn. discriminate.
  - destruct (build_pages E l [] s) as [[[ps|]|] s']; cbn in *; congruence.
Qed.

(** C7.  [buildDeviceSamplesFromIds] never rejects.  It returns [null]
    when the number of ids is outside 1..10, and when the fetch of a truthy
    id, trimmed, fails.  Otherwise it returns exactly ten slots: [null] at
    every falsy entry and at every position past the input, and at every
    other position the pack fetched for the trimmed id.  A [null] result
    has no other cause, so no partial collection comes back. *)
Theorem build_is_all_or_nothing (l : list (option string)) (s : Store (World E)) :
  let run := buildDeviceSamplesFromIds E (Some l) s in
  fst run <> Thrown
  /\ (length l < 1 \/ 10 < length l -> run = (Normal None, s))
  /\ (some_fetch_fails E l s -> fst run = Normal None)
  /\ (1 <= length l <= 10 -> fst run = Normal None -> some_fetch_fails E l s)
  /\ (1 <= length l <= 10 -> ~ some_fetch_fails E l s ->
      exists ps s',
        fetched_all E l s ps s'
        /\ run = (Normal (Some {| pages := Some (ps ++ repeat None (10 - length l)) |}), s')
        /\ length (ps ++ repeat None (10 - length l)) = 10
        /\ forall i,
            (truthy_id (nth i l None) = false ->
             nth i (ps ++ repeat None (10 - length l)) None = None)
            /\ (forall id, nth i l None = Some id -> truthy_id (Some id) = true ->
                exists p, nth i (ps ++ repeat None (10 - length l)) None = Some p
                          /\ name p = trim id)).
Proof.
  cbv zeta. split; [apply build_returns|].
  unfold buildDeviceSamplesFromIds, bind, ret.
  destruct ((length l <? 1)%nat || (10 <? length l)%nat) eqn:Hrange.
  - apply orb_true_iff in Hrange.
    rewrite Nat.ltb_lt, Nat.ltb_lt in Hrange.
    repeat split; auto; intros; lia.
  - apply orb_false_iff in Hrange.
    rewrite Nat.ltb_ge, Nat.ltb_ge in Hrange.
    split; [intros; lia|].
    destruct (build_pages_outcome l s []) as [(ps & s' & Hall & Hrun) | (Hsome & Hrun)].
    + rewrite Hrun. cbn.
      split; [|split; [discriminate|]].
      * intros Hsome. pose proof (build_pages_fails l s [] Hsome) as Hf.
        rewrite Hrun in Hf. discriminate.
      * intros _ _. destruct (fetched_all_slots _ _ _ _ Hall) as [Hlen Hslots].
        exists ps, s'. rewrite pad_pages_repeat, Hlen.
        split; [exact Hall|]. split; [reflexivity|].
        split; [rewrite length_app, repeat_length; lia|].
        intros i. destruct (Hslots i) as [Hgap Hpack].
        destruct (Nat.lt_ge_cases i (length ps)) as [Hi | Hi].
        -- rewrite app_nth1 by exact Hi. split; [exact Hgap | exact Hpack].
        -- rewrite app_nth2 by exact Hi. split.
           ++ intros _. apply nth_repeat.
           ++ intros id Hid. rewrite nth_overflow in Hid by lia. discriminate.
    + split; [|split].
      * intros _. destruct (build_pages E l [] s) as [[[ps|]|] s']; cbn in *; congruence.
      * intros _ _. exact Hsome.
      * intros _ Hno. contradiction.
Qed.

(** ** Upload of the defaults *)

Lemma upload_defaults_false_is_error (s s' : Store (World E)) :
  uplaodDeviceDefaultSamples E s = (Normal false, s') ->
  is_error (upload (deviceSampleTransferState s')) = true.
Proof.
  unfold uplaodDeviceDefaultSamples, fail_upload, bind, ret, read, assign_transfer.
  destruct (_isTransfering E s); cbn.
  - intros H; inversion H; subst; reflexivity.
  - destruct (buildDeviceSamplesFromIds E _ s) as [[[d|]|] s1]; cbn.
    + apply upload_false_is_error.
    + intros H; inversion H; subst; reflexivity.
    + discriminate.
Qed.

Lemma upload_defaults_true_leaves_idle (s s' : Store (World E)) :
  uplaodDeviceDefaultSamples E s = (Normal true, s') ->
  _isTransfering E s' = false.
Proof.
  unfold uplaodDeviceDefaultSamples, fail_upload, bind, ret, read, assign_transfer.
  destruct (_isTransfering E s); cbn; [discriminate|].
  destruct (buildDeviceSamplesFromIds E _ s) as [[[d|]|] s1]; cbn; try discriminate.
  intros H. now apply upload_true_leaves_idle in H.
Qed.

(** ** Channels at a normal return *)

(** An operation that returns normally does not leave its own channel in
    progress. *)
Lemma own_channel_settled_at_normal_return (s s' : Store (World E)) :
  (forall r, checkDeviceSampleSupport E s = (Normal r, s') ->
             is_transferring (supportCheck (deviceSampleTransferState s')) = false)
  /\ (forall r, downloadDeviceSamples E s = (Normal r, s') ->
                is_transferring (download (deviceSampleTransferState s')) = false)
  /\ (forall newSamples r, uplaodDeviceSamples E newSamples s = (Normal r, s') ->
                           is_transferring (upload (deviceSampleTransferState s')) = false)
  /\ (forall r, uplaodDeviceDefaultSamples E s = (Normal r, s') ->
                is_transferring (upload (deviceSampleTransferState s')) = false).
Proof.
  assert (Herr : forall c, is_error c = true -> is_transferring c = false)
    by (intros [| |]; cbn; congruence).
  split; [|split; [|split]].
  - intros r Hrun.
    destruct (probe_always_returns s) as (r0 & s0 & Hrun0 & _ & _ & Hbusy & Hidle).
    rewrite Hrun in Hrun0. inversion Hrun0; subst.
    destruct (_isTransfering E s).
    + destruct (Hbusy eq_refl) as [_ Hc]. now rewrite Hc.
    + destruct (Hidle eq_refl) as [Hc _]. now rewrite Hc.
  - intros [| |d] Hrun.
    + apply Herr. now apply (download_falsy _ _ _ Hrun).
    + apply Herr. now apply (download_falsy _ _ _ Hrun).
    + destruct (download_value _ _ _ Hrun) as (_ & _ & _ & _ & _ & _ & Hc & _).
      now rewrite Hc.
  - intros newSamples [|] Hrun.
    + destruct (upload_true_leaves_idle _ _ _ Hrun) as (_ & _ & Hc & _). now rewrite Hc.
    + apply Herr. now apply (upload_false_is_error _ _ _ Hrun).
  - intros [|] Hrun.
    + revert Hrun.
      unfold uplaodDeviceDefaultSamples, fail_upload, bind, ret, read, assign_transfer.
      destruct (_isTransfering E s); cbn; [discriminate|].
      destruct (buildDeviceSamplesFromIds E _ s) as [[[d|]|] s1]; cbn; try discriminate.
      intros Hrun.
      destruct (upload_true_leaves_idle _ _ _ Hrun) as (_ & _ & Hc & _). now rewrite Hc.
    + apply Herr. now apply upload_defaults_false_is_error with (s := s).
Qed.

(** ** Faults at the public boundary *)


(** * Further properties *)

(** ** Equality verifier, continued *)

Lemma samplePackEqual_true (a b : option SamplePack) :
  samplePackEqual (canonicalize E) (JSON_stringify E) a b = true <->
  (a = None /\ b = None)
  \/ exists pa pb,
      a = Some pa /\ b = Some pb /\ name pa = name pb
      /\ JSON_stringify E (map (canonicalize E) (loops_or_empty pa))
         = JSON_stringify E (map (canonicalize E) (loops_or_empty pb)).
Proof.
  destruct a as [pa|], b as [pb|]; cbn.
  - destruct (String.eqb (name pa) (name pb)) eqn:Hn; cbn.
    + apply String.eqb_eq in Hn. rewrite String.eqb_eq. split.
      * intros Hl. right. exists pa, pb. auto.
      * intros [[H _] | (qa & qb & Ha & Hb & _ & Hl)]; [discriminate|].
        inversion Ha; inversion Hb; subst. exact Hl.
    + apply String.eqb_neq in Hn. split; [discriminate|].
      intros [[H _] | (qa & qb & Ha & Hb & Hname & _)]; [discriminate|].
      inversion Ha; inversion Hb; subst. contradiction.
  - split; [discriminate|].
    intros [[H _] | (qa & qb & _ & Hb & _)]; discriminate.
  - split; [discriminate|].
    intros [[_ H] | (qa & qb & Ha & _)]; discriminate.
  - split; auto.
Qed.

(** X1.  Pack equality is an equivalence relation: every pack, and [null],
    equals itself, the order of the arguments does not matter, and equality
    carries over a chain of three. *)
Theorem samplePackEqual_equivalence (a b c : option SamplePack) :
  samplePackEqual (canonicalize E) (JSON_stringify E) a a = true
  /\ samplePackEqual (canonicalize E) (JSON_stringify E) a b
     = samplePackEqual (canonicalize E) (JSON_stringify E) b a
  /\ (samplePackEqual (canonicalize E) (JSON_stringify E) a b = true ->
      samplePackEqual (canonicalize E) (JSON_stringify E) b c = true ->
      samplePackEqual (canonicalize E) (JSON_stringify E) a c = true).
Proof.
  split; [|split].
  - apply samplePackEqual_true. destruct a as [pa|]; [right | left; auto].
    exists pa, pa. auto.
  - destruct a as [pa|], b as [pb|]; cbn; try reflexivity.
    rewrite (String.eqb_sym (name pa) (name pb)).
    destruct (String.eqb (name pb) (name pa)); cbn; [|reflexivity].
    apply String.eqb_sym.
  - rewrite !samplePackEqual_true.
    intros [[Ha Hb] | (pa & pb & Ha & Hb & Hn & Hl)]
           [[Hb' Hc] | (pb' & pc & Hb' & Hc & Hn' & Hl')]; subst;
      try discriminate; [left; auto|].
    inversion Hb'; subst. right. exists pa, pc.
    repeat split; congruence.
Qed.

(** X2.  Pack equality looks at the name and at the serialized canonical
    loops only: packs of different names are never equal, [null] never
    equals a pack, and two packs of the same name whose loops have the same
    canonical forms are equal, a missing [loops] counting as empty. *)
Theorem samplePackEqual_by_name_and_canonical_loops (pa pb : SamplePack) :
  (name pa <> name pb ->
   samplePackEqual (canonicalize E) (JSON_stringify E) (Some pa) (Some pb) = false)
  /\ samplePackEqual (canonicalize E) (JSON_stringify E) None (Some pb) = false
  /\ samplePackEqual (canonicalize E) (JSON_stringify E) (Some pa) None = false
  /\ (name pa = name pb ->
      map (canonicalize E) (loops_or_empty pa) = map (canonicalize E) (loops_or_empty pb) ->
      samplePackEqual (canonicalize E) (JSON_stringify E) (Some pa) (Some pb) = true).
Proof.
  split; [|split; [|split]]; try reflexivity.
  - intros Hn. cbn. apply String.eqb_neq in Hn. now rewrite Hn.
  - intros Hn Hl. apply samplePackEqual_true. right. exists pa, pb.
    repeat split; auto. now rewrite Hl.
Qed.

Lemma pages_equal_from_true (pa pb : list (option SamplePack)) (n i : nat) :
  pages_equal_from (canonicalize E) (JSON_stringify E) pa pb i n = true <->
  forall k, i <= k < i + n ->
            samplePackEqual (canonicalize E) (JSON_stringify E)
              (nth k pa None) (nth k pb None) = true.
Proof.
  revert i. induction n as [|n IH]; intros i; cbn.
  - split; [intros _ k Hk; lia | reflexivity].
  - unfold page_at.
    destruct (samplePackEqual (canonicalize E) (JSON_stringify E)
                (nth i pa None) (nth i pb None)) eqn:Hi; cbn.
    + rewrite IH. split.
      * intros H k Hk. destruct (Nat.eq_dec k i) as [->|Hne]; [exact Hi|].
        apply H. lia.
      * intros H k Hk. apply H. lia.
    + split; [discriminate|]. intros H. rewrite <- Hi. apply H. lia.
Qed.

Lemma deviceSamplesEqual_true (a b : option DeviceSamples) :
  deviceSamplesEqual (canonicalize E) (JSON_stringify E) a b = true <->
  exists da db pa pb,
    a = Some da /\ b = Some db /\ pages da = Some pa /\ pages db = Some pb
    /\ length pa = 10 /\ length pb = 10
    /\ forall i, i < 10 ->
                 samplePackEqual (canonicalize E) (JSON_stringify E)
                   (nth i pa None) (nth i pb None) = true.
Proof.
  unfold deviceSamplesEqual.
  destruct a as [da|], b as [db|];
    try (split; [discriminate | intros (? & ? & ? & ? & ? & ? & _); discriminate]).
  destruct (pages da) as [pa|] eqn:Hpa, (pages db) as [pb|] eqn:Hpb;
    try (split; [discriminate
                | intros (? & ? & ? & ? & Ha & Hb & Ha' & Hb' & _);
                  inversion Ha; inversion Hb; subst; congruence]).
  destruct (length pa =? 10)%nat eqn:Hla, (length pb =? 10)%nat eqn:Hlb;
    cbv beta iota delta [negb orb];
    try (split; [discriminate|];
         intros (? & ? & ? & ? & Ha & Hb & Ha' & Hb' & Hl & Hl' & _);
         inversion Ha; inversion Hb; subst;
         rewrite Hpa in Ha'; rewrite Hpb in Hb'; inversion Ha'; inversion Hb'; subst;
         apply Nat.eqb_neq in Hla || apply Nat.eqb_neq in Hlb; contradiction).
  rewrite pages_equal_from_true.
  apply Nat.eqb_eq in Hla, Hlb. split.
  - intros H. exists da, db, pa, pb. repeat split; auto. intros i Hi. apply H. lia.
  - intros (? & ? & ? & ? & Ha & Hb & Ha' & Hb' & _ & _ & H) k Hk.
    inversion Ha; inversion Hb; subst.
    rewrite Hpa in Ha'; rewrite Hpb in Hb'; inversion Ha'; inversion Hb'; subst.
    apply H. lia.
Qed.

(** X3.  Two collections are equal for the verifier exactly when both have
    a [pages] array of ten entries and the packs at each of the ten
    positions are pack-equal. *)
Theorem deviceSamplesEqual_slot_by_slot (da db : DeviceSamples) :
  deviceSamplesEqual (canonicalize E) (JSON_stringify E) (Some da) (Some db) = true <->
  exists pa pb,
    pages da = Some pa /\ pages db = Some pb
    /\ length pa = 10 /\ length pb = 10
    /\ forall i, i < 10 ->
                 samplePackEqual (canonicalize E) (JSON_stringify E)
                   (nth i pa None) (nth i pb None) = true.
Proof.
  rewrite deviceSamplesEqual_true. split.
  - intros (xa & xb & pa & pb & Ha & Hb & H). inversion Ha; inversion Hb; subst.
    exists pa, pb. exact H.
  - intros (pa & pb & H). exists da, db, pa, pb. auto.
Qed.

Lemma samplePackEqual_refl (a : option SamplePack) :
  samplePackEqual (canonicalize E) (JSON_stringify E) a a = true.
Proof.
  apply samplePackEqual_true. destruct a as [pa|]; [right | left; auto].
  exists pa, pa. auto.
Qed.

Lemma samplePackEqual_sym (a b : option SamplePack) :
  samplePackEqual (canonicalize E) (JSON_stringify E) a b = true ->
  samplePackEqual (canonicalize E) (JSON_stringify E) b a = true.
Proof.
  rewrite !samplePackEqual_true.
  intros [[Ha Hb] | (pa & pb & Ha & Hb & Hn & Hl)]; [left; auto|].
  right. exists pb, pa. auto.
Qed.

Lemma samplePackEqual_trans (a b c : option SamplePack) :
  samplePackEqual (canonicalize E) (JSON_stringify E) a b = true ->
  samplePackEqual (canonicalize E) (JSON_stringify E) b c = true ->
  samplePackEqual (canonicalize E) (JSON_stringify E) a c = true.
Proof.
  rewrite !samplePackEqual_true.
  intros [[Ha Hb] | (pa & pb & Ha & Hb & Hn & Hl)]
         [[Hb' Hc] | (pb' & pc & Hb' & Hc & Hn' & Hl')]; subst;
    try discriminate; [left; auto|].
  inversion Hb'; subst. right. exists pa, pc.
  repeat split; congruence.
Qed.

Lemma deviceSamplesEqual_refl (d : DeviceSamples) :
  has_ten_slots d = true ->
  deviceSamplesEqual (canonicalize E) (JSON_stringify E) (Some d) (Some d) = true.
Proof.
  unfold has_ten_slots. intros Hten. apply deviceSamplesEqual_true.
  destruct (pages d) as [ps|] eqn:Hps; [|discriminate].
  apply Nat.eqb_eq in Hten.
  exists d, d, ps, ps. repeat split; auto. intros i _. apply samplePackEqual_refl.
Qed.

(** X4.  Collection equality is symmetric and transitive, and a collection
    equals itself exactly when it has ten slots; a [null] or missing
    argument is equal to nothing. *)
Theorem deviceSamplesEqual_partial_equivalence (a b c : option DeviceSamples) :
  (deviceSamplesEqual (canonicalize E) (JSON_stringify E) a b = true ->
   deviceSamplesEqual (canonicalize E) (JSON_stringify E) b a = true)
  /\ (deviceSamplesEqual (canonicalize E) (JSON_stringify E) a b = true ->
      deviceSamplesEqual (canonicalize E) (JSON_stringify E) b c = true ->
      deviceSamplesEqual (canonicalize E) (JSON_stringify E) a c = true)
  /\ (deviceSamplesEqual (canonicalize E) (JSON_stringify E) a a = true <->
      exists d, a = Some d /\ has_ten_slots d = true)
  /\ deviceSamplesEqual (canonicalize E) (JSON_stringify E) None b = false
  /\ deviceSamplesEqual (canonicalize E) (JSON_stringify E) a None = false.
Proof.
  split; [|split; [|split; [|split]]].
  - rewrite !deviceSamplesEqual_true.
    intros (da & db & pa & pb & Ha & Hb & Hpa & Hpb & Hla & Hlb & H).
    exists db, da, pb, pa. repeat split; auto.
    intros i Hi. now apply samplePackEqual_sym, H.
  - rewrite !deviceSamplesEqual_true.
    intros (da & db & pa & pb & Ha & Hb & Hpa & Hpb & Hla & Hlb & H)
           (db' & dc & pb' & pc & Hb' & Hc & Hpb' & Hpc & Hlb' & Hlc & H').
    subst. inversion Hb'; subst. rewrite Hpb in Hpb'. inversion Hpb'; subst.
    exists da, dc, pa, pc. repeat split; auto.
    intros i Hi. eapply samplePackEqual_trans; [apply H | apply H']; exact Hi.
  - split.
    + rewrite deviceSamplesEqual_true.
      intros (da & db & pa & pb & Ha & Hb & Hpa & Hpb & Hla & Hlb & H).
      exists da. split; [exact Ha|]. unfold has_ten_slots. rewrite Hpa.
      now apply Nat.eqb_eq.
    + intros (d & -> & Hten). now apply deviceSamplesEqual_refl.
  - reflexivity.
  - unfold deviceSamplesEqual. destruct a; reflexivity.
Qed.

(** ** Stores in closed form *)

Lemma settle_download (c : SampleTransferState) (vals : list Z) (st : Store (World E)) :
  on_transfer (set_download c)
    (fold_left (fun st v => on_transfer (set_download (transferring (Some v))) st) vals st)
  = on_transfer (set_download c) st.
Proof.
  revert st. induction vals as [|v vals IH]; intros st; cbn; [reflexivity|].
  rewrite IH. reflexivity.
Qed.

Lemma settle_upload (c : SampleTransferState) (vals : list Z) (st : Store (World E)) :
  on_transfer (set_upload c)
    (fold_left (fun st v => on_transfer (set_upload (transferring (Some v))) st) vals st)
  = on_transfer (set_upload c) st.
Proof.
  revert st. induction vals as [|v vals IH]; intros st; cbn; [reflexivity|].
  rewrite IH. reflexivity.
Qed.

Lemma probe_run_busy (s : Store (World E)) :
  _isTransfering E s = true ->
  checkDeviceSampleSupport E s
  = (Normal None, on_transfer (set_supportCheck (error BUSY)) s).
Proof.
  intros Hb. unfold_run. rewrite Hb. reflexivity.
Qed.

Lemma probe_run_fault (s : Store (World E)) w1 :
  _isTransfering E s = false ->
  SampleManager.isSet (sampleManager E) (world s) = (Thrown, w1) ->
  checkDeviceSampleSupport E s
  = (Normal (Some {| SupportCheckResult.supported := Some false;
                     SupportCheckResult.isSet := isSet (deviceSamplesState s) |}),
     {| deviceSamplesState := set_isSupported (Some false) (deviceSamplesState s);
        deviceSampleTransferState := set_supportCheck idle (deviceSampleTransferState s);
        world := w1;
        calls := calls s ++ [call_isSet] |}).
Proof.
  intros Hb H1. unfold_run. rewrite Hb. cbn. rewrite H1. reflexivity.
Qed.

Lemma probe_run_unset (s : Store (World E)) w1 :
  _isTransfering E s = false ->
  SampleManager.isSet (sampleManager E) (world s) = (Normal false, w1) ->
  checkDeviceSampleSupport E s
  = (Normal (Some {| SupportCheckResult.supported := Some true;
                     SupportCheckResult.isSet := Some false |}),
     {| deviceSamplesState :=
          set_isSet (Some false) (set_isSupported (Some true) (deviceSamplesState s));
        deviceSampleTransferState := set_supportCheck idle (deviceSampleTransferState s);
        world := w1;
        calls := calls s ++ [call_isSet] |}).
Proof.
  intros Hb H1. unfold_run. rewrite Hb. cbn. rewrite H1. reflexivity.
Qed.

Lemma probe_run_set (s : Store (World E)) w1 spaceUsed w2 ids0 w3 :
  _isTransfering E s = false ->
  SampleManager.isSet (sampleManager E) (world s) = (Normal true, w1) ->
  SampleManager.getSpaceUsed (sampleManager E) w1 = (Normal spaceUsed, w2) ->
  SampleManager.getIDs (sampleManager E) w2 = (Normal ids0, w3) ->
  checkDeviceSampleSupport E s
  = (Normal (Some {| SupportCheckResult.supported := Some true;
                     SupportCheckResult.isSet := Some true |}),
     {| deviceSamplesState :=
          {| ids := Some (transform_ids ids0);
             deviceSamples := deviceSamples (deviceSamplesState s);
             isSupported := Some true;
             isSet := Some true;
             storageTotal := Some (SampleManager.tot spaceUsed);
             storageUsed := Some (SampleManager.usd spaceUsed);
             packsStorageUsed := Some (SampleManager.packs spaceUsed) |};
        deviceSampleTransferState := set_supportCheck idle (deviceSampleTransferState s);
        world := w3;
        calls := calls s ++ [call_isSet; call_getSpaceUsed; call_getIDs] |}).
Proof.
  intros Hb H1 H2 H3. unfold_run. rewrite Hb. cbn. rewrite H1. cbn.
  rewrite H2. cbn. rewrite H3. cbn.
  unfold on_transfer, on_state, entered. cbn. rewrite <- !app_assoc. reflexivity.
Qed.

(** ** Probe, continued *)

(** X5.  A probe of a device that answers [isSet() = false] marks the device
    supported and not set, returns [{supported: true, isSet: false}], makes
    this one transport call, and leaves ids, storage figures, the held
    collection and the other two channels as they were. *)
Theorem probe_of_unset_device (s : Store (World E)) w1 :
  _isTransfering E s = false ->
  SampleManager.isSet (sampleManager E) (world s) = (Normal false, w1) ->
  let s' := snd (checkDeviceSampleSupport E s) in
  fst (checkDeviceSampleSupport E s)
  = Normal (Some {| SupportCheckResult.supported := Some true;
                    SupportCheckResult.isSet := Some false |})
  /\ isSupported (deviceSamplesState s') = Some true
  /\ isSet (deviceSamplesState s') = Some false
  /\ ids (deviceSamplesState s') = ids (deviceSamplesState s)
  /\ storageTotal (deviceSamplesState s') = storageTotal (deviceSamplesState s)
  /\ storageUsed (deviceSamplesState s') = storageUsed (deviceSamplesState s)
  /\ packsStorageUsed (deviceSamplesState s') = packsStorageUsed (deviceSamplesState s)
  /\ deviceSamples (deviceSamplesState s') = deviceSamples (deviceSamplesState s)
  /\ deviceSampleTransferState s' = set_supportCheck idle (deviceSampleTransferState s)
  /\ calls s' = calls s ++ [call_isSet]
  /\ world s' = w1.
Proof.
  intros Hb H1. cbv zeta. rewrite (probe_run_unset s w1 Hb H1). cbn. repeat split.
Qed.

(** X6.  A probe of a device that answers [isSet() = true] and then answers
    [getSpaceUsed()] and [getIDs()] updates support, set flag, the three
    storage figures and the ids together, returns
    [{supported: true, isSet: true}], makes exactly these three calls in
    this order, and leaves the held collection and the other two channels
    as they were. *)
Theorem probe_of_set_device (s : Store (World E)) w1 spaceUsed w2 ids0 w3 :
  _isTransfering E s = false ->
  SampleManager.isSet (sampleManager E) (world s) = (Normal true, w1) ->
  SampleManager.getSpaceUsed (sampleManager E) w1 = (Normal spaceUsed, w2) ->
  SampleManager.getIDs (sampleManager E) w2 = (Normal ids0, w3) ->
  let s' := snd (checkDeviceSampleSupport E s) in
  fst (checkDeviceSampleSupport E s)
  = Normal (Some {| SupportCheckResult.supported := Some true;
                    SupportCheckResult.isSet := Some true |})
  /\ isSupported (deviceSamplesState s') = Some true
  /\ isSet (deviceSamplesState s') = Some true
  /\ storageTotal (deviceSamplesState s') = Some (SampleManager.tot spaceUsed)
  /\ storageUsed (deviceSamplesState s') = Some (SampleManager.usd spaceUsed)
  /\ packsStorageUsed (deviceSamplesState s') = Some (SampleManager.packs spaceUsed)
  /\ ids (deviceSamplesState s') = Some (transform_ids ids0)
  /\ deviceSamples (deviceSamplesState s') = deviceSamples (deviceSamplesState s)
  /\ deviceSampleTransferState s' = set_supportCheck idle (deviceSampleTransferState s)
  /\ calls s' = calls s ++ [call_isSet; call_getSpaceUsed; call_getIDs]
  /\ world s' = w3.
Proof.
  intros Hb H1 H2 H3. cbv zeta. rewrite (probe_run_set s w1 spaceUsed w2 ids0 w3 Hb H1 H2 H3).
  cbn. repeat split.
Qed.

Lemma probe_frame (s : Store (World E)) :
  let s' := snd (checkDeviceSampleSupport E s) in
  download (deviceSampleTransferState s') = download (deviceSampleTransferState s)
  /\ upload (deviceSampleTransferState s') = upload (deviceSampleTransferState s)
  /\ deviceSamples (deviceSamplesState s') = deviceSamples (deviceSamplesState s)
  /\ (exists k, calls s' = calls s ++ firstn k [call_isSet; call_getSpaceUsed; call_getIDs])
  /\ (_isTransfering E s = true ->
      deviceSamplesState s' = deviceSamplesState s /\ calls s' = calls s /\ world s' = world s).
Proof.
  cbv zeta. unfold_run. destruct (_isTransfering E s) eqn:Hb; cbn.
  - repeat split. exists 0. cbn. now rewrite app_nil_r.
  - repeat call_cases; (repeat split; try discriminate);
      first [ now exists 1
            | exists 2; cbn; now rewrite <- !app_assoc
            | exists 3; cbn; now rewrite <- !app_assoc ].
Qed.

(** X7.  Whatever the transport does, a probe leaves the download channel,
    the upload channel and the held collection untouched, and the only
    calls it makes are [isSet], [getSpaceUsed] and [getIDs], in this order
    and each at most once; on the busy path it changes nothing but its own
    channel. *)
Theorem probe_touches_only_its_own (s : Store (World E)) :
  let s' := snd (checkDeviceSampleSupport E s) in
  download (deviceSampleTransferState s') = download (deviceSampleTransferState s)
  /\ upload (deviceSampleTransferState s') = upload (deviceSampleTransferState s)
  /\ deviceSamples (deviceSamplesState s') = deviceSamples (deviceSamplesState s)
  /\ (exists k, calls s' = calls s ++ firstn k [call_isSet; call_getSpaceUsed; call_getIDs])
  /\ (is_transferring (supportCheck (deviceSampleTransferState s)) = true
      \/ is_transferring (download (deviceSampleTransferState s)) = true
      \/ is_transferring (upload (deviceSampleTransferState s)) = true ->
      deviceSamplesState s' = deviceSamplesState s /\ calls s' = calls s /\ world s' = world s).
Proof.
  destruct (probe_frame s) as (H1 & H2 & H3 & H4 & H5).
  repeat split; auto; apply H5; now apply busy_cases.
Qed.

(** ** Identifier transform, continued *)

Lemma transform_ids_nonempty (l : list (option string)) :
  l <> [] -> transform_ids l = rotate_left_by_one (map dash_id l).
Proof.
  destruct l as [|id rest]; [congruence|]. intros _. unfold transform_ids. cbn.
  destruct id as [[|c r]|]; reflexivity.
Qed.

(** X8.  The stored ids have as many entries as the device reported, one
    entry for an empty report; every stored id is [null] or has the
    separator as its second character; and the entry stored last comes from
    the first reported id, the others moving up by one. *)
Theorem transform_ids_shape (l : list (option string)) :
  length (transform_ids l) = Nat.max 1 (length l)
  /\ (forall x, In x (transform_ids l) ->
                x = None \/ exists c r, x = Some (String c (String "-" r)))
  /\ (forall i, S i < length l -> nth i (transform_ids l) None = dash_id (nth (S i) l None))
  /\ nth (length l - 1) (transform_ids l) None = dash_id (nth 0 l None).
Proof.
  assert (Hdash : forall id, dash_id id = None
                             \/ exists c r, dash_id id = Some (String c (String "-" r))).
  { intros [[|c r]|]; cbn; eauto. }
  destruct l as [|id rest].
  - cbn. repeat split; try lia. intros x [<- | []]. now left.
  - rewrite transform_ids_nonempty by discriminate. cbn [map rotate_left_by_one].
    split; [|split; [|split]].
    + rewrite length_app, length_map. cbn. lia.
    + intros x Hx. apply in_app_or in Hx. destruct Hx as [Hx | [<- | []]].
      * apply in_map_iff in Hx. destruct Hx as (y & <- & _). apply Hdash.
      * apply Hdash.
    + intros i Hi. cbn in Hi. rewrite app_nth1 by (rewrite length_map; lia).
      cbn. change None with (dash_id None) at 1. apply map_nth.
    + replace (length (id :: rest) - 1) with (length rest) by (cbn; lia).
      rewrite app_nth2 by (rewrite length_map; lia).
      rewrite length_map, Nat.sub_diag. reflexivity.
Qed.

Lemma dash_id_injective (a b : option string) :
  a <> Some EmptyString -> b <> Some EmptyString -> dash_id a = dash_id b -> a = b.
Proof.
  destruct a as [[|c r]|], b as [[|c' r']|]; cbn; congruence.
Qed.

Lemma map_dash_id_injective (l1 l2 : list (option string)) :
  (forall id, In id l1 -> id <> Some EmptyString) ->
  (forall id, In id l2 -> id <> Some EmptyString) ->
  map dash_id l1 = map dash_id l2 -> l1 = l2.
Proof.
  revert l2. induction l1 as [|a l1 IH]; intros [|b l2] H1 H2 Hmap; cbn in Hmap;
    try discriminate; [reflexivity|].
  inversion Hmap as [[Hab Hrest]].
  f_equal.
  - apply dash_id_injective; auto; [apply H1 | apply H2]; now left.
  - apply IH; auto; intros id Hid; [apply H1 | apply H2]; now right.
Qed.

(** X9.  The stored ids determine the ids the device reported: two reports
    that are not empty and hold no empty string, and that are stored as the
    same sequence, are the same report. *)
Theorem transform_ids_injective (l1 l2 : list (option string)) :
  l1 <> [] -> l2 <> [] ->
  (forall id, In id l1 -> id <> Some EmptyString) ->
  (forall id, In id l2 -> id <> Some EmptyString) ->
  transform_ids l1 = transform_ids l2 ->
  l1 = l2.
Proof.
  intros Hne1 Hne2 H1 H2 Heq.
  rewrite !transform_ids_nonempty in Heq by assumption.
  apply map_dash_id_injective; auto.
  destruct l1 as [|a l1]; [congruence|]. destruct l2 as [|b l2]; [congruence|].
  cbn in Heq. apply app_inj_tail in Heq. destruct Heq as [Hrest Hhead].
  cbn. congruence.
Qed.

(** ** Download, continued *)

Ltac store_norm := unfold on_transfer, on_state, entered; cbn.

Lemma download_run_busy (s : Store (World E)) :
  _isTransfering E s = true ->
  downloadDeviceSamples E s
  = (Normal undefined, on_transfer (set_download (error BUSY)) s).
Proof.
  intros Hb. unfold_run. rewrite Hb. reflexivity.
Qed.

Lemma download_run_unset (s : Store (World E)) :
  _isTransfering E s = false ->
  isSet (deviceSamplesState s) <> Some true ->
  downloadDeviceSamples E s
  = (Normal null, on_transfer (set_download (error "Device samples not set")) s).
Proof.
  intros Hb Hset. unfold_run. rewrite Hb. cbn.
  destruct (isSet (deviceSamplesState s)) as [[|]|]; cbn; congruence.
Qed.

Lemma download_run_value (s : Store (World E)) vals d w' :
  _isTransfering E s = false ->
  isSet (deviceSamplesState s) = Some true ->
  SampleManager.downloadSamples (sampleManager E) (world s) = (vals, Normal (Some d), w') ->
  downloadDeviceSamples E s
  = (Normal (value d),
     {| deviceSamplesState := set_deviceSamples (Some d) (deviceSamplesState s);
        deviceSampleTransferState := set_download idle (deviceSampleTransferState s);
        world := w';
        calls := calls s ++ [call_downloadSamples] |}).
Proof.
  intros Hb Hset Hdl. unfold_run. rewrite Hb. cbn. rewrite Hset. cbn. rewrite Hdl. cbn.
  rewrite settle_download. reflexivity.
Qed.

Lemma download_run_null (s : Store (World E)) vals w' :
  _isTransfering E s = false ->
  isSet (deviceSamplesState s) = Some true ->
  SampleManager.downloadSamples (sampleManager E) (world s) = (vals, Normal None, w') ->
  downloadDeviceSamples E s
  = (Normal null,
     {| deviceSamplesState := deviceSamplesState s;
        deviceSampleTransferState :=
          set_download (error "Failed to download samples from device")
            (deviceSampleTransferState s);
        world := w';
        calls := calls s ++ [call_downloadSamples] |}).
Proof.
  intros Hb Hset Hdl. unfold_run. rewrite Hb. cbn. rewrite Hset. cbn. rewrite Hdl. cbn.
  rewrite settle_download. reflexivity.
Qed.

Lemma download_frame (s : Store (World E)) :
  let r := fst (downloadDeviceSamples E s) in
  let s' := snd (downloadDeviceSamples E s) in
  supportCheck (deviceSampleTransferState s') = supportCheck (deviceSampleTransferState s)
  /\ upload (deviceSampleTransferState s') = upload (deviceSampleTransferState s)
  /\ inventory_but_samples (deviceSamplesState s') = inventory_but_samples (deviceSamplesState s)
  /\ (exists k, calls s' = calls s ++ firstn k [call_downloadSamples])
  /\ (forall d, r = Normal (value d) -> deviceSamples (deviceSamplesState s') = Some d)
  /\ ((forall d, r <> Normal (value d)) ->
      deviceSamples (deviceSamplesState s') = deviceSamples (deviceSamplesState s)).
Proof.
  cbv zeta. unfold_run. destruct (_isTransfering E s); cbn.
  - repeat split; try discriminate. exists 0. cbn. now rewrite app_nil_r.
  - destruct (is_not_true (isSet (deviceSamplesState s))); cbn.
    + repeat split; try discriminate. exists 0. cbn. now rewrite app_nil_r.
    + call_cases; progress_simpl; cbn;
        (repeat split; try discriminate; try (now exists 1)).
      * intros d0 Hd. inversion Hd. reflexivity.
      * intros Hno. exfalso. now apply (Hno d).
Qed.

(** X10.  A download asked of a store whose [isSet] is not [true] (unknown
    or [false]) returns [null] at once: only the download channel changes,
    to the error 'Device samples not set', and the transport is not
    called. *)
Theorem download_needs_set_device (s : Store (World E)) :
  _isTransfering E s = false ->
  isSet (deviceSamplesState s) <> Some true ->
  downloadDeviceSamples E s
  = (Normal null, on_transfer (set_download (error "Device samples not set")) s)
  /\ calls (snd (downloadDeviceSamples E s)) = calls s
  /\ deviceSamplesState (snd (downloadDeviceSamples E s)) = deviceSamplesState s.
Proof.
  intros Hb Hset. rewrite (download_run_unset s Hb Hset). repeat split.
Qed.

(** X11.  A download from a set device, with no channel in progress, makes
    one [downloadSamples] call.  When the transport yields a collection,
    the download returns it, stores it as the held collection and leaves
    its channel idle; when the transport yields nothing, the download
    returns [null], leaves its channel in the error 'Failed to download
    samples from device' and keeps the collection held before. *)
Theorem download_outcomes (s : Store (World E)) vals w' :
  _isTransfering E s = false ->
  isSet (deviceSamplesState s) = Some true ->
  (forall d,
      SampleManager.downloadSamples (sampleManager E) (world s)
      = (vals, Normal (Some d), w') ->
      downloadDeviceSamples E s
      = (Normal (value d),
         {| deviceSamplesState := set_deviceSamples (Some d) (deviceSamplesState s);
            deviceSampleTransferState := set_download idle (deviceSampleTransferState s);
            world := w';
            calls := calls s ++ [call_downloadSamples] |}))
  /\ (SampleManager.downloadSamples (sampleManager E) (world s) = (vals, Normal None, w') ->
      downloadDeviceSamples E s
      = (Normal null,
         {| deviceSamplesState := deviceSamplesState s;
            deviceSampleTransferState :=
              set_download (error "Failed to download samples from device")
                (deviceSampleTransferState s);
            world := w';
            calls := calls s ++ [call_downloadSamples] |})).
Proof.
  intros Hb Hset. split.
  - intros d Hdl. now apply download_run_value with (vals := vals).
  - intros Hdl. now apply download_run_null with (vals := vals).
Qed.

(** X12.  Whatever the transport does, a rejection included, a download
    leaves the probe channel, the upload channel and every field of the
    snapshot other than the held collection untouched, calls
    [downloadSamples] at most once and nothing else, and replaces the held
    collection only when it returns one. *)
Theorem download_touches_only_its_own (s : Store (World E)) :
  let r := fst (downloadDeviceSamples E s) in
  let s' := snd (downloadDeviceSamples E s) in
  supportCheck (deviceSampleTransferState s') = supportCheck (deviceSampleTransferState s)
  /\ upload (deviceSampleTransferState s') = upload (deviceSampleTransferState s)
  /\ ids (deviceSamplesState s') = ids (deviceSamplesState s)
  /\ isSupported (deviceSamplesState s') = isSupported (deviceSamplesState s)
  /\ isSet (deviceSamplesState s') = isSet (deviceSamplesState s)
  /\ storageTotal (deviceSamplesState s') = storageTotal (deviceSamplesState s)
  /\ storageUsed (deviceSamplesState s') = storageUsed (deviceSamplesState s)
  /\ packsStorageUsed (deviceSamplesState s') = packsStorageUsed (deviceSamplesState s)
  /\ (calls s' = calls s \/ calls s' = calls s ++ [call_downloadSamples])
  /\ (forall d, r = Normal (value d) -> deviceSamples (deviceSamplesState s') = Some d)
  /\ ((forall d, r <> Normal (value d)) ->
      deviceSamples (deviceSamplesState s') = deviceSamples (deviceSamplesState s)).
Proof.
  destruct (download_frame s) as (H1 & H2 & H3 & (k & H4) & H5 & H6).
  cbv zeta. unfold inventory_but_samples in H3. inversion H3.
  repeat split; auto.
  destruct k as [|k]; cbn in H4.
  - left. now rewrite app_nil_r in H4.
  - right. destruct k; exact H4.
Qed.

(** ** Upload, continued *)

Lemma ten_slots_is_valid (p : DeviceSamples) :
  invalid_payload (Some p) = negb (has_ten_slots p).
Proof.
  unfold invalid_payload, has_ten_slots. destruct (pages p); reflexivity.
Qed.

Lemma reprobed_store_not_busy (s : Store (World E)) b w p :
  _isTransfering E s = false ->
  _isTransfering E (reprobed_store s b w p) = false.
Proof.
  intros Hb. apply not_busy_cases in Hb. destruct Hb as (_ & Hd & _).
  unfold _isTransfering. cbn. now rewrite Hd.
Qed.

(** The upload up to its verification download. *)
Lemma upload_until_reprobe (s : Store (World E)) p vals w1 b w2 :
  _isTransfering E s = false ->
  isSupported (deviceSamplesState s) = Some true ->
  has_ten_slots p = true ->
  SampleManager.uploadSamples (sampleManager E) p (world s) = (vals, Normal true, w1) ->
  SampleManager.isSet (sampleManager E) w1 = (Normal b, w2) ->
  uplaodDeviceSamples E (Some p) s
  = if b then
      match downloadDeviceSamples E (reprobed_store s true w2 p) with
      | (Normal (value d), s2) =>
          if deviceSamplesEqual (canonicalize E) (JSON_stringify E) (Some p) (Some d)
          then (Normal true, s2)
          else (Normal false,
                on_transfer
                  (set_upload (error "Uploaded and downloaded samples are not identical"))
                  s2)
      | (Normal _, s2) =>
          (Normal false,
           on_transfer (set_upload (error "Failed to re-download samples after upload")) s2)
      | (Thrown, s2) => (Thrown, s2)
      end
    else
      (Normal false,
       on_transfer (set_upload (error "Device samples are not set"))
         (reprobed_store s false w2 p)).
Proof.
  intros Hb Hsup Hten Hup Hset. unfold_upload.
  rewrite ten_slots_is_valid, Hten, Hb. cbn. rewrite Hsup. cbn. rewrite Hup. cbn.
  progress_simpl. rewrite ?settle_upload. store_norm. rewrite Hset. cbn.
  destruct b; cbn.
  - match goal with
    | |- context [downloadDeviceSamples E ?st] =>
        replace st with (reprobed_store s true w2 p)
          by (unfold reprobed_store; store_norm; rewrite <- app_assoc; reflexivity)
    end.
    destruct (downloadDeviceSamples E (reprobed_store s true w2 p)) as [[[| |d]|] s2];
      cbn; try reflexivity.
    destruct (deviceSamplesEqual (canonicalize E) (JSON_stringify E) (Some p) (Some d));
      reflexivity.
  - unfold reprobed_store. store_norm. rewrite <- app_assoc. reflexivity.
Qed.

(** X13.  An upload to a device not known to be supported ([isSupported]
    unknown or [false]) returns [false] at once, whatever the payload: only
    the upload channel changes, to the error 'Device does not support
    samples', and the transport is not called. *)
Theorem upload_needs_supported_device
    (s : Store (World E)) (newSamples : option DeviceSamples) :
  _isTransfering E s = false ->
  isSupported (deviceSamplesState s) <> Some true ->
  uplaodDeviceSamples E newSamples s
  = (Normal false, on_transfer (set_upload (error "Device does not support samples")) s)
  /\ calls (snd (uplaodDeviceSamples E newSamples s)) = calls s
  /\ deviceSamplesState (snd (uplaodDeviceSamples E newSamples s)) = deviceSamplesState s.
Proof.
  intros Hb Hsup. unfold_upload. rewrite Hb. cbn.
  destruct (isSupported (deviceSamplesState s)) as [[|]|]; cbn; try congruence;
    repeat split.
Qed.

Lemma upload_run_verified (s : Store (World E)) p vals w1 w2 vals' d w3 :
  _isTransfering E s = false ->
  isSupported (deviceSamplesState s) = Some true ->
  has_ten_slots p = true ->
  SampleManager.uploadSamples (sampleManager E) p (world s) = (vals, Normal true, w1) ->
  SampleManager.isSet (sampleManager E) w1 = (Normal true, w2) ->
  SampleManager.downloadSamples (sampleManager E) w2 = (vals', Normal (Some d), w3) ->
  uplaodDeviceSamples E (Some p) s
  = (if deviceSamplesEqual (canonicalize E) (JSON_stringify E) (Some p) (Some d)
     then Normal true else Normal false,
     {| deviceSamplesState :=
          set_deviceSamples (Some d) (set_isSet (Some true) (deviceSamplesState s));
        deviceSampleTransferState :=
          {| supportCheck := idle;
             download := idle;
             upload :=
               if deviceSamplesEqual (canonicalize E) (JSON_stringify E) (Some p) (Some d)
               then idle
               else error "Uploaded and downloaded samples are not identical" |};
        world := w3;
        calls := calls s ++ [call_uploadSamples p; call_isSet; call_downloadSamples] |}).
Proof.
  intros Hb Hsup Hten Hup Hset Hdl.
  rewrite (upload_until_reprobe s p vals w1 true w2 Hb Hsup Hten Hup Hset).
  rewrite (download_run_value (reprobed_store s true w2 p) vals' d w3);
    [| now apply reprobed_store_not_busy | reflexivity | exact Hdl].
  destruct (deviceSamplesEqual (canonicalize E) (JSON_stringify E) (Some p) (Some d));
    unfold reprobed_store; store_norm; rewrite <- app_assoc; reflexivity.
Qed.

(** X14.  An upload returns [true] exactly when no channel is in progress,
    the device is known to be supported, the payload has ten slots, the
    transport accepts the payload, [isSet()] then answers [true], and the
    download that follows yields a collection that the verifier accepts
    against the payload. *)
Theorem upload_true_iff (s : Store (World E)) (newSamples : option DeviceSamples) :
  fst (uplaodDeviceSamples E newSamples s) = Normal true <->
  exists p vals w1 w2 vals' d w3,
    newSamples = Some p
    /\ _isTransfering E s = false
    /\ isSupported (deviceSamplesState s) = Some true
    /\ has_ten_slots p = true
    /\ SampleManager.uploadSamples (sampleManager E) p (world s) = (vals, Normal true, w1)
    /\ SampleManager.isSet (sampleManager E) w1 = (Normal true, w2)
    /\ SampleManager.downloadSamples (sampleManager E) w2 = (vals', Normal (Some d), w3)
    /\ deviceSamplesEqual (canonicalize E) (JSON_stringify E) (Some p) (Some d) = true.
Proof.
  split.
  - destruct (_isTransfering E s) eqn:Hb;
      [unfold_upload; rewrite Hb; cbn; discriminate|].
    destruct (isSupported (deviceSamplesState s)) as [[|]|] eqn:Hsup;
      try (unfold_upload; rewrite Hb; cbn; rewrite Hsup; cbn; discriminate).
    destruct newSamples as [p|];
      [|unfold_upload; rewrite Hb; cbn; rewrite Hsup; cbn; discriminate].
    destruct (has_ten_slots p) eqn:Hten;
      [|unfold_upload; rewrite ten_slots_is_valid, Hten, Hb; cbn; rewrite Hsup; cbn;
        discriminate].
    destruct (SampleManager.uploadSamples (sampleManager E) p (world s))
      as [[vals [[|]|]] w1] eqn:Hup;
      try (unfold_upload; rewrite ten_slots_is_valid, Hten, Hb; cbn; rewrite Hsup; cbn;
           rewrite Hup; cbn; discriminate).
    destruct (SampleManager.isSet (sampleManager E) w1) as [[b|] w2] eqn:Hset.
    + rewrite (upload_until_reprobe s p vals w1 b w2 Hb Hsup Hten Hup Hset).
      destruct b; [|discriminate].
      pose proof (reprobed_store_not_busy s true w2 p Hb) as Hb'.
      destruct (SampleManager.downloadSamples (sampleManager E) w2)
        as [[vals' [[d|]|]] w3] eqn:Hdl.
      * rewrite (download_run_value (reprobed_store s true w2 p) vals' d w3 Hb' eq_refl Hdl).
        destruct (deviceSamplesEqual (canonicalize E) (JSON_stringify E) (Some p) (Some d))
          eqn:Heq; [|discriminate].
        intros _. exists p, vals, w1, w2, vals', d, w3. repeat split; auto.
      * rewrite (download_run_null (reprobed_store s true w2 p) vals' w3 Hb' eq_refl Hdl).
        discriminate.
      * assert (Hthrown : fst (downloadDeviceSamples E (reprobed_store s true w2 p)) = Thrown).
        { unfold_run. rewrite Hb'. cbn. rewrite Hdl. reflexivity. }
        destruct (downloadDeviceSamples E (reprobed_store s true w2 p)) as [[r|] s2];
          cbn in Hthrown; [discriminate|]. discriminate.
    + unfold_upload. rewrite ten_slots_is_valid, Hten, Hb. cbn. rewrite Hsup. cbn.
      rewrite Hup. cbn.
      progress_simpl. cbn. rewrite Hset. cbn. discriminate.
  - intros (p & vals & w1 & w2 & vals' & d & w3
            & -> & Hb & Hsup & Hten & Hup & Hset & Hdl & Heq).
    rewrite (upload_run_verified s p vals w1 w2 vals' d w3 Hb Hsup Hten Hup Hset Hdl).
    now rewrite Heq.
Qed.

(** X15.  On a device that hands back what it was sent, the upload of any
    ten-slot collection returns [true]: the snapshot then holds the
    collection and says the samples are set, all three channels are idle,
    and exactly [uploadSamples], [isSet] and [downloadSamples] were
    called. *)
Theorem upload_round_trip (s : Store (World E)) p vals w1 w2 vals' w3 :
  _isTransfering E s = false ->
  isSupported (deviceSamplesState s) = Some true ->
  has_ten_slots p = true ->
  SampleManager.uploadSamples (sampleManager E) p (world s) = (vals, Normal true, w1) ->
  SampleManager.isSet (sampleManager E) w1 = (Normal true, w2) ->
  SampleManager.downloadSamples (sampleManager E) w2 = (vals', Normal (Some p), w3) ->
  uplaodDeviceSamples E (Some p) s
  = (Normal true,
     {| deviceSamplesState :=
          set_deviceSamples (Some p) (set_isSet (Some true) (deviceSamplesState s));
        deviceSampleTransferState := idle_channels;
        world := w3;
        calls := calls s ++ [call_uploadSamples p; call_isSet; call_downloadSamples] |}).
Proof.
  intros Hb Hsup Hten Hup Hset Hdl.
  rewrite (upload_run_verified s p vals w1 w2 vals' p w3 Hb Hsup Hten Hup Hset Hdl).
  now rewrite (deviceSamplesEqual_refl p Hten).
Qed.

Lemma upload_refused_run (s : Store (World E)) p vals w1 :
  _isTransfering E s = false ->
  isSupported (deviceSamplesState s) = Some true ->
  has_ten_slots p = true ->
  SampleManager.uploadSamples (sampleManager E) p (world s) = (vals, Normal false, w1) ->
  uplaodDeviceSamples E (Some p) s
  = (Normal false,
     {| deviceSamplesState := deviceSamplesState s;
        deviceSampleTransferState :=
          set_upload (error "Failed to upload samples to device")
            (deviceSampleTransferState s);
        world := w1;
        calls := calls s ++ [call_uploadSamples p] |}).
Proof.
  intros Hb Hsup Hten Hup. unfold_upload.
  rewrite ten_slots_is_valid, Hten, Hb. cbn. rewrite Hsup. cbn. rewrite Hup. cbn.
  rewrite settle_upload. reflexivity.
Qed.

(** X16.  When the transport refuses the payload ([uploadSamples] yields
    [false]), the upload returns [false] with the error 'Failed to upload
    samples to device' on its channel, after this one call: there is no
    probe and no download, and the snapshot is left as it was. *)
Theorem upload_refused_by_transport (s : Store (World E)) p vals w1 :
  _isTransfering E s = false ->
  isSupported (deviceSamplesState s) = Some true ->
  has_ten_slots p = true ->
  SampleManager.uploadSamples (sampleManager E) p (world s) = (vals, Normal false, w1) ->
  uplaodDeviceSamples E (Some p) s
  = (Normal false,
     {| deviceSamplesState := deviceSamplesState s;
        deviceSampleTransferState :=
          set_upload (error "Failed to upload samples to device")
            (deviceSampleTransferState s);
        world := w1;
        calls := calls s ++ [call_uploadSamples p] |})
  /\ deviceSamplesState (snd (uplaodDeviceSamples E (Some p) s)) = deviceSamplesState s.
Proof.
  intros Hb Hsup Hten Hup.
  rewrite (upload_refused_run s p vals w1 Hb Hsup Hten Hup). repeat split.
Qed.

(** X17.  After an accepted upload, each failed verification step ends the
    upload with [false] and its own message.  If [isSet()] answers [false],
    no download is made and the snapshot says not set.  If the download
    yields nothing, the download channel is in error as well.  If the
    collection read back is not equal to the payload, the snapshot holds the
    collection read back, not the payload. *)
Theorem upload_verification_failures (s : Store (World E)) p vals w1 w2 :
  _isTransfering E s = false ->
  isSupported (deviceSamplesState s) = Some true ->
  has_ten_slots p = true ->
  SampleManager.uploadSamples (sampleManager E) p (world s) = (vals, Normal true, w1) ->
  (SampleManager.isSet (sampleManager E) w1 = (Normal false, w2) ->
   uplaodDeviceSamples E (Some p) s
   = (Normal false,
      {| deviceSamplesState := set_isSet (Some false) (deviceSamplesState s);
         deviceSampleTransferState :=
           {| supportCheck := idle;
              download := download (deviceSampleTransferState s);
              upload := error "Device samples are not set" |};
         world := w2;
         calls := calls s ++ [call_uploadSamples p; call_isSet] |}))
  /\ (forall vals' w3,
         SampleManager.isSet (sampleManager E) w1 = (Normal true, w2) ->
         SampleManager.downloadSamples (sampleManager E) w2 = (vals', Normal None, w3) ->
         uplaodDeviceSamples E (Some p) s
         = (Normal false,
            {| deviceSamplesState := set_isSet (Some true) (deviceSamplesState s);
               deviceSampleTransferState :=
                 {| supportCheck := idle;
                    download := error "Failed to download samples from device";
                    upload := error "Failed to re-download samples after upload" |};
               world := w3;
               calls := calls s
                        ++ [call_uploadSamples p; call_isSet; call_downloadSamples] |}))
  /\ (forall vals' d w3,
         SampleManager.isSet (sampleManager E) w1 = (Normal true, w2) ->
         SampleManager.downloadSamples (sampleManager E) w2 = (vals', Normal (Some d), w3) ->
         deviceSamplesEqual (canonicalize E) (JSON_stringify E) (Some p) (Some d) = false ->
         uplaodDeviceSamples E (Some p) s
         = (Normal false,
            {| deviceSamplesState :=
                 set_deviceSamples (Some d) (set_isSet (Some true) (deviceSamplesState s));
               deviceSampleTransferState :=
                 {| supportCheck := idle;
                    download := idle;
                    upload := error "Uploaded and downloaded samples are not identical" |};
               world := w3;
               calls := calls s
                        ++ [call_uploadSamples p; call_isSet; call_downloadSamples] |})).
Proof.
  intros Hb Hsup Hten Hup. split; [|split].
  - intros Hset.
    rewrite (upload_until_reprobe s p vals w1 false w2 Hb Hsup Hten Hup Hset).
    reflexivity.
  - intros vals' w3 Hset Hdl.
    rewrite (upload_until_reprobe s p vals w1 true w2 Hb Hsup Hten Hup Hset).
    rewrite (download_run_null (reprobed_store s true w2 p) vals' w3);
      [| now apply reprobed_store_not_busy | reflexivity | exact Hdl].
    unfold reprobed_store. store_norm. rewrite <- app_assoc. reflexivity.
  - intros vals' d w3 Hset Hdl Hneq.
    rewrite (upload_run_verified s p vals w1 w2 vals' d w3 Hb Hsup Hten Hup Hset Hdl).
    now rewrite Hneq.
Qed.

Lemma upload_progress_stays_in_progress (vals : list Z) (st : Store (World E)) :
  is_transferring (upload (deviceSampleTransferState st)) = true ->
  is_transferring
    (upload
       (deviceSampleTransferState
          (fold_left (fun st v => on_transfer (set_upload (transferring (Some v))) st)
             vals st))) = true.
Proof.
  revert st. induction vals as [|v vals IH]; intros st Hst; cbn; [exact Hst|].
  apply IH. reflexivity.
Qed.

Lemma busy_by_channel (s : Store (World E)) :
  is_transferring (supportCheck (deviceSampleTransferState s)) = true
  \/ is_transferring (download (deviceSampleTransferState s)) = true
  \/ is_transferring (upload (deviceSampleTransferState s)) = true ->
  _isTransfering E s = true.
Proof.
  apply busy_cases.
Qed.

(** X18.  The upload has no handler for a rejecting transport.  When
    [uploadSamples] rejects, the upload rejects with its channel still in
    progress; when [isSet()] rejects after an accepted upload, the upload
    rejects with the probe channel still in progress and its own channel
    idle; when the verification download rejects, the upload rejects with
    the download channel still in progress.  In each case the store is
    left busy. *)
Theorem upload_rejections_leave_a_channel_in_progress (s : Store (World E)) p :
  _isTransfering E s = false ->
  isSupported (deviceSamplesState s) = Some true ->
  has_ten_slots p = true ->
  let r := fst (uplaodDeviceSamples E (Some p) s) in
  let s' := snd (uplaodDeviceSamples E (Some p) s) in
  (forall vals w1,
      SampleManager.uploadSamples (sampleManager E) p (world s) = (vals, Thrown, w1) ->
      r = Thrown
      /\ is_transferring (upload (deviceSampleTransferState s')) = true
      /\ _isTransfering E s' = true)
  /\ (forall vals w1 w2,
         SampleManager.uploadSamples (sampleManager E) p (world s) = (vals, Normal true, w1) ->
         SampleManager.isSet (sampleManager E) w1 = (Thrown, w2) ->
         r = Thrown
         /\ supportCheck (deviceSampleTransferState s') = transferring None
         /\ upload (deviceSampleTransferState s') = idle
         /\ _isTransfering E s' = true)
  /\ (forall vals w1 w2 vals' w3,
         SampleManager.uploadSamples (sampleManager E) p (world s) = (vals, Normal true, w1) ->
         SampleManager.isSet (sampleManager E) w1 = (Normal true, w2) ->
         SampleManager.downloadSamples (sampleManager E) w2 = (vals', Thrown, w3) ->
         r = Thrown
         /\ is_transferring (download (deviceSampleTransferState s')) = true
         /\ upload (deviceSampleTransferState s') = idle
         /\ _isTransfering E s' = true).
Proof.
  intros Hb Hsup Hten. cbv zeta. split; [|split].
  - intros vals w1 Hup. unfold_upload.
    rewrite ten_slots_is_valid, Hten, Hb. cbn. rewrite Hsup. cbn. rewrite Hup. cbn.
    assert (Hp : is_transferring
                   (upload
                      (deviceSampleTransferState
                         (fold_left
                            (fun st v => on_transfer (set_upload (transferring (Some v))) st)
                            vals
                            (entered (call_uploadSamples p) w1
                               (on_transfer (set_upload (transferring None)) s)))))
                 = true)
      by (apply upload_progress_stays_in_progress; reflexivity).
    split; [reflexivity|]. split; [exact Hp|]. apply busy_by_channel. auto.
  - intros vals w1 w2 Hup Hset. unfold_upload.
    rewrite ten_slots_is_valid, Hten, Hb. cbn. rewrite Hsup. cbn. rewrite Hup. cbn.
    progress_simpl. rewrite ?settle_upload. store_norm. rewrite Hset. cbn.
    repeat split.
  - intros vals w1 w2 vals' w3 Hup Hset Hdl.
    rewrite (upload_until_reprobe s p vals w1 true w2 Hb Hsup Hten Hup Hset).
    pose proof (reprobed_store_not_busy s true w2 p Hb) as Hb'.
    assert (Hrun : downloadDeviceSamples E (reprobed_store s true w2 p)
                   = (Thrown,
                      fold_left
                        (fun st v => on_transfer (set_download (transferring (Some v))) st)
                        vals'
                        (entered call_downloadSamples w3
                           (on_transfer (set_download (transferring None))
                              (reprobed_store s true w2 p))))).
    { unfold_run. rewrite Hb'. cbn. rewrite Hdl. reflexivity. }
    rewrite Hrun. cbn.
    assert (Hp : is_transferring
                   (download
                      (deviceSampleTransferState
                         (fold_left
                            (fun st v => on_transfer (set_download (transferring (Some v))) st)
                            vals'
                            (entered call_downloadSamples w3
                               (on_transfer (set_download (transferring None))
                                  (reprobed_store s true w2 p))))))
                 = true)
      by (apply progress_stays_in_progress; reflexivity).
    split; [reflexivity|]. split; [exact Hp|]. split.
    + progress_simpl. reflexivity.
    + apply busy_by_channel. auto.
Qed.

(** ** The busy gate, continued *)

Lemma error_keeps_free (s : Store (World E)) (m : string) :
  _isTransfering E s = false ->
  _isTransfering E (on_transfer (set_supportCheck (error m)) s) = false
  /\ _isTransfering E (on_transfer (set_download (error m)) s) = false
  /\ _isTransfering E (on_transfer (set_upload (error m)) s) = false.
Proof.
  intros Hb. apply not_busy_cases in Hb. destruct Hb as (Hs & Hd & Hu).
  unfold _isTransfering. cbn. rewrite Hs, Hd, Hu. repeat split.
Qed.

Lemma free_by_channels (s s' : Store (World E)) :
  _isTransfering E s = false ->
  (is_transferring (supportCheck (deviceSampleTransferState s')) = false
   \/ supportCheck (deviceSampleTransferState s') = supportCheck (deviceSampleTransferState s)) ->
  (is_transferring (download (deviceSampleTransferState s')) = false
   \/ download (deviceSampleTransferState s') = download (deviceSampleTransferState s)) ->
  (is_transferring (upload (deviceSampleTransferState s')) = false
   \/ upload (deviceSampleTransferState s') = upload (deviceSampleTransferState s)) ->
  _isTransfering E s' = false.
Proof.
  intros Hb Hs Hd Hu. apply not_busy_cases in Hb. destruct Hb as (Hs0 & Hd0 & Hu0).
  unfold _isTransfering.
  assert (H1 : is_transferring (supportCheck (deviceSampleTransferState s')) = false)
    by (destruct Hs as [H | H]; [exact H | now rewrite H]).
  assert (H2 : is_transferring (download (deviceSampleTransferState s')) = false)
    by (destruct Hd as [H | H]; [exact H | now rewrite H]).
  assert (H3 : is_transferring (upload (deviceSampleTransferState s')) = false)
    by (destruct Hu as [H | H]; [exact H | now rewrite H]).
  now rewrite H1, H2, H3.
Qed.

Lemma probe_keeps_free (s s' : Store (World E)) r :
  _isTransfering E s = false ->
  checkDeviceSampleSupport E s = (Normal r, s') ->
  _isTransfering E s' = false.
Proof.
  intros Hb Hrun.
  destruct (probe_always_returns s) as (r0 & s0 & Hrun0 & Hd & Hu & _ & Hidle).
  rewrite Hrun in Hrun0. inversion Hrun0; subst.
  destruct (Hidle Hb) as (Hc & _).
  apply (free_by_channels s); auto. left. now rewrite Hc.
Qed.

Lemma download_keeps_free (s s' : Store (World E)) r :
  _isTransfering E s = false ->
  downloadDeviceSamples E s = (Normal r, s') ->
  _isTransfering E s' = false.
Proof.
  intros Hb Hrun.
  destruct (download_frame s) as (Hs & Hu & _). rewrite Hrun in Hs, Hu. cbn in Hs, Hu.
  destruct (own_channel_settled_at_normal_return s s') as (_ & Hd & _).
  apply (free_by_channels s); auto. left. now apply (Hd r).
Qed.

Lemma upload_keeps_free (s s' : Store (World E)) newSamples r :
  _isTransfering E s = false ->
  uplaodDeviceSamples E newSamples s = (Normal r, s') ->
  _isTransfering E s' = false.
Proof.
  intros Hb.
  destruct (isSupported (deviceSamplesState s)) as [[|]|] eqn:Hsup;
    try (unfold_upload; rewrite Hb; cbn; rewrite Hsup; cbn;
         intros H; inversion H; subst; now apply error_keeps_free).
  destruct (invalid_payload newSamples) eqn:Hinv;
    [unfold_upload; rewrite Hinv, Hb; cbn; rewrite Hsup; cbn;
     intros H; inversion H; subst; now apply error_keeps_free|].
  destruct newSamples as [p|]; [|discriminate].
  assert (Hten : has_ten_slots p = true).
  { rewrite ten_slots_is_valid in Hinv. now destruct (has_ten_slots p). }
  destruct (SampleManager.uploadSamples (sampleManager E) p (world s))
    as [[vals [[|]|]] w1] eqn:Hup.
  - destruct (SampleManager.isSet (sampleManager E) w1) as [[b|] w2] eqn:Hset.
    + rewrite (upload_until_reprobe s p vals w1 b w2 Hb Hsup Hten Hup Hset).
      destruct b.
      * pose proof (reprobed_store_not_busy s true w2 p Hb) as Hb'.
        destruct (downloadDeviceSamples E (reprobed_store s true w2 p))
          as [[r2|] s2] eqn:Hdl; [|destruct r; discriminate].
        pose proof (download_keeps_free _ _ _ Hb' Hdl) as Hb2.
        destruct r2 as [| |d];
          try (intros H; inversion H; subst; now apply error_keeps_free).
        destruct (deviceSamplesEqual (canonicalize E) (JSON_stringify E) (Some p) (Some d));
          intros H; inversion H; subst; [exact Hb2 | now apply error_keeps_free].
      * intros H; inversion H; subst.
        apply error_keeps_free. now apply reprobed_store_not_busy.
    + unfold_upload. rewrite ten_slots_is_valid, Hten, Hb. cbn. rewrite Hsup. cbn.
      rewrite Hup. cbn. progress_simpl. rewrite ?settle_upload. store_norm.
      rewrite Hset. cbn. discriminate.
  - rewrite (upload_refused_run s p vals w1 Hb Hsup Hten Hup).
    intros H; inversion H; subst.
    apply not_busy_cases in Hb. destruct Hb as (Hs & Hd & Hu).
    unfold _isTransfering. cbn. now rewrite Hs, Hd.
  - unfold_upload. rewrite ten_slots_is_valid, Hten, Hb. cbn. rewrite Hsup. cbn.
    rewrite Hup. cbn. discriminate.
Qed.

(** X19.  Whatever the transport does, an upload leaves [isSupported], the
    ids and the three storage figures of the snapshot untouched; without a
    payload object it calls nothing, and with one the calls it makes are
    [uploadSamples] of that payload, [isSet] and [downloadSamples], in this
    order and each at most once. *)
Theorem upload_touches_only_its_own (s : Store (World E)) (newSamples : option DeviceSamples) :
  let s' := snd (uplaodDeviceSamples E newSamples s) in
  inventory_of_probe (deviceSamplesState s') = inventory_of_probe (deviceSamplesState s)
  /\ match newSamples with
     | None => calls s' = calls s
     | Some p =>
         exists k,
           calls s' = calls s ++ firstn k [call_uploadSamples p; call_isSet; call_downloadSamples]
     end.
Proof.
  cbv zeta.
  assert (Hgate : forall m,
             uplaodDeviceSamples E newSamples s
             = (Normal false, on_transfer (set_upload (error m)) s) ->
             inventory_of_probe
               (deviceSamplesState (snd (uplaodDeviceSamples E newSamples s)))
             = inventory_of_probe (deviceSamplesState s)
             /\ match newSamples with
                | None => calls (snd (uplaodDeviceSamples E newSamples s)) = calls s
                | Some p =>
                    exists k,
                      calls (snd (uplaodDeviceSamples E newSamples s))
                      = calls s
                        ++ firstn k [call_uploadSamples p; call_isSet; call_downloadSamples]
                end).
  { intros m Hrun. rewrite Hrun. cbn. split; [reflexivity|].
    destruct newSamples; [|reflexivity]. exists 0. cbn. now rewrite app_nil_r. }
  destruct (_isTransfering E s) eqn:Hb;
    [apply (Hgate BUSY); unfold_upload; rewrite Hb; reflexivity|].
  destruct (isSupported (deviceSamplesState s)) as [[|]|] eqn:Hsup;
    try (apply (Hgate "Device does not support samples");
         unfold_upload; rewrite Hb; cbn; rewrite Hsup; reflexivity).
  destruct (invalid_payload newSamples) eqn:Hinv;
    [apply (Hgate "Invalid samples payload");
     unfold_upload; rewrite Hinv, Hb; cbn; rewrite Hsup; reflexivity|].
  clear Hgate. destruct newSamples as [p|]; [|discriminate].
  assert (Hten : has_ten_slots p = true).
  { rewrite ten_slots_is_valid in Hinv. now destruct (has_ten_slots p). }
  destruct (SampleManager.uploadSamples (sampleManager E) p (world s))
    as [[vals [[|]|]] w1] eqn:Hup.
  - destruct (SampleManager.isSet (sampleManager E) w1) as [[b|] w2] eqn:Hset.
    + rewrite (upload_until_reprobe s p vals w1 b w2 Hb Hsup Hten Hup Hset).
      destruct b.
      * destruct (download_frame (reprobed_store s true w2 p))
          as (_ & _ & Hinv' & (k & Hcalls) & _).
        assert (Hfinal : forall s2 : Store (World E),
                   deviceSamplesState s2
                   = deviceSamplesState
                       (snd (downloadDeviceSamples E (reprobed_store s true w2 p))) ->
                   calls s2
                   = calls (snd (downloadDeviceSamples E (reprobed_store s true w2 p))) ->
                   inventory_of_probe (deviceSamplesState s2)
                   = inventory_of_probe (deviceSamplesState s)
                   /\ exists k0,
                       calls s2
                       = calls s
                         ++ firstn k0
                              [call_uploadSamples p; call_isSet; call_downloadSamples]).
        { intros s2 Hst Hc. rewrite Hst, Hc. split.
          - unfold inventory_but_samples in Hinv'. inversion Hinv' as [[H1 H2 H3 H4 H5 H6]].
            unfold inventory_of_probe. rewrite H1, H2, H4, H5, H6. reflexivity.
          - rewrite Hcalls. cbn. exists (2 + k). rewrite <- app_assoc.
            destruct k as [|[|k]]; reflexivity. }
        destruct (downloadDeviceSamples E (reprobed_store s true w2 p))
          as [[[| |d]|] s2]; cbn in *; try (apply Hfinal; reflexivity).
        destruct (deviceSamplesEqual (canonicalize E) (JSON_stringify E) (Some p) (Some d));
          apply Hfinal; reflexivity.
      * cbn. split; [reflexivity|]. now exists 2.
    + unfold_upload. rewrite ten_slots_is_valid, Hten, Hb. cbn. rewrite Hsup. cbn.
      rewrite Hup. cbn. progress_simpl. rewrite ?settle_upload. store_norm.
      rewrite Hset. cbn. split; [reflexivity|]. exists 2. cbn.
      now rewrite <- app_assoc.
  - rewrite (upload_refused_run s p vals w1 Hb Hsup Hten Hup). cbn.
    split; [reflexivity|]. now exists 1.
  - unfold_upload. rewrite ten_slots_is_valid, Hten, Hb. cbn. rewrite Hsup. cbn.
    rewrite Hup. cbn. progress_simpl. cbn. split; [reflexivity|]. now exists 1.
Qed.

(** ** Pack fetcher and builder, continued *)

Lemma fetch_frame (id : string) (s : Store (World E)) :
  let s' := snd (fetchServerPack E id s) in
  deviceSamplesState s' = deviceSamplesState s
  /\ deviceSampleTransferState s' = deviceSampleTransferState s
  /\ calls s' = calls s ++ request_of E id.
Proof.
  cbv zeta. unfold fetchServerPack, request_of, try_catch, bind, await, ret, throw.
  destruct (encodeURIComponent E id) as [encoded|]; cbn;
    [|repeat split; now rewrite app_nil_r].
  destruct (fetch E _ (world s)) as [[res|] w]; cbn; [|repeat split].
  destruct (ok res); cbn; [|repeat split].
  destruct (json_body res) as [[body|]|]; cbn; repeat split.
Qed.

(** A fetch that yields a pack has made its request. *)
Lemma fetch_success_requests (id : string) (s s1 : Store (World E)) (p : SamplePack) :
  fetchServerPack E id s = (Normal (Some p), s1) ->
  request_of E id = [call_fetch (pack_url E id)].
Proof.
  unfold fetchServerPack, request_of, pack_url, try_catch, bind, await, ret, throw.
  destruct (encodeURIComponent E id) as [encoded|]; cbn; [reflexivity | discriminate].
Qed.

Lemma request_of_prefix (id : string) (rest : list Call) :
  exists k, request_of E id = firstn k (call_fetch (pack_url E id) :: rest).
Proof.
  unfold request_of, pack_url.
  destruct (encodeURIComponent E id) as [encoded|]; [now exists 1 | now exists 0].
Qed.

(** X20.  [fetchServerPack] never rejects and leaves snapshot and channels
    alone.  When [encodeURIComponent] throws on the id it makes no request
    and returns [null]; otherwise it makes exactly one request, to the url
    of the encoded id under [/samples/MONKEY/DRM/], and returns a pack
    exactly when the request resolves with [ok] and the body parses to an
    object.  A pack it returns has the body's loops and the requested id as
    its name, whatever name the body carried. *)
Theorem fetchServerPack_outcomes (id : string) (s : Store (World E)) :
  let r := fst (fetchServerPack E id s) in
  let s' := snd (fetchServerPack E id s) in
  r <> Thrown
  /\ deviceSamplesState s' = deviceSamplesState s
  /\ deviceSampleTransferState s' = deviceSampleTransferState s
  /\ (encodeURIComponent E id = Thrown ->
      r = Normal None /\ calls s' = calls s /\ world s' = world s)
  /\ (forall encoded,
         encodeURIComponent E id = Normal encoded ->
         calls s' = calls s ++ [call_fetch ("/samples/MONKEY/DRM/" ++ encoded ++ ".json")%string]
         /\ r = Normal
                  match fst (fetch E ("/samples/MONKEY/DRM/" ++ encoded ++ ".json")%string
                               (world s)) with
                  | Normal res =>
                      if ok res then
                        match json_body res with
                        | Normal (Some body) => Some {| name := id; loops := loops body |}
                        | _ => None
                        end
                      else None
                  | Thrown => None
                  end)
  /\ (forall p, r = Normal (Some p) -> name p = id).
Proof.
  cbv zeta. destruct (fetch_frame id s) as (H1 & H2 & _).
  destruct (fetchServerPack_returns id s) as (r0 & s0 & Hrun & Hname & _).
  split; [rewrite Hrun; discriminate|].
  split; [exact H1|]. split; [exact H2|].
  split; [|split].
  - intros Hthrown.
    unfold fetchServerPack, try_catch, bind, await, ret, throw.
    rewrite Hthrown. cbn. repeat split.
  - intros encoded Hencoded.
    unfold fetchServerPack, try_catch, bind, await, ret, throw.
    rewrite Hencoded. cbn.
    destruct (fetch E _ (world s)) as [[res|] w]; cbn; [|split; reflexivity].
    destruct (ok res); cbn; [|split; reflexivity].
    destruct (json_body res) as [[body|]|]; cbn; split; reflexivity.
  - intros p Hp. rewrite Hrun in Hp. cbn in Hp. inversion Hp; subst. now apply Hname.
Qed.

Lemma build_pages_frame (l : list (option string)) (acc : list (option SamplePack))
    (s : Store (World E)) :
  let r := fst (build_pages E l acc s) in
  let s' := snd (build_pages E l acc s) in
  deviceSamplesState s' = deviceSamplesState s
  /\ deviceSampleTransferState s' = deviceSampleTransferState s
  /\ (exists k,
         calls s'
         = calls s ++ firstn k (map (fun id => call_fetch (pack_url E id)) (requested_ids l)))
  /\ (forall ps, r = Normal (Some ps) ->
                 calls s'
                 = calls s ++ map (fun id => call_fetch (pack_url E id)) (requested_ids l))
  /\ (forall ps, r = Normal (Some ps) -> length ps = length acc + length l).
Proof.
  cbv zeta. revert acc s. induction l as [|id l IH]; intros acc s.
  - cbn. repeat split; try (now rewrite app_nil_r).
    + exists 0. now rewrite app_nil_r.
    + intros ps H. inversion H. lia.
  - assert (Hgap : truthy_id id = false ->
                   build_pages E (id :: l) acc s = build_pages E l (acc ++ [None]) s
                   /\ requested_ids (id :: l) = requested_ids l).
    { destruct id as [[|c r]|]; cbn; intros; split; congruence. }
    destruct (truthy_id id) eqn:Hid.
    + destruct id as [[|c r]|]; cbn in Hid; try discriminate.
      destruct (fetch_frame (trim (String c r)) s) as (F1 & F2 & F3).
      destruct (fetchServerPack_returns (trim (String c r)) s) as (r0 & s1 & Hrun & _).
      rewrite Hrun in F1, F2, F3. cbn in F1, F2, F3.
      cbn [build_pages requested_ids map]. unfold bind at 1 2 3 4 5 6. rewrite Hrun.
      destruct r0 as [p0|].
      * rewrite (fetch_success_requests _ _ _ _ Hrun) in F3.
        destruct (IH (acc ++ [Some p0]) s1) as (I1 & I2 & (k & I3) & I4 & I5).
        rewrite I1, I2, F1, F2. repeat split.
        -- exists (S k). rewrite I3, F3, <- app_assoc. reflexivity.
        -- intros ps Hps. rewrite (I4 ps Hps), F3, <- app_assoc. reflexivity.
        -- intros ps Hps. rewrite (I5 ps Hps), length_app. cbn. lia.
      * cbn. repeat split; auto; try discriminate.
        destruct (request_of_prefix (trim (String c r))
                    (map (fun id => call_fetch (pack_url E id)) (requested_ids l)))
          as (k & Hk).
        exists k. now rewrite F3, Hk.
    + destruct (Hgap eq_refl) as [Hrun Hreq]. rewrite Hrun, Hreq.
      destruct (IH (acc ++ [None]) s) as (I1 & I2 & I3 & I4 & I5).
      repeat split; auto.
      intros ps Hps. rewrite (I5 ps Hps), length_app. cbn. lia.
Qed.

Lemma build_frame (ids0 : option (list (option string))) (s : Store (World E)) :
  let s' := snd (buildDeviceSamplesFromIds E ids0 s) in
  deviceSamplesState s' = deviceSamplesState s
  /\ deviceSampleTransferState s' = deviceSampleTransferState s.
Proof.
  cbv zeta. unfold buildDeviceSamplesFromIds, bind, ret.
  destruct ids0 as [l|]; [|split; reflexivity].
  destruct ((length l <? 1)%nat || (10 <? length l)%nat); [split; reflexivity|].
  destruct (build_pages_frame l [] s) as (H1 & H2 & _).
  destruct (build_pages E l [] s) as [[[ps|]|] s1]; cbn in *; auto.
Qed.

(** The requests made while a prefix was fetched with success. *)
Lemma fetched_all_calls pre (s : Store (World E)) ps s1 :
  fetched_all E pre s ps s1 ->
  calls s1 = calls s ++ requests E (requested_ids pre).
Proof.
  induction 1 as [s | id l s ps s' Hid _ IH | id l s p s1 ps s' Hid Hfetch _ IH].
  - cbn. now rewrite app_nil_r.
  - destruct id as [[|c r]|]; cbn in Hid; try discriminate; exact IH.
  - destruct id as [|c r]; cbn in Hid; [discriminate|].
    destruct (fetch_frame (trim (String c r)) s) as (_ & _ & F3).
    rewrite Hfetch in F3. cbn in F3.
    cbn [requested_ids]. unfold requests in *. cbn [flat_map].
    rewrite IH, F3, <- app_assoc. reflexivity.
Qed.

(** The calls of the loop: all requests when it succeeds; and when the
    fetch of an id fails after the ids before it were fetched, the requests
    up to and including that id, and nothing after. *)
Lemma build_pages_calls (l : list (option string)) (s : Store (World E)) :
  (forall ps, fst (build_pages E l [] s) = Normal (Some ps) ->
              calls (snd (build_pages E l [] s))
              = calls s ++ requests E (requested_ids l))
  /\ (forall pre id post ps s1,
         l = pre ++ Some id :: post ->
         truthy_id (Some id) = true ->
         fetched_all E pre s ps s1 ->
         fst (fetchServerPack E (trim id) s1) = Normal None ->
         fst (build_pages E l [] s) = Normal None
         /\ calls (snd (build_pages E l [] s))
            = calls s ++ requests E (requested_ids pre) ++ request_of E (trim id)).
Proof.
  split.
  - intros ps Hps.
    destruct (build_pages_outcome l s []) as [(qs & s' & Hall & Hrun) | (_ & Hnull)].
    + rewrite Hrun. cbn. now apply fetched_all_calls with (ps := qs).
    + rewrite Hnull in Hps. discriminate.
  - intros pre id post ps s1 -> Hid Hpre Hfail.
    rewrite (build_pages_prefix _ _ _ _ Hpre).
    destruct id as [|c r]; cbn in Hid; [discriminate|].
    cbn [build_pages]. unfold bind.
    destruct (fetch_frame (trim (String c r)) s1) as (_ & _ & F3).
    destruct (fetchServerPack E (trim (String c r)) s1) as [[[p|]|] s2];
      cbn in Hfail, F3 |- *; try discriminate.
    split; [reflexivity|].
    rewrite F3, (fetched_all_calls _ _ _ _ Hpre), <- app_assoc. reflexivity.
Qed.

(** X21.  The builder talks to the remote store only: it leaves snapshot
    and channels alone and makes no request for a [null] id list or a list
    of a length outside 1..10.  When it returns a collection, its calls are
    the requests for the truthy ids, trimmed, one each in the order of the
    list.  When the fetch of an id fails after the ids before it were
    fetched, it returns [null] and its calls are the requests for the ids
    before, then the request for the failing id, and none for any id after
    it. *)
Theorem builder_only_fetches (ids0 : option (list (option string))) (s : Store (World E)) :
  let r := fst (buildDeviceSamplesFromIds E ids0 s) in
  let s' := snd (buildDeviceSamplesFromIds E ids0 s) in
  deviceSamplesState s' = deviceSamplesState s
  /\ deviceSampleTransferState s' = deviceSampleTransferState s
  /\ match ids0 with
     | None => calls s' = calls s
     | Some l =>
         (length l < 1 \/ 10 < length l -> calls s' = calls s)
         /\ (forall d, r = Normal (Some d) ->
                       calls s' = calls s ++ requests E (requested_ids l))
         /\ (1 <= length l <= 10 ->
             forall pre id post ps s1,
               l = pre ++ Some id :: post ->
               truthy_id (Some id) = true ->
               fetched_all E pre s ps s1 ->
               fst (fetchServerPack E (trim id) s1) = Normal None ->
               r = Normal None
               /\ calls s'
                  = calls s ++ requests E (requested_ids pre) ++ request_of E (trim id))
     end.
Proof.
  cbv zeta. destruct (build_frame ids0 s) as (H1 & H2).
  split; [exact H1|]. split; [exact H2|].
  unfold buildDeviceSamplesFromIds, bind, ret.
  destruct ids0 as [l|]; [|reflexivity].
  destruct ((length l <? 1)%nat || (10 <? length l)%nat) eqn:Hrange.
  - apply orb_true_iff in Hrange. rewrite Nat.ltb_lt, Nat.ltb_lt in Hrange.
    cbn. repeat split; try discriminate; intros; lia.
  - apply orb_false_iff in Hrange. rewrite Nat.ltb_ge, Nat.ltb_ge in Hrange.
    destruct (build_pages_calls l s) as (Hall & Hstop).
    split; [intros; lia|]. split.
    + destruct (build_pages E l [] s) as [[[ps|]|] s1]; cbn in *; try discriminate.
      intros d _. now apply (Hall ps).
    + intros _ pre id post ps s1 Hl Hid Hpre Hfail.
      destruct (Hstop pre id post ps s1 Hl Hid Hpre Hfail) as (Hnull & Hcalls).
      destruct (build_pages E l [] s) as [[[qs|]|] s2]; cbn in *; try discriminate.
      split; [reflexivity | exact Hcalls].
Qed.

(** An upload of a ten-slot payload that returns [false] never blames the
    payload. *)
Lemma upload_false_spares_valid_payload (st st' : Store (World E)) (p : DeviceSamples) :
  has_ten_slots p = true ->
  uplaodDeviceSamples E (Some p) st = (Normal false, st') ->
  upload (deviceSampleTransferState st') <> error "Invalid samples payload".
Proof.
  intros Hten.
  destruct (_isTransfering E st) eqn:Hb;
    [unfold_upload; rewrite Hb; cbn; intros H; inversion H; subst; cbn; discriminate|].
  destruct (isSupported (deviceSamplesState st)) as [[|]|] eqn:Hsup;
    try (unfold_upload; rewrite Hb; cbn; rewrite Hsup; cbn;
         intros H; inversion H; subst; cbn; discriminate).
  destruct (SampleManager.uploadSamples (sampleManager E) p (world st))
    as [[vals [[|]|]] w1] eqn:Hup.
  - destruct (SampleManager.isSet (sampleManager E) w1) as [[b|] w2] eqn:Hset.
    + rewrite (upload_until_reprobe st p vals w1 b w2 Hb Hsup Hten Hup Hset).
      destruct b.
      * destruct (downloadDeviceSamples E (reprobed_store st true w2 p))
          as [[[| |d]|] s2]; try discriminate;
          try (intros H; inversion H; subst; cbn; discriminate).
        destruct (deviceSamplesEqual (canonicalize E) (JSON_stringify E) (Some p) (Some d));
          intros H; inversion H; subst; cbn; discriminate.
      * intros H; inversion H; subst; cbn; discriminate.
    + unfold_upload. rewrite ten_slots_is_valid, Hten, Hb. cbn. rewrite Hsup. cbn.
      rewrite Hup. cbn. progress_simpl. rewrite ?settle_upload. store_norm.
      rewrite Hset. cbn. discriminate.
  - rewrite (upload_refused_run st p vals w1 Hb Hsup Hten Hup).
    intros H; inversion H; subst; cbn; discriminate.
  - unfold_upload. rewrite ten_slots_is_valid, Hten, Hb. cbn. rewrite Hsup. cbn.
    rewrite Hup. cbn. discriminate.
Qed.

Lemma built_has_ten_slots
    (ids0 : option (list (option string))) (s s' : Store (World E)) (d : DeviceSamples) :
  buildDeviceSamplesFromIds E ids0 s = (Normal (Some d), s') ->
  has_ten_slots d = true.
Proof.
  unfold buildDeviceSamplesFromIds, bind, ret.
  destruct ids0 as [l|]; [|discriminate].
  destruct ((length l <? 1)%nat || (10 <? length l)%nat) eqn:Hrange; [discriminate|].
  apply orb_false_iff in Hrange. rewrite Nat.ltb_ge, Nat.ltb_ge in Hrange.
  destruct (build_pages_frame l [] s) as (_ & _ & _ & _ & Hlen).
  destruct (build_pages E l [] s) as [[[ps|]|] s1]; cbn in *; try discriminate.
  intros H. inversion H; subst. unfold has_ten_slots. cbn.
  rewrite pad_pages_repeat, length_app, repeat_length, (Hlen ps eq_refl). cbn.
  apply Nat.eqb_eq. lia.
Qed.

(** X22.  Every collection the builder returns has exactly ten slots and
    so passes the payload validation of the upload; as a consequence the
    upload of the defaults never fails with the error 'Invalid samples
    payload'. *)
Theorem built_collection_is_well_formed (s : Store (World E)) :
  (forall ids0 s' d,
      buildDeviceSamplesFromIds E ids0 s = (Normal (Some d), s') ->
      has_ten_slots d = true /\ invalid_payload (Some d) = false)
  /\ (forall s',
         uplaodDeviceDefaultSamples E s = (Normal false, s') ->
         upload (deviceSampleTransferState s') <> error "Invalid samples payload").
Proof.
  split.
  - intros ids0 s' d Hrun. pose proof (built_has_ten_slots _ _ _ _ Hrun) as Hten.
    split; [exact Hten|]. rewrite ten_slots_is_valid, Hten. reflexivity.
  - intros s'.
    unfold uplaodDeviceDefaultSamples, fail_upload, bind, ret, read, assign_transfer.
    destruct (_isTransfering E s); cbn;
      [intros H; inversion H; subst; cbn; discriminate|].
    destruct (buildDeviceSamplesFromIds E (Some DEFAULT_SAMPLE_PACK_IDS) s)
      as [[[d|]|] s1] eqn:Hrun; cbn; try discriminate.
    + apply upload_false_spares_valid_payload.
      now apply (built_has_ten_slots _ _ _ _ Hrun).
    + intros H; inversion H; subst; cbn; discriminate.
Qed.

(** ** The busy gate over whole operations *)

Lemma build_keeps_free (ids0 : option (list (option string))) (s : Store (World E)) :
  _isTransfering E (snd (buildDeviceSamplesFromIds E ids0 s)) = _isTransfering E s.
Proof.
  destruct (build_frame ids0 s) as (_ & H). unfold _isTransfering. now rewrite H.
Qed.

Lemma upload_defaults_keeps_free (s s' : Store (World E)) r :
  _isTransfering E s = false ->
  uplaodDeviceDefaultSamples E s = (Normal r, s') ->
  _isTransfering E s' = false.
Proof.
  intros Hb. unfold uplaodDeviceDefaultSamples, fail_upload, bind, ret, read, assign_transfer.
  rewrite Hb. cbn.
  pose proof (build_keeps_free (Some DEFAULT_SAMPLE_PACK_IDS) s) as Hfree.
  rewrite Hb in Hfree.
  destruct (buildDeviceSamplesFromIds E _ s) as [[[d|]|] s1]; cbn in *; try discriminate.
  - now apply upload_keeps_free.
  - intros H; inversion H; subst. now apply error_keeps_free.
Qed.

Lemma initialise_keeps_free (s s' : Store (World E)) :
  _isTransfering E s = false ->
  initialiseDeviceSamples E s = (Normal tt, s') ->
  _isTransfering E s' = false.
Proof.
  intros Hb. unfold initialiseDeviceSamples, bind, ret, throw, assign_transfer.
  destruct (checkDeviceSampleSupport E s) as [[r|] s1] eqn:Hrun; [|discriminate].
  pose proof (probe_keeps_free _ _ _ Hb Hrun) as Hb1.
  destruct r as [support|]; [|intros H; inversion H; subst; exact Hb1].
  destruct (truthy_flag (SupportCheckResult.supported support)); cbn;
    [|intros H; inversion H; subst; exact Hb1].
  assert (Hfinish : forall st st',
             _isTransfering E st = false ->
             (let (c, st1) := downloadDeviceSamples E st in
              match c with
              | Normal _ => (Normal tt, st1)
              | Thrown => (Thrown, st1)
              end) = (Normal tt, st') ->
             _isTransfering E st' = false).
  { intros st st' Hst. destruct (downloadDeviceSamples E st) as [[a|] st1] eqn:Hd;
      [|discriminate].
    intros H; inversion H; subst. now apply (download_keeps_free _ _ _ Hst Hd). }
  destruct (is_not_true (SupportCheckResult.isSet support)); cbn; [|now apply Hfinish].
  destruct (uplaodDeviceDefaultSamples E s1) as [[[|]|] s2] eqn:Hup; cbn;
    try discriminate.
  - pose proof (upload_defaults_keeps_free _ _ _ Hb1 Hup) as Hb2.
    destruct (checkDeviceSampleSupport E s2) as [[r2|] s3] eqn:Hrun2; [|discriminate].
    pose proof (probe_keeps_free _ _ _ Hb2 Hrun2) as Hb3.
    destruct r2 as [after_upload|]; [|discriminate].
    match goal with
    | |- context [if ?b then _ else _] => destruct b
    end; cbn.
    + intros H; inversion H; subst. now apply error_keeps_free.
    + now apply Hfinish.
  - intros H; inversion H; subst.
    apply error_keeps_free. now apply (upload_defaults_keeps_free _ _ _ Hb1 Hup).
Qed.

(** X23.  The gate is released at every normal return: started with no
    channel in progress, each of the five operations that returns normally
    leaves no channel in progress, whatever its result, so a sequence of
    calls that all return can never lock itself out. *)
Theorem normal_return_releases_the_gate (s s' : Store (World E)) :
  _isTransfering E s = false ->
  (forall r, checkDeviceSampleSupport E s = (Normal r, s') -> _isTransfering E s' = false)
  /\ (forall r, downloadDeviceSamples E s = (Normal r, s') -> _isTransfering E s' = false)
  /\ (forall newSamples r,
         uplaodDeviceSamples E newSamples s = (Normal r, s') -> _isTransfering E s' = false)
  /\ (forall r, uplaodDeviceDefaultSamples E s = (Normal r, s') ->
                _isTransfering E s' = false)
  /\ (forall r, initialiseDeviceSamples E s = (Normal r, s') -> _isTransfering E s' = false).
Proof.
  intros Hb. split; [|split; [|split; [|split]]].
  - intros r. now apply probe_keeps_free.
  - intros r. now apply download_keeps_free.
  - intros newSamples r. now apply upload_keeps_free.
  - intros r. now apply upload_defaults_keeps_free.
  - intros []. now apply initialise_keeps_free.
Qed.

(** X24.  A call refused as busy writes its error over the channel of the
    operation in flight when that is its own channel: if the download
    channel is the only one in progress, a second download request leaves
    no channel in progress, and so do a second probe while only the probe
    channel is in progress and a second upload while only the upload
    channel is. *)
Theorem busy_refusal_overwrites_own_channel
    (s : Store (World E)) (newSamples : option DeviceSamples) :
  (is_transferring (supportCheck (deviceSampleTransferState s)) = true ->
   is_transferring (download (deviceSampleTransferState s)) = false ->
   is_transferring (upload (deviceSampleTransferState s)) = false ->
   _isTransfering E s = true
   /\ _isTransfering E (snd (checkDeviceSampleSupport E s)) = false)
  /\ (is_transferring (supportCheck (deviceSampleTransferState s)) = false ->
      is_transferring (download (deviceSampleTransferState s)) = true ->
      is_transferring (upload (deviceSampleTransferState s)) = false ->
      _isTransfering E s = true
      /\ _isTransfering E (snd (downloadDeviceSamples E s)) = false)
  /\ (is_transferring (supportCheck (deviceSampleTransferState s)) = false ->
      is_transferring (download (deviceSampleTransferState s)) = false ->
      is_transferring (upload (deviceSampleTransferState s)) = true ->
      _isTransfering E s = true
      /\ _isTransfering E (snd (uplaodDeviceSamples E newSamples s)) = false).
Proof.
  split; [|split]; intros Hs Hd Hu;
    (assert (Hb : _isTransfering E s = true) by (apply busy_by_channel; auto));
    (split; [exact Hb|]).
  - rewrite (probe_run_busy s Hb). unfold _isTransfering. cbn. now rewrite Hd, Hu.
  - rewrite (download_run_busy s Hb). unfold _isTransfering. cbn. now rewrite Hs, Hu.
  - unfold_upload. rewrite Hb. unfold _isTransfering. cbn. now rewrite Hs, Hd.
Qed.

(** X25.  While any channel is in progress, the upload of the defaults and
    the initialisation stop at once and call no collaborator: the first
    returns [false] with the busy error on the upload channel and fetches
    no pack, the second returns with the busy error on the probe channel;
    nothing else in the store changes. *)
Theorem busy_defaults_and_initialise_fail_fast (s : Store (World E)) :
  is_transferring (supportCheck (deviceSampleTransferState s)) = true
  \/ is_transferring (download (deviceSampleTransferState s)) = true
  \/ is_transferring (upload (deviceSampleTransferState s)) = true ->
  uplaodDeviceDefaultSamples E s
  = (Normal false, on_transfer (set_upload (error BUSY)) s)
  /\ initialiseDeviceSamples E s
     = (Normal tt, on_transfer (set_supportCheck (error BUSY)) s).
Proof.
  intros Hbusy. apply busy_by_channel in Hbusy. split.
  - unfold uplaodDeviceDefaultSamples, fail_upload, bind, ret, read, assign_transfer.
    rewrite Hbusy. reflexivity.
  - unfold initialiseDeviceSamples, bind, ret. rewrite (probe_run_busy s Hbusy). reflexivity.
Qed.

(** ** Upload of the defaults, continued *)

Lemma build_fails (l : list (option string)) (s : Store (World E)) :
  some_fetch_fails E l s ->
  fst (buildDeviceSamplesFromIds E (Some l) s) = Normal None.
Proof.
  intros Hfail. unfold buildDeviceSamplesFromIds, bind, ret.
  destruct ((length l <? 1)%nat || (10 <? length l)%nat); [reflexivity|].
  pose proof (build_pages_fails l s [] Hfail) as Hf.
  destruct (build_pages E l [] s) as [[[ps|]|] s1]; cbn in *; congruence.
Qed.

Lemma build_calls (l : list (option string)) (s : Store (World E)) :
  exists k,
    calls (snd (buildDeviceSamplesFromIds E (Some l) s))
    = calls s ++ firstn k (map (fun id => call_fetch (pack_url E id)) (requested_ids l)).
Proof.
  unfold buildDeviceSamplesFromIds, bind, ret.
  destruct ((length l <? 1)%nat || (10 <? length l)%nat).
  - exists 0. cbn. now rewrite app_nil_r.
  - destruct (build_pages_frame l [] s) as (_ & _ & Hk & _).
    destruct (build_pages E l [] s) as [[[ps|]|] s1]; cbn in *; exact Hk.
Qed.

(** X26.  When the fetch of a default pack fails, the upload of the
    defaults returns [false] with the error 'Failed to construct default
    sample packs' on the upload channel before the device is touched: the
    calls made are requests to the remote store only, and the snapshot and
    the other two channels are as before. *)
Theorem upload_defaults_stops_on_failed_fetch (s : Store (World E)) :
  _isTransfering E s = false ->
  some_fetch_fails E DEFAULT_SAMPLE_PACK_IDS s ->
  let s' := snd (uplaodDeviceDefaultSamples E s) in
  fst (uplaodDeviceDefaultSamples E s) = Normal false
  /\ deviceSamplesState s' = deviceSamplesState s
  /\ deviceSampleTransferState s'
     = set_upload (error "Failed to construct default sample packs")
         (deviceSampleTransferState s)
  /\ exists k,
      calls s'
      = calls s
        ++ firstn k (map (fun id => call_fetch (pack_url E id))
                       (requested_ids DEFAULT_SAMPLE_PACK_IDS)).
Proof.
  intros Hb Hfail. cbv zeta.
  unfold uplaodDeviceDefaultSamples, fail_upload, bind, ret, read, assign_transfer.
  rewrite Hb. cbn.
  pose proof (build_fails DEFAULT_SAMPLE_PACK_IDS s Hfail) as Hnull.
  destruct (build_frame (Some DEFAULT_SAMPLE_PACK_IDS) s) as (F1 & F2).
  destruct (build_calls DEFAULT_SAMPLE_PACK_IDS s) as (k & Hcalls).
  destruct (buildDeviceSamplesFromIds E (Some DEFAULT_SAMPLE_PACK_IDS) s)
    as [[[d|]|] s1]; cbn in Hnull, F1, F2, Hcalls |- *; try discriminate.
  rewrite F1, F2. repeat split. now exists k.
Qed.

(** ** Initialisation, continued *)

(** X27.  Initialising against a device whose [isSet()] rejects ends
    quietly: the call returns after this one transport call, the snapshot
    says unsupported and is otherwise unchanged, the probe channel is idle,
    the other channels are as before, and nothing is fetched, uploaded or
    downloaded. *)
Theorem initialise_on_unsupported_device (s : Store (World E)) w1 :
  _isTransfering E s = false ->
  SampleManager.isSet (sampleManager E) (world s) = (Thrown, w1) ->
  initialiseDeviceSamples E s
  = (Normal tt,
     {| deviceSamplesState := set_isSupported (Some false) (deviceSamplesState s);
        deviceSampleTransferState := set_supportCheck idle (deviceSampleTransferState s);
        world := w1;
        calls := calls s ++ [call_isSet] |}).
Proof.
  intros Hb H1. unfold initialiseDeviceSamples, bind, ret.
  rewrite (probe_run_fault s w1 Hb H1). reflexivity.
Qed.

(** X28.  Initialising against a device that is already set uploads
    nothing: the only calls are [isSet], [getSpaceUsed], [getIDs] and one
    [downloadSamples], whatever the download answers; and when the download
    yields a collection, the call returns with the snapshot fully
    populated, the collection included, and the probe and download channels
    idle. *)
Theorem initialise_on_set_device (s : Store (World E)) w1 spaceUsed w2 ids0 w3 :
  _isTransfering E s = false ->
  SampleManager.isSet (sampleManager E) (world s) = (Normal true, w1) ->
  SampleManager.getSpaceUsed (sampleManager E) w1 = (Normal spaceUsed, w2) ->
  SampleManager.getIDs (sampleManager E) w2 = (Normal ids0, w3) ->
  calls (snd (initialiseDeviceSamples E s))
  = calls s ++ [call_isSet; call_getSpaceUsed; call_getIDs; call_downloadSamples]
  /\ (forall vals d w4,
         SampleManager.downloadSamples (sampleManager E) w3 = (vals, Normal (Some d), w4) ->
         initialiseDeviceSamples E s
         = (Normal tt,
            {| deviceSamplesState :=
                 {| ids := Some (transform_ids ids0);
                    deviceSamples := Some d;
                    isSupported := Some true;
                    isSet := Some true;
                    storageTotal := Some (SampleManager.tot spaceUsed);
                    storageUsed := Some (SampleManager.usd spaceUsed);
                    packsStorageUsed := Some (SampleManager.packs spaceUsed) |};
               deviceSampleTransferState :=
                 {| supportCheck := idle;
                    download := idle;
                    upload := upload (deviceSampleTransferState s) |};
               world := w4;
               calls := calls s
                        ++ [call_isSet; call_getSpaceUsed; call_getIDs;
                            call_downloadSamples] |})).
Proof.
  intros Hb H1 H2 H3.
  unfold initialiseDeviceSamples, bind, ret.
  rewrite (probe_run_set s w1 spaceUsed w2 ids0 w3 Hb H1 H2 H3). cbn.
  match goal with
  | |- context [downloadDeviceSamples E ?st] => set (s1 := st)
  end.
  assert (Hb1 : _isTransfering E s1 = false).
  { apply not_busy_cases in Hb. destruct Hb as (_ & Hd & Hu).
    unfold _isTransfering, s1. cbn. now rewrite Hd, Hu. }
  split.
  - unfold downloadDeviceSamples, bind, ret, read, assign_transfer, assign_state,
      await_with_progress.
    rewrite Hb1. cbn.
    destruct (SampleManager.downloadSamples (sampleManager E) w3)
      as [[vals [[d|]|]] w4]; cbn; progress_simpl; cbn;
      rewrite <- app_assoc; reflexivity.
  - intros vals d w4 Hdl.
    rewrite (download_run_value s1 vals d w4 Hb1 eq_refl Hdl). cbn.
    rewrite <- app_assoc. reflexivity.
Qed.

(** X29.  The outcome of an initialisation can be read from the store: if
    it returns with the device marked supported and none of the three
    channels in error, then the samples are marked set, the snapshot holds
    a collection, and that collection comes from a [downloadSamples] call
    that was the last thing the initialisation did. *)
Theorem initialise_success_is_visible (s s' : Store (World E)) :
  initialiseDeviceSamples E s = (Normal tt, s') ->
  isSupported (deviceSamplesState s') = Some true ->
  is_error (supportCheck (deviceSampleTransferState s')) = false ->
  is_error (download (deviceSampleTransferState s')) = false ->
  is_error (upload (deviceSampleTransferState s')) = false ->
  isSet (deviceSamplesState s') = Some true
  /\ download (deviceSampleTransferState s') = idle
  /\ exists d before,
      deviceSamples (deviceSamplesState s') = Some d
      /\ calls s' = before ++ [call_downloadSamples].
Proof.
  assert (Hfinish : forall st st' : Store (World E),
             (let (c, st1) := downloadDeviceSamples E st in
              match c with
              | Normal _ => (Normal tt, st1)
              | Thrown => (Thrown, st1)
              end) = (Normal tt, st') ->
             is_error (download (deviceSampleTransferState st')) = false ->
             isSet (deviceSamplesState st') = Some true
             /\ download (deviceSampleTransferState st') = idle
             /\ exists d before,
                 deviceSamples (deviceSamplesState st') = Some d
                 /\ calls st' = before ++ [call_downloadSamples]).
  { intros st st'. destruct (downloadDeviceSamples E st) as [[a|] st1] eqn:Hd;
      [|discriminate].
    intros H Herr. inversion H; subst.
    destruct a as [| |d].
    - rewrite (download_falsy _ _ _ Hd eq_refl) in Herr. discriminate.
    - rewrite (download_falsy _ _ _ Hd eq_refl) in Herr. discriminate.
    - destruct (download_value _ _ _ Hd) as (vals & _ & _ & Hset & Hst & Hcalls & Hc & _).
      rewrite Hst. cbn. split; [exact Hset|]. split; [exact Hc|].
      exists d, (calls st). split; [reflexivity | exact Hcalls]. }
  unfold initialiseDeviceSamples, bind, ret, throw, assign_transfer.
  destruct (probe_always_returns s) as (r & s1 & Hrun & _ & _ & Hbusy & Hidle).
  rewrite Hrun.
  destruct (_isTransfering E s) eqn:Hb.
  - destruct (Hbusy eq_refl) as [-> Herr].
    intros H _ Hs _ _. inversion H; subst. rewrite Herr in Hs. discriminate.
  - destruct (Hidle eq_refl) as (_ & -> & _). cbn.
    destruct (truthy_flag (isSupported (deviceSamplesState s1))) eqn:Hsup1; cbn.
    + destruct (is_not_true (isSet (deviceSamplesState s1))) eqn:Hset1; cbn.
      * destruct (uplaodDeviceDefaultSamples E s1) as [[[|]|] s2] eqn:Hup; cbn;
          try discriminate.
        -- pose proof (upload_defaults_true_leaves_idle _ _ Hup) as Hb2.
           destruct (probe_always_returns s2) as (r2 & s3 & Hrun2 & _ & _ & _ & Hidle2).
           rewrite Hrun2. destruct (Hidle2 Hb2) as (_ & -> & _). cbn.
           match goal with
           | |- context [if ?b then _ else _] => destruct b
           end; cbn.
           ++ intros H _ Hs _ _. inversion H; subst. discriminate.
           ++ intros H _ _ Hd _. now apply (Hfinish s3).
        -- intros H _ _ _ Hu. inversion H; subst. discriminate.
      * intros H _ _ Hd _. now apply (Hfinish s1).
    + intros H Hsup _ _ _. inversion H; subst.
      rewrite Hsup in Hsup1. discriminate.
Qed.

(** ** Waiting for the channels *)

(** X30.  [waitForUploadToFinish] returns at the first poll at which no
    channel is in progress, and not before: it returns store [s'] exactly
    when, for some number [k] of sleeps, [s'] is the store the rest of the
    program has produced after [k] sleeps, no channel of [s'] is in
    progress, and after every smaller number of sleeps some channel was.
    The wait itself changes nothing and calls no collaborator. *)
Theorem wait_returns_at_first_free_poll
    (meanwhile : list (Store (World E) -> Store (World E))) (s s' : Store (World E)) :
  waitForUploadToFinish meanwhile s = Some s' <->
  exists k,
    k <= length meanwhile
    /\ s' = after (firstn k meanwhile) s
    /\ _isTransfering E s' = false
    /\ forall j, j < k -> _isTransfering E (after (firstn j meanwhile) s) = true.
Proof.
  revert s. induction meanwhile as [|step later IH]; intros s.
  - cbn. fold (_isTransfering E s). destruct (_isTransfering E s) eqn:Hb; split.
    + discriminate.
    + intros (k & Hk & -> & Hfree & _). replace k with 0 in Hfree by lia.
      cbn in Hfree. congruence.
    + intros H. inversion H; subst. exists 0. repeat split; auto. intros j Hj. lia.
    + intros (k & Hk & -> & _). replace k with 0 by lia. reflexivity.
  - cbn [waitForUploadToFinish]. fold (_isTransfering E s).
    destruct (_isTransfering E s) eqn:Hb.
    + rewrite IH. split.
      * intros (k & Hk & -> & Hfree & Hbefore). exists (S k). cbn.
        repeat split; auto; try lia.
        intros [|j] Hj; [exact Hb|]. cbn. apply Hbefore. lia.
      * intros (k & Hk & -> & Hfree & Hbefore). destruct k as [|k].
        -- cbn in Hfree. congruence.
        -- exists k. cbn in Hk. repeat split; auto; try lia.
           intros j Hj. apply (Hbefore (S j)). lia.
    + split.
      * intros H. inversion H; subst. exists 0. repeat split; auto; try lia.
      * intros (k & Hk & -> & Hfree & Hbefore). destruct k as [|k]; [reflexivity|].
        specialize (Hbefore 0 (Nat.lt_0_succ k)). cbn in Hbefore. congruence.
Qed.

End Properties.

(** * Concrete runs *)

(** A device that keeps what it is sent: the upload of a ten-slot
    collection returns [true], and the collection read back is verified. *)
Lemma upload_true_is_verified_on_keeper :
  uplaodDeviceSamples Keeper.collaborators (Some ten_slots) (supported_store None)
  = (Normal true,
     snd (uplaodDeviceSamples Keeper.collaborators (Some ten_slots) (supported_store None)))
  /\ exists payload d s1 vals,
      Some ten_slots = Some payload
      /\ downloadDeviceSamples Keeper.collaborators s1
         = (Normal (value d),
            snd (uplaodDeviceSamples Keeper.collaborators (Some ten_slots)
                   (supported_store None)))
      /\ SampleManager.downloadSamples (sampleManager Keeper.collaborators) (world s1)
         = (vals, Normal (Some d),
            world (snd (uplaodDeviceSamples Keeper.collaborators (Some ten_slots)
                          (supported_store None))))
      /\ deviceSamplesEqual (canonicalize Keeper.collaborators)
           (JSON_stringify Keeper.collaborators) (Some payload) (Some d) = true
      /\ deviceSamples
           (deviceSamplesState
              (snd (uplaodDeviceSamples Keeper.collaborators (Some ten_slots)
                      (supported_store None)))) = Some d
      /\ calls (snd (uplaodDeviceSamples Keeper.collaborators (Some ten_slots)
                       (supported_store None)))
         = calls (supported_store (W := World Keeper.collaborators) None)
           ++ [call_uploadSamples payload; call_isSet; call_downloadSamples].
Proof.
  split; [reflexivity|].
  apply (upload_true_is_verified Keeper.collaborators (supported_store None)).
  reflexivity.
Defined.

(** A probe, a download and an upload requested while a download is in
    progress. *)
Lemma busy_calls_fail_fast_during_download :
  is_transferring
    (download
       (deviceSampleTransferState
          (on_transfer (set_download (transferring (Some 40%Z)))
             (supported_store Scripted.silent)))) = true
  /\ downloadDeviceSamples Scripted.collaborators
       (on_transfer (set_download (transferring (Some 40%Z)))
          (supported_store Scripted.silent))
     = (Normal undefined,
        on_transfer (set_download (error BUSY))
          (on_transfer (set_download (transferring (Some 40%Z)))
             (supported_store Scripted.silent))).
Proof.
  split; [reflexivity|].
  apply (busy_calls_fail_fast Scripted.collaborators
           (on_transfer (set_download (transferring (Some 40%Z)))
              (supported_store Scripted.silent))
           (Some ten_slots)).
  right; left; reflexivity.
Defined.



(** C4, as stated, fails: [isSet()] answers [true], [getSpaceUsed()]
    rejects, and the snapshot's [isSet], unknown before the call, is [true]
    after it. *)
Lemma probe_failure_after_isSet_changes_isSet :
  _isTransfering Scripted.collaborators (initial_store set_answers) = false
  /\ fst (SampleManager.getSpaceUsed (sampleManager Scripted.collaborators)
            (snd (SampleManager.isSet (sampleManager Scripted.collaborators) set_answers)))
     = Thrown
  /\ isSet (deviceSamplesState (initial_store set_answers)) = None
  /\ isSet
       (deviceSamplesState
          (snd (checkDeviceSampleSupport Scripted.collaborators (initial_store set_answers))))
     = Some true
  /\ isSet
       (deviceSamplesState
          (snd (checkDeviceSampleSupport Scripted.collaborators (initial_store set_answers))))
     <> isSet (deviceSamplesState (initial_store set_answers)).
Proof.
  repeat split. discriminate.
Qed.

(** The same run through the amended statement. *)
Lemma probe_transport_failure_after_isSet :
  _isTransfering Scripted.collaborators (initial_store set_answers) = false
  /\ fst (checkDeviceSampleSupport Scripted.collaborators (initial_store set_answers))
     = Normal (Some {| SupportCheckResult.supported := Some false;
                       SupportCheckResult.isSet := Some true |}).
Proof.
  split; [reflexivity|].
  apply (proj1 (proj2 (probe_transport_failure Scripted.collaborators
                         (initial_store set_answers) eq_refl))
           (snd (SampleManager.isSet (sampleManager Scripted.collaborators) set_answers))
           (snd (SampleManager.isSet (sampleManager Scripted.collaborators) set_answers)));
    reflexivity.
Defined.

(** [downloadSamples] rejects in the silent world. *)
Lemma download_rejection_on_silent_device :
  _isTransfering Scripted.collaborators (supported_store Scripted.silent) = false
  /\ isSet (deviceSamplesState (supported_store Scripted.silent)) = Some true
  /\ fst (downloadDeviceSamples Scripted.collaborators (supported_store Scripted.silent))
     = Thrown
  /\ download
       (deviceSampleTransferState
          (snd (downloadDeviceSamples Scripted.collaborators
                  (supported_store Scripted.silent)))) = transferring None.
Proof.
  split; [reflexivity|]. split; [reflexivity|].
  split; [|reflexivity].
  apply (download_rejection_leaves_channel_in_progress Scripted.collaborators
           (supported_store Scripted.silent) [] Scripted.silent);
    reflexivity.
Defined.

(** C6, as stated, fails on the empty sequence, for which a lone [null] is
    stored, and on an empty-string id, which is stored as [null]. *)
Lemma empty_ids_are_not_rotated :
  ids (deviceSamplesState
         (snd (checkDeviceSampleSupport Scripted.collaborators
                 (initial_store (ids_answers [])))))
  = Some [None]
  /\ Some [None] <> Some (rotate_left_by_one (map insert_separator []))
  /\ ids (deviceSamplesState
            (snd (checkDeviceSampleSupport Scripted.collaborators
                    (initial_store (ids_answers [Some "AB"; Some EmptyString])))))
     = Some [None; Some "A-B"]
  /\ Some [None; Some "A-B"]
     <> Some (rotate_left_by_one (map insert_separator [Some "AB"; Some EmptyString])).
Proof.
  repeat split; discriminate.
Qed.

(** The example of the specification. *)
Lemma probe_stores_rotated_ids_example :
  [Some "ABCD"; Some "WXYZ"] <> []
  /\ ids (deviceSamplesState
            (snd (checkDeviceSampleSupport Scripted.collaborators
                    (initial_store (ids_answers [Some "ABCD"; Some "WXYZ"])))))
     = Some [Some "W-XYZ"; Some "A-BCD"].
Proof.
  split; [discriminate|].
  apply (probe_stores_rotated_ids Scripted.collaborators
           (initial_store (ids_answers [Some "ABCD"; Some "WXYZ"]))
           (snd (SampleManager.isSet (sampleManager Scripted.collaborators)
                   (ids_answers [Some "ABCD"; Some "WXYZ"])))
           {| SampleManager.tot := 4096; SampleManager.usd := 1024;
              SampleManager.packs := [512; 512]%Z |}
           (snd (SampleManager.getSpaceUsed (sampleManager Scripted.collaborators)
                   (snd (SampleManager.isSet (sampleManager Scripted.collaborators)
                           (ids_answers [Some "ABCD"; Some "WXYZ"])))))
           [Some "ABCD"; Some "WXYZ"]
           Scripted.silent).
  - reflexivity.
  - reflexivity.
  - reflexivity.
  - reflexivity.
  - discriminate.
  - intros id [H | [H | []]]; rewrite <- H; discriminate.
Defined.

(** The example of the specification: the fetch of "A" succeeds, the
    fetch of "B" fails, and the build returns [null]. *)
Lemma build_with_failing_fetch_returns_null :
  some_fetch_fails Scripted.collaborators [Some "A"; Some "B"] (initial_store serves_A_only)
  /\ fst (buildDeviceSamplesFromIds Scripted.collaborators (Some [Some "A"; Some "B"])
            (initial_store serves_A_only)) = Normal None.
Proof.
  assert (Hfail : some_fetch_fails Scripted.collaborators [Some "A"; Some "B"]
                    (initial_store serves_A_only)).
  { exists [Some "A"], "B", [], [Some {| name := "A"; loops := Some [JNumber 1] |}].
    eexists. split; [reflexivity|]. split; [reflexivity|]. split.
    - eapply fetched_pack; [reflexivity | reflexivity | apply fetched_nil].
    - reflexivity. }
  split; [exact Hfail|].
  apply (proj1 (proj2 (proj2 (build_is_all_or_nothing Scripted.collaborators
                                [Some "A"; Some "B"] (initial_store serves_A_only))))
           Hfail).
Defined.

(** C8, as stated, fails: an upload of an empty collection to a device
    whose support is unknown fails with the unsupported message, not with
    the payload-validation one. *)
Lemma malformed_payload_on_unknown_device :
  invalid_payload (Some {| pages := Some [] |}) = true
  /\ uplaodDeviceSamples Scripted.collaborators (Some {| pages := Some [] |})
       (initial_store Scripted.silent)
     = (Normal false,
        on_transfer (set_upload (error "Device does not support samples"))
          (initial_store Scripted.silent))
  /\ upload
       (deviceSampleTransferState
          (snd (uplaodDeviceSamples Scripted.collaborators (Some {| pages := Some [] |})
                  (initial_store Scripted.silent))))
     <> error "Invalid samples payload".
Proof.
  repeat split. discriminate.
Qed.

(** The same payload on a supported device. *)
Lemma malformed_payload_on_supported_device :
  invalid_payload (Some {| pages := Some [] |}) = true
  /\ uplaodDeviceSamples Scripted.collaborators (Some {| pages := Some [] |})
       (supported_store Scripted.silent)
     = (Normal false,
        on_transfer (set_upload (error "Invalid samples payload"))
          (supported_store Scripted.silent)).
Proof.
  split; [reflexivity|].
  apply (malformed_payload_never_reaches_transport Scripted.collaborators
           (supported_store Scripted.silent) (Some {| pages := Some [] |})).
  reflexivity.
Defined.

(** * Further concrete runs *)

(** Two writings of a pack without loops, compared in a chain. *)
Lemma samplePackEqual_chain_on_bare_packs :
  samplePackEqual (canonicalize Scripted.collaborators) (JSON_stringify Scripted.collaborators)
    (Some bare) (Some hollow) = true
  /\ samplePackEqual (canonicalize Scripted.collaborators)
       (JSON_stringify Scripted.collaborators) (Some bare) (Some bare) = true.
Proof.
  split; [reflexivity|].
  apply (proj2 (proj2 (samplePackEqual_equivalence Scripted.collaborators
                         (Some bare) (Some hollow) (Some bare))));
    reflexivity.
Defined.

Lemma samplePackEqual_on_bare_and_hollow :
  name bare = name hollow
  /\ samplePackEqual (canonicalize Scripted.collaborators)
       (JSON_stringify Scripted.collaborators) (Some bare) (Some hollow) = true.
Proof.
  split; [reflexivity|].
  apply (proj2 (proj2 (proj2 (samplePackEqual_by_name_and_canonical_loops
                                Scripted.collaborators bare hollow))));
    reflexivity.
Defined.

Lemma deviceSamplesEqual_slot_by_slot_on_ten_slots :
  deviceSamplesEqual (canonicalize Scripted.collaborators)
    (JSON_stringify Scripted.collaborators) (Some ten_slots) (Some ten_slots) = true
  /\ exists pa pb,
      pages ten_slots = Some pa /\ pages ten_slots = Some pb
      /\ length pa = 10 /\ length pb = 10
      /\ forall i, i < 10 ->
                   samplePackEqual (canonicalize Scripted.collaborators)
                     (JSON_stringify Scripted.collaborators)
                     (nth i pa None) (nth i pb None) = true.
Proof.
  split; [reflexivity|].
  apply (proj1 (deviceSamplesEqual_slot_by_slot Scripted.collaborators ten_slots ten_slots)).
  reflexivity.
Defined.

Lemma deviceSamplesEqual_reflexive_on_ten_slots :
  has_ten_slots ten_slots = true
  /\ deviceSamplesEqual (canonicalize Scripted.collaborators)
       (JSON_stringify Scripted.collaborators) (Some ten_slots) (Some ten_slots) = true.
Proof.
  split; [reflexivity|].
  apply (proj2 (proj1 (proj2 (proj2 (deviceSamplesEqual_partial_equivalence
                                       Scripted.collaborators
                                       (Some ten_slots) (Some ten_slots) (Some ten_slots)))))).
  exists ten_slots. split; reflexivity.
Defined.

Lemma probe_of_unset_device_run :
  _isTransfering Scripted.collaborators (initial_store unset_answers) = false
  /\ fst (checkDeviceSampleSupport Scripted.collaborators (initial_store unset_answers))
     = Normal (Some {| SupportCheckResult.supported := Some true;
                       SupportCheckResult.isSet := Some false |}).
Proof.
  split; [reflexivity|].
  apply (probe_of_unset_device Scripted.collaborators (initial_store unset_answers)
           Scripted.silent);
    reflexivity.
Defined.

Lemma probe_of_set_device_run :
  _isTransfering Scripted.collaborators (initial_store (ids_answers [Some "ABCD"; None]))
  = false
  /\ fst (checkDeviceSampleSupport Scripted.collaborators
            (initial_store (ids_answers [Some "ABCD"; None])))
     = Normal (Some {| SupportCheckResult.supported := Some true;
                       SupportCheckResult.isSet := Some true |}).
Proof.
  split; [reflexivity|].
  apply (probe_of_set_device Scripted.collaborators
           (initial_store (ids_answers [Some "ABCD"; None]))
           (snd (SampleManager.isSet (sampleManager Scripted.collaborators)
                   (ids_answers [Some "ABCD"; None])))
           {| SampleManager.tot := 4096; SampleManager.usd := 1024;
              SampleManager.packs := [512; 512]%Z |}
           (snd (SampleManager.getSpaceUsed (sampleManager Scripted.collaborators)
                   (snd (SampleManager.isSet (sampleManager Scripted.collaborators)
                           (ids_answers [Some "ABCD"; None])))))
           [Some "ABCD"; None]
           Scripted.silent);
    reflexivity.
Defined.

Lemma probe_during_download_changes_nothing_else :
  is_transferring
    (download (deviceSampleTransferState (downloading_store set_answers))) = true
  /\ deviceSamplesState
       (snd (checkDeviceSampleSupport Scripted.collaborators (downloading_store set_answers)))
     = deviceSamplesState (downloading_store set_answers).
Proof.
  split; [reflexivity|].
  apply (proj2 (proj2 (proj2 (proj2 (probe_touches_only_its_own Scripted.collaborators
                                       (downloading_store set_answers)))))).
  right; left; reflexivity.
Defined.

Lemma transform_ids_shape_example :
  In (Some "W-XYZ") (transform_ids [Some "ABCD"; None; Some "WXYZ"])
  /\ (Some "W-XYZ" = None
      \/ exists c r, Some "W-XYZ" = Some (String c (String "-" r))).
Proof.
  split; [right; left; reflexivity|].
  apply (proj1 (proj2 (transform_ids_shape [Some "ABCD"; None; Some "WXYZ"]))).
  right; left; reflexivity.
Defined.

Lemma transform_ids_injective_example :
  transform_ids [Some "ABCD"; None] = transform_ids [Some ("AB" ++ "CD")%string; None]
  /\ [Some "ABCD"; None] = [Some ("AB" ++ "CD")%string; None].
Proof.
  split; [reflexivity|].
  apply (transform_ids_injective [Some "ABCD"; None] [Some ("AB" ++ "CD")%string; None]).
  - discriminate.
  - discriminate.
  - intros id [H | [H | []]]; rewrite <- H; discriminate.
  - intros id [H | [H | []]]; rewrite <- H; discriminate.
  - reflexivity.
Defined.

Lemma download_needs_set_device_run :
  _isTransfering Scripted.collaborators (initial_store Scripted.silent) = false
  /\ downloadDeviceSamples Scripted.collaborators (initial_store Scripted.silent)
     = (Normal null,
        on_transfer (set_download (error "Device samples not set"))
          (initial_store Scripted.silent)).
Proof.
  split; [reflexivity|].
  apply (download_needs_set_device Scripted.collaborators (initial_store Scripted.silent)).
  - reflexivity.
  - discriminate.
Defined.

Lemma download_outcomes_run :
  _isTransfering Scripted.collaborators
    (supported_store (download_answers (Normal (Some ten_slots)))) = false
  /\ fst (downloadDeviceSamples Scripted.collaborators
            (supported_store (download_answers (Normal (Some ten_slots)))))
     = Normal (value ten_slots).
Proof.
  split; [reflexivity|].
  apply (f_equal fst
           (proj1 (download_outcomes Scripted.collaborators
                     (supported_store (download_answers (Normal (Some ten_slots))))
                     [10; 90]%Z Scripted.silent eq_refl eq_refl)
              ten_slots eq_refl)).
Defined.

Lemma download_touches_only_its_own_run :
  fst (downloadDeviceSamples Scripted.collaborators
         (supported_store (download_answers (Normal (Some ten_slots)))))
  = Normal (value ten_slots)
  /\ deviceSamples
       (deviceSamplesState
          (snd (downloadDeviceSamples Scripted.collaborators
                  (supported_store (download_answers (Normal (Some ten_slots)))))))
     = Some ten_slots.
Proof.
  split; [reflexivity|].
  destruct (download_touches_only_its_own Scripted.collaborators
              (supported_store (download_answers (Normal (Some ten_slots)))))
    as (_ & _ & _ & _ & _ & _ & _ & _ & _ & Hheld & _).
  apply (Hheld ten_slots). reflexivity.
Defined.

Lemma upload_needs_supported_device_run :
  _isTransfering Scripted.collaborators (initial_store Scripted.silent) = false
  /\ uplaodDeviceSamples Scripted.collaborators (Some ten_slots) (initial_store Scripted.silent)
     = (Normal false,
        on_transfer (set_upload (error "Device does not support samples"))
          (initial_store Scripted.silent)).
Proof.
  split; [reflexivity|].
  apply (upload_needs_supported_device Scripted.collaborators
           (initial_store Scripted.silent) (Some ten_slots)).
  - reflexivity.
  - discriminate.
Defined.

Lemma upload_true_iff_on_keeper :
  fst (uplaodDeviceSamples Keeper.collaborators (Some ten_slots) (supported_store None))
  = Normal true
  /\ exists p vals w1 w2 vals' d w3,
      Some ten_slots = Some p
      /\ _isTransfering Keeper.collaborators (supported_store None) = false
      /\ isSupported (deviceSamplesState (supported_store (W := World Keeper.collaborators) None))
         = Some true
      /\ has_ten_slots p = true
      /\ SampleManager.uploadSamples (sampleManager Keeper.collaborators) p
           (world (supported_store (W := World Keeper.collaborators) None))
         = (vals, Normal true, w1)
      /\ SampleManager.isSet (sampleManager Keeper.collaborators) w1 = (Normal true, w2)
      /\ SampleManager.downloadSamples (sampleManager Keeper.collaborators) w2
         = (vals', Normal (Some d), w3)
      /\ deviceSamplesEqual (canonicalize Keeper.collaborators)
           (JSON_stringify Keeper.collaborators) (Some p) (Some d) = true.
Proof.
  split; [reflexivity|].
  apply (proj1 (upload_true_iff Keeper.collaborators (supported_store None) (Some ten_slots))).
  reflexivity.
Defined.

Lemma upload_round_trip_on_keeper :
  has_ten_slots ten_slots = true
  /\ fst (uplaodDeviceSamples Keeper.collaborators (Some ten_slots) (supported_store None))
     = Normal true.
Proof.
  split; [reflexivity|].
  apply (f_equal fst
           (upload_round_trip Keeper.collaborators (supported_store None) ten_slots
              [100]%Z (Some ten_slots) (Some ten_slots) [50; 100]%Z (Some ten_slots)
              eq_refl eq_refl eq_refl eq_refl eq_refl eq_refl)).
Defined.

Lemma upload_refused_by_transport_run :
  has_ten_slots ten_slots = true
  /\ upload
       (deviceSampleTransferState
          (snd (uplaodDeviceSamples Scripted.collaborators (Some ten_slots)
                  (supported_store (upload_answers false [])))))
     = error "Failed to upload samples to device".
Proof.
  split; [reflexivity|].
  apply (f_equal (fun run => upload (deviceSampleTransferState (snd run)))
           (proj1 (upload_refused_by_transport Scripted.collaborators
                     (supported_store (upload_answers false [])) ten_slots
                     [50]%Z Scripted.silent eq_refl eq_refl eq_refl eq_refl))).
Defined.

Lemma upload_verification_failures_run :
  has_ten_slots ten_slots = true
  /\ upload
       (deviceSampleTransferState
          (snd (uplaodDeviceSamples Scripted.collaborators (Some ten_slots)
                  (supported_store (upload_answers true [Normal false])))))
     = error "Device samples are not set".
Proof.
  split; [reflexivity|].
  apply (f_equal (fun run => upload (deviceSampleTransferState (snd run)))
           (proj1 (upload_verification_failures Scripted.collaborators
                     (supported_store (upload_answers true [Normal false])) ten_slots
                     [50]%Z
                     (snd (SampleManager.uploadSamples (sampleManager Scripted.collaborators)
                             ten_slots (upload_answers true [Normal false])))
                     Scripted.silent eq_refl eq_refl eq_refl eq_refl)
              eq_refl)).
Defined.

Lemma upload_rejection_run :
  has_ten_slots ten_slots = true
  /\ fst (uplaodDeviceSamples Scripted.collaborators (Some ten_slots)
            (supported_store Scripted.silent)) = Thrown
  /\ is_transferring
       (upload
          (deviceSampleTransferState
             (snd (uplaodDeviceSamples Scripted.collaborators (Some ten_slots)
                     (supported_store Scripted.silent))))) = true.
Proof.
  split; [reflexivity|].
  assert (H := proj1 (upload_rejections_leave_a_channel_in_progress Scripted.collaborators
                        (supported_store Scripted.silent) ten_slots
                        eq_refl eq_refl eq_refl)
                 [] Scripted.silent eq_refl).
  split; [exact (proj1 H) | exact (proj1 (proj2 H))].
Defined.

Lemma fetchServerPack_on_refused_and_served_id :
  (encodeURIComponent refusing_collaborators "A" = Thrown
   /\ fst (fetchServerPack refusing_collaborators "A" (initial_store serves_A_only))
      = Normal None
   /\ calls (snd (fetchServerPack refusing_collaborators "A" (initial_store serves_A_only)))
      = [])
  /\ (encodeURIComponent Scripted.collaborators "A" = Normal "A"
      /\ calls (snd (fetchServerPack Scripted.collaborators "A"
                       (initial_store serves_A_only)))
         = [call_fetch "/samples/MONKEY/DRM/A.json"]
      /\ fst (fetchServerPack Scripted.collaborators "A" (initial_store serves_A_only))
         = Normal (Some {| name := "A"; loops := Some [JNumber 1] |})).
Proof.
  split.
  - destruct (fetchServerPack_outcomes refusing_collaborators "A"
                (initial_store serves_A_only)) as (_ & _ & _ & Hrefused & _).
    destruct (Hrefused eq_refl) as (Hnull & Hcalls & _).
    split; [reflexivity|]. split; [exact Hnull | exact Hcalls].
  - destruct (fetchServerPack_outcomes Scripted.collaborators "A"
                (initial_store serves_A_only)) as (_ & _ & _ & _ & Hserved & _).
    destruct (Hserved "A" eq_refl) as (Hcalls & Hpack).
    split; [reflexivity|]. split; [exact Hcalls | exact Hpack].
Defined.

Lemma builder_stops_at_the_first_failed_fetch :
  (1 <= length [Some "A"; Some "B"; Some "A"] <= 10
   /\ fst (fetchServerPack Scripted.collaborators (trim "B")
             (snd (fetchServerPack Scripted.collaborators (trim "A")
                     (initial_store serves_A_only))))
      = Normal None)
  /\ fst (buildDeviceSamplesFromIds Scripted.collaborators
            (Some [Some "A"; Some "B"; Some "A"]) (initial_store serves_A_only))
     = Normal None
  /\ calls (snd (buildDeviceSamplesFromIds Scripted.collaborators
                   (Some [Some "A"; Some "B"; Some "A"]) (initial_store serves_A_only)))
     = [call_fetch "/samples/MONKEY/DRM/A.json"; call_fetch "/samples/MONKEY/DRM/B.json"].
Proof.
  assert (Hrange : 1 <= length [Some "A"; Some "B"; Some "A"] <= 10) by (cbn; lia).
  split; [split; [exact Hrange | reflexivity]|].
  destruct (builder_only_fetches Scripted.collaborators
              (Some [Some "A"; Some "B"; Some "A"]) (initial_store serves_A_only))
    as (_ & _ & _ & _ & Hstop).
  apply (Hstop Hrange [Some "A"] "B" [Some "A"]
           [Some {| name := "A"; loops := Some [JNumber 1] |}]
           (snd (fetchServerPack Scripted.collaborators (trim "A")
                   (initial_store serves_A_only)))
           eq_refl eq_refl).
  - apply fetched_pack with
      (s1 := snd (fetchServerPack Scripted.collaborators (trim "A")
                    (initial_store serves_A_only)));
      [reflexivity | reflexivity | apply fetched_nil].
  - reflexivity.
Defined.

Lemma built_collection_is_well_formed_run :
  buildDeviceSamplesFromIds Scripted.collaborators (Some [None; Some " A "])
    (initial_store serves_A_only)
  = (Normal (Some {| pages := Some [None; Some {| name := "A"; loops := Some [JNumber 1] |};
                                    None; None; None; None; None; None; None; None] |}),
     snd (buildDeviceSamplesFromIds Scripted.collaborators (Some [None; Some " A "])
            (initial_store serves_A_only)))
  /\ has_ten_slots
       {| pages := Some [None; Some {| name := "A"; loops := Some [JNumber 1] |};
                         None; None; None; None; None; None; None; None] |} = true
  /\ invalid_payload
       (Some {| pages := Some [None; Some {| name := "A"; loops := Some [JNumber 1] |};
                               None; None; None; None; None; None; None; None] |}) = false.
Proof.
  split; [reflexivity|].
  apply (proj1 (built_collection_is_well_formed Scripted.collaborators
                  (initial_store serves_A_only))
           (Some [None; Some " A "])
           (snd (buildDeviceSamplesFromIds Scripted.collaborators (Some [None; Some " A "])
                   (initial_store serves_A_only)))).
  reflexivity.
Defined.

Lemma gate_is_free_after_download_on_keeper :
  _isTransfering Keeper.collaborators (supported_store (Some ten_slots)) = false
  /\ _isTransfering Keeper.collaborators
       (snd (downloadDeviceSamples Keeper.collaborators (supported_store (Some ten_slots))))
     = false.
Proof.
  split; [reflexivity|].
  apply (proj1 (proj2 (normal_return_releases_the_gate Keeper.collaborators
                         (supported_store (Some ten_slots))
                         (snd (downloadDeviceSamples Keeper.collaborators
                                 (supported_store (Some ten_slots))))
                         eq_refl))
           (value ten_slots)).
  reflexivity.
Defined.

Lemma second_download_request_frees_the_gate :
  _isTransfering Scripted.collaborators (downloading_store Scripted.silent) = true
  /\ _isTransfering Scripted.collaborators
       (snd (downloadDeviceSamples Scripted.collaborators
               (downloading_store Scripted.silent))) = false.
Proof.
  apply (proj1 (proj2 (busy_refusal_overwrites_own_channel Scripted.collaborators
                         (downloading_store Scripted.silent) None)));
    reflexivity.
Defined.

Lemma busy_defaults_fail_fast_run :
  is_transferring
    (download (deviceSampleTransferState (downloading_store Scripted.silent))) = true
  /\ uplaodDeviceDefaultSamples Scripted.collaborators (downloading_store Scripted.silent)
     = (Normal false,
        on_transfer (set_upload (error BUSY)) (downloading_store Scripted.silent)).
Proof.
  split; [reflexivity|].
  apply (proj1 (busy_defaults_and_initialise_fail_fast Scripted.collaborators
                  (downloading_store Scripted.silent)
                  (or_intror (or_introl eq_refl)))).
Defined.

Lemma silent_store_fails_first_default :
  some_fetch_fails Scripted.collaborators DEFAULT_SAMPLE_PACK_IDS
    (supported_store Scripted.silent).
Proof.
  exists [], "W-MIXED", [Some "W-UNDRGND"; Some "W-OLLI"; Some "W-OG"], [].
  eexists. split; [reflexivity|]. split; [reflexivity|]. split.
  - apply fetched_nil.
  - reflexivity.
Defined.

Lemma upload_defaults_stops_on_failed_fetch_run :
  some_fetch_fails Scripted.collaborators DEFAULT_SAMPLE_PACK_IDS
    (supported_store Scripted.silent)
  /\ fst (uplaodDeviceDefaultSamples Scripted.collaborators (supported_store Scripted.silent))
     = Normal false.
Proof.
  split; [exact silent_store_fails_first_default|].
  apply (proj1 (upload_defaults_stops_on_failed_fetch Scripted.collaborators
                  (supported_store Scripted.silent) eq_refl
                  silent_store_fails_first_default)).
Defined.

Lemma initialise_on_unsupported_device_run :
  _isTransfering Scripted.collaborators (initial_store Scripted.silent) = false
  /\ calls (snd (initialiseDeviceSamples Scripted.collaborators
                   (initial_store Scripted.silent)))
     = [call_isSet].
Proof.
  split; [reflexivity|].
  apply (f_equal (fun run => calls (snd run))
           (initialise_on_unsupported_device Scripted.collaborators
              (initial_store Scripted.silent) Scripted.silent eq_refl eq_refl)).
Defined.

Lemma initialise_on_set_device_run :
  _isTransfering Scripted.collaborators (initial_store (set_device_answers ten_slots)) = false
  /\ calls (snd (initialiseDeviceSamples Scripted.collaborators
                   (initial_store (set_device_answers ten_slots))))
     = [call_isSet; call_getSpaceUsed; call_getIDs; call_downloadSamples].
Proof.
  split; [reflexivity|].
  apply (proj1 (initialise_on_set_device Scripted.collaborators
                  (initial_store (set_device_answers ten_slots))
                  (snd (SampleManager.isSet (sampleManager Scripted.collaborators)
                          (set_device_answers ten_slots)))
                  {| SampleManager.tot := 4096; SampleManager.usd := 1024;
                     SampleManager.packs := [512; 512]%Z |}
                  (snd (SampleManager.getSpaceUsed (sampleManager Scripted.collaborators)
                          (snd (SampleManager.isSet (sampleManager Scripted.collaborators)
                                  (set_device_answers ten_slots)))))
                  [Some "WOG"; None]
                  (snd (SampleManager.getIDs (sampleManager Scripted.collaborators)
                          (snd (SampleManager.getSpaceUsed
                                  (sampleManager Scripted.collaborators)
                                  (snd (SampleManager.isSet
                                          (sampleManager Scripted.collaborators)
                                          (set_device_answers ten_slots)))))))
                  eq_refl eq_refl eq_refl eq_refl)).
Defined.

Lemma initialise_success_on_keeper :
  initialiseDeviceSamples Keeper.collaborators (initial_store (Some ten_slots))
  = (Normal tt,
     snd (initialiseDeviceSamples Keeper.collaborators (initial_store (Some ten_slots))))
  /\ isSet
       (deviceSamplesState
          (snd (initialiseDeviceSamples Keeper.collaborators
                  (initial_store (Some ten_slots))))) = Some true.
Proof.
  split; [reflexivity|].
  apply (proj1 (initialise_success_is_visible Keeper.collaborators
                  (initial_store (Some ten_slots))
                  (snd (initialiseDeviceSamples Keeper.collaborators
                          (initial_store (Some ten_slots))))
                  eq_refl eq_refl eq_refl eq_refl eq_refl)).
Defined.

Lemma wait_returns_once_the_download_is_over :
  waitForUploadToFinish [on_transfer (set_download idle)]
    (downloading_store Scripted.silent)
  = Some (on_transfer (set_download idle) (downloading_store Scripted.silent))
  /\ exists k,
      k <= 1
      /\ on_transfer (set_download idle) (downloading_store Scripted.silent)
         = after (firstn k [on_transfer (set_download idle)])
             (downloading_store Scripted.silent)
      /\ _isTransfering Scripted.collaborators
           (on_transfer (set_download idle) (downloading_store Scripted.silent)) = false
      /\ forall j, j < k ->
                   _isTransfering Scripted.collaborators
                     (after (firstn j [on_transfer (set_download idle)])
                        (downloading_store Scripted.silent)) = true.
Proof.
  split; [reflexivity|].
  apply (proj1 (wait_returns_at_first_free_poll Scripted.collaborators
                  [on_transfer (set_download idle)]
                  (downloading_store Scripted.silent)
                  (on_transfer (set_download idle) (downloading_store Scripted.silent)))).
  reflexivity.
Defined.
